(** * moto: Step Functions comparison evaluation and the ServiceDiscovery backend

    A shallow embedding of
    - [moto/stepfunctions/parser/asl/component/state/choice/comparison/comparison_func.py]
    - [moto/servicediscovery/models.py]
    together with the properties stated about them.

    Python values are modelled by the inductive type [json]; Python lists
    keep their order (a stack grows at the END of its list, as [append] and
    [pop] do); Python dicts are insertion-ordered association lists with
    unique keys; exceptions are the left summand of a result. *)

From Stdlib Require Import String Ascii List Bool Arith ZArith Lia.
From Stdlib Require Import DecimalString.
From Stdlib Require DecimalPos DecimalFacts NArith.
Import ListNotations.

Local Open Scope string_scope.
Local Open Scope list_scope.
Local Open Scope nat_scope.

Set Warnings "-register-all".

(* ===================================================================== *)
(** ** Python values *)
(* ===================================================================== *)

(** The values a JSON document decodes to in Python.  A [float] is carried
    by the text [repr] prints for it (the shortest decimal that reads back
    to the same float), which is all the code below ever does with one.
    Characters are code points below 256. *)
Definition pyfloat : Type := string.

Inductive json : Type :=
| JNull
| JBool (b : bool)
| JInt (z : Z)
| JFloat (shown : pyfloat)
| JString (s : string)
| JArray (items : list json)
| JObject (fields : list (string * json)).

Module Py.

Local Open Scope string_scope.

Definition double_quote : ascii := ascii_of_nat 34.
Definition single_quote : ascii := ascii_of_nat 39.
Definition backslash : ascii := ascii_of_nat 92.

Definition char (c : ascii) : string := String c EmptyString.

Fixpoint has_char (c : ascii) (s : string) : bool :=
  match s with
  | EmptyString => false
  | String d r => Ascii.eqb c d || has_char c r
  end.

Definition hex_digit (n : nat) : ascii :=
  if (n <? 10)%nat then ascii_of_nat (48 + n) else ascii_of_nat (87 + n).

Definition hex2 (n : nat) : string :=
  String (hex_digit (n / 16)) (String (hex_digit (n mod 16)) EmptyString).

(** [repr] of a [str] picks double quotes exactly when the text holds a
    single quote and no double quote. *)
Definition repr_quote (s : string) : ascii :=
  if has_char single_quote s && negb (has_char double_quote s)
  then double_quote else single_quote.

Definition repr_char (q c : ascii) : string :=
  let n := nat_of_ascii c in
  if Ascii.eqb c q || Ascii.eqb c backslash then String backslash (char c)
  else if (n =? 9)%nat then String backslash "t"
  else if (n =? 10)%nat then String backslash "n"
  else if (n =? 13)%nat then String backslash "r"
  else if ((n <? 32) || (n =? 127))%nat then String backslash ("x" ++ hex2 n)
  else if (n <? 127)%nat then char c
  else if ((n <? 161) || (n =? 173))%nat then String backslash ("x" ++ hex2 n)
  else char c.

Fixpoint repr_chars (q : ascii) (s : string) : string :=
  match s with
  | EmptyString => EmptyString
  | String c r => repr_char q c ++ repr_chars q r
  end.

Definition repr_str (s : string) : string :=
  let q := repr_quote s in
  String q (repr_chars q s ++ char q).

(** The text of [str(n)] for an [int]; the interpreter gives it when the
    [int] is within its digit bound, see [int_fits] below. *)
Definition str_int (z : Z) : string := NilZero.string_of_int (Z.to_int z).

(** [repr(v)]. *)
Fixpoint repr (v : json) : string :=
  match v with
  | JNull => "None"
  | JBool true => "True"
  | JBool false => "False"
  | JInt z => str_int z
  | JFloat shown => shown
  | JString s => repr_str s
  | JArray items =>
      "[" ++
      (fix join (l : list json) : string :=
         match l with
         | [] => EmptyString
         | x :: r =>
             match r with
             | [] => repr x
             | _ :: _ => repr x ++ ", " ++ join r
             end
         end) items ++ "]"
  | JObject fields =>
      "{" ++
      (fix join (l : list (string * json)) : string :=
         match l with
         | [] => EmptyString
         | (k, x) :: r =>
             match r with
             | [] => repr_str k ++ ": " ++ repr x
             | _ :: _ => repr_str k ++ ": " ++ repr x ++ ", " ++ join r
             end
         end) fields ++ "}"
  end.

(** The text of [str(v)]: a [str] is itself, anything else is shown by
    [repr]. *)
Definition str (v : json) : string :=
  match v with
  | JString s => s
  | _ => repr v
  end.

(** The interpreter bounds the digits of an [int] that is turned into
    text: [str] and [repr] raise ValueError for an [int] of more decimal
    digits than [sys.get_int_max_str_digits()], which is 4300 unless the
    interpreter is set up otherwise, and 0 when the bound is lifted.
    [int_fits limit z]: the [int] [z] is within the bound, the sign not
    counted. *)
Definition int_fits (limit : nat) (z : Z) : bool :=
  (limit =? 0)%nat || (String.length (str_int (Z.abs z)) <=? limit)%nat.

(** Every [int] that [v] holds, at any depth, is within the bound; [repr]
    shows each of them on its way through the lists and dicts of [v]. *)
Fixpoint ints_fit (limit : nat) (v : json) : bool :=
  match v with
  | JInt z => int_fits limit z
  | JArray items =>
      (fix all (l : list json) : bool :=
         match l with
         | [] => true
         | x :: r => ints_fit limit x && all r
         end) items
  | JObject fields =>
      (fix all (l : list (string * json)) : bool :=
         match l with
         | [] => true
         | (_, x) :: r => ints_fit limit x && all r
         end) fields
  | _ => true
  end.

(** [str(v)] as the interpreter computes it: the text of [str] above when
    every [int] to show is within the bound; [None] stands for the
    ValueError raised otherwise. *)
Definition str_checked (limit : nat) (v : json) : option string :=
  if ints_fit limit v then Some (str v) else None.

(** [s == v] for a [str] on the left: only an equal [str] compares equal. *)
Definition str_eq (s : string) (v : json) : bool :=
  match v with
  | JString t => String.eqb s t
  | _ => false
  end.


(** [l.pop()]: the last element and the list without it; [None] stands
    for the [IndexError] of an empty list. *)
Fixpoint pop {A : Type} (l : list A) : option (A * list A) :=
  match l with
  | [] => None
  | x :: r =>
      match pop r with
      | None => Some (x, [])
      | Some (y, r') => Some (y, x :: r')
      end
  end.

(** [l.append(x)]. *)
Definition append {A : Type} (l : list A) (x : A) : list A := (l ++ [x])%list.

(** *** Insertion-ordered dicts with [str] keys

    The entries in insertion order; the keys of a dict are distinct. *)
Definition dict (V : Type) : Type := list (string * V).

(** [d.get(k)]. *)
Fixpoint dict_get {V : Type} (k : string) (d : dict V) : option V :=
  match d with
  | [] => None
  | (k', v) :: r => if String.eqb k k' then Some v else dict_get k r
  end.

(** [k in d]. *)
Definition dict_mem {V : Type} (k : string) (d : dict V) : bool :=
  match dict_get k d with
  | Some _ => true
  | None => false
  end.

(** [d[k] = v]: an existing key keeps its place, a new key goes last. *)
Fixpoint dict_set {V : Type} (k : string) (v : V) (d : dict V) : dict V :=
  match d with
  | [] => [(k, v)]
  | (k', v') :: r =>
      if String.eqb k k' then (k', v) :: r else (k', v') :: dict_set k v r
  end.

(** [del d[k]] for a key that is present; [d.pop(k, None)]. *)
Definition dict_del {V : Type} (k : string) (d : dict V) : dict V :=
  filter (fun e => negb (String.eqb k (fst e))) d.

(** [d.values()]. *)
Definition dict_values {V : Type} (d : dict V) : list V := map snd d.

(** [d.keys()], which is also what iterating over [d] yields. *)
Definition dict_keys {V : Type} (d : dict V) : list string := map fst d.

Definition dict_wf {V : Type} (d : dict V) : Prop := NoDup (dict_keys d).

(** [s.startswith(p)]. *)
Fixpoint starts_with (p s : string) : bool :=
  match p, s with
  | EmptyString, _ => true
  | String a p', String b s' => Ascii.eqb a b && starts_with p' s'
  | String _ _, EmptyString => false
  end.

(** [x in s] for two [str]: [x] occurs in [s] as a substring. *)
Fixpoint str_contains (x s : string) : bool :=
  starts_with x s ||
  match s with
  | EmptyString => false
  | String _ s' => str_contains x s'
  end.

End Py.

(* ===================================================================== *)
(** ** Step Functions: [ComparisonFunc] *)
(* ===================================================================== *)

Module StepFunctions.

Inductive error : Type :=
| IndexError                      (* pop from empty list *)
| ValueError                      (* an int beyond the digit bound of str *)
| RuntimeError (name : string).   (* an ASL error name *)

(** Modelled from the spec: the class [Environment], which is defined
    elsewhere ([moto.stepfunctions.parser.asl.eval.environment]).
    Section 3 of the specification gives it a current
    JSON value, a transient operand stack, a contextual variable store and
    an event accumulator.  The top of the stack is the LAST element. *)
Record Environment : Type := {
  inp : json;
  stack : list json;
  context_vars : Py.dict json;
  event_log : list json
}.

(** The environment with [st] for its stack: what [env.stack.pop()] and
    [env.stack.append(x)] leave of [env]. *)
Definition with_stack (env : Environment) (st : list json) : Environment :=
  {| inp := inp env; stack := st;
     context_vars := context_vars env; event_log := event_log env |}.

(** An evaluation returns or raises.  The environment is an object that
    the evaluation changes in place, so what was done to it before an
    exception stays done: the left summand holds the exception and the
    environment as the raise left it. *)
Definition result (A : Type) : Type := (error * Environment + A)%type.

Section Interpreter.

(** The bound of the interpreter on the digits of an [int] shown as text,
    [sys.get_int_max_str_digits()]; 0 when there is none. *)
Variable int_max_str_digits : nat.

(** [ComparisonFunc._string_equals]:
<<
    val = env.stack.pop()
    res = str(val) == value
    env.stack.append(res)
>>
    The pop raises IndexError on an empty stack; [str(val)] raises
    ValueError for an [int] beyond the bound, when the value is popped
    already and nothing is pushed. *)
Definition _string_equals (env : Environment) (value : json)
  : result Environment :=
  match Py.pop (stack env) with
  | None => inl (IndexError, env)
  | Some (val, rest) =>
      match Py.str_checked int_max_str_digits val with
      | None => inl (ValueError, with_stack env rest)
      | Some text =>
          let res := Py.str_eq text value in
          inr (with_stack env (Py.append rest (JBool res)))
      end
  end.

End Interpreter.

(** The class [Operator] is declared elsewhere in the repository.  The
    code below uses one thing of an operator, its [eval(env, value)],
    which works on the environment it is given and may raise; nothing
    more is known of it here. *)
Record Operator : Type := {
  eval : Environment -> json -> result Environment
}.

Section Dispatch.

(** The enumeration of operator kinds and the registry behind
    [OperatorFactory.get] are declared elsewhere in the repository; the
    lookup may raise. *)
Variable ComparisonOperatorType : Type.
Variable OperatorFactory_get : ComparisonOperatorType -> error + Operator.

Record ComparisonFunc : Type := {
  operator_type : ComparisonOperatorType;
  value : json
}.

(** [ComparisonFunc._eval_body]:
<<
  value = self.value
  operator: Operator = OperatorFactory.get(self.operator_type)
  operator.eval(env=env, value=value)
>> *)
Definition _eval_body (self : ComparisonFunc) (env : Environment)
  : result Environment :=
  let value := value self in
  match OperatorFactory_get (operator_type self) with
  | inl e => inl (e, env)
  | inr operator => eval operator env value
  end.

End Dispatch.

(** Modelled from the spec: the Choice executor and the JSONPath resolver
    are defined elsewhere.  Section 3: a ChoiceRule is an
    operator kind, a JSONPath variable reference, a literal comparison
    operand and a target Next state.  Section 4.3 gives an operator the
    contract: given the value resolved from the variable path of the rule
    and the literal operand of the rule, return a boolean.  A variable
    reference [$.a.b] is the key path [["a"; "b"]]; the operator kind is
    carried by its comparison. *)
Record ChoiceRule : Type := {
  rule_variable : list string;
  rule_compare : json -> json -> bool;
  rule_operand : json;
  rule_next : string
}.

(** Modelled from the spec: the JSONPath resolver, which is defined
    elsewhere, on key paths. *)
Fixpoint resolve (path : list string) (v : json) : option json :=
  match path with
  | [] => Some v
  | k :: rest =>
      match v with
      | JObject fields =>
          match Py.dict_get k fields with
          | Some x => resolve rest x
          | None => None
          end
      | _ => None
      end
  end.

(** Modelled from the spec: the operator StringEquals, which is defined
    elsewhere.  Section 4.3: the expected type is a string, and a type
    mismatch between the resolved value and the expected type evaluates
    to non-match, not to an error. *)
Definition StringEquals (variable operand : json) : bool :=
  match variable with
  | JString s => Py.str_eq s operand
  | _ => false
  end.

(** Modelled from the spec: the evaluation of one rule, which is
    defined elsewhere.  Section 4.2: the rule evaluation pushes the
    resolved value, the operator consumes it and pushes a boolean result,
    the caller pops it to decide a branch; the stack is then the one the
    evaluation began with.  The specification does not say what a rule
    does with a variable that the payload does not hold; it is taken as
    no match, so that the Choice goes on to its next rule or to its
    Default. *)
Definition eval_rule (r : ChoiceRule) (env : Environment)
  : bool * Environment :=
  match resolve (rule_variable r) (inp env) with
  | None => (false, env)
  | Some v => (rule_compare r v (rule_operand r), env)
  end.

(** Modelled from the spec: the evaluation of the rules of a Choice,
    which is defined elsewhere; section 4.4: top to bottom, first match wins. *)
Fixpoint eval_rules (rules : list ChoiceRule) (env : Environment)
  : option string * Environment :=
  match rules with
  | [] => (None, env)
  | r :: rest =>
      match eval_rule r env with
      | (true, env1) => (Some (rule_next r), env1)
      | (false, env1) => eval_rules rest env1
      end
  end.

(** Modelled from the spec: the Choice executor, which is defined
    elsewhere; section 4.4: the Next of the first matching rule, else
    the Default, else the failure States.NoChoiceMatched. *)
Definition choice_next (rules : list ChoiceRule) (default : option string)
    (env : Environment) : result (string * Environment) :=
  match eval_rules rules env with
  | (Some next, env1) => inr (next, env1)
  | (None, env1) =>
      match default with
      | Some next => inr (next, env1)
      | None => inl (RuntimeError "States.NoChoiceMatched", env1)
      end
  end.

(** Modelled from the spec: the rule with the given variable path, the
    operator StringEquals with the given operand, and the given Next. *)
Definition StringEquals_rule (path : list string) (operand : string)
    (next : string) : ChoiceRule :=
  {| rule_variable := path; rule_compare := StringEquals;
     rule_operand := JString operand; rule_next := next |}.

(** *** Properties of an evaluation, used to state the results below *)

(** The evaluation returned, and its stack is the stack before with the
    top entry replaced by a boolean: one value popped, one boolean
    pushed, the same size, every entry below the top as it was. *)
Definition replaces_top_by_bool (env : Environment)
    (r : result Environment) : Prop :=
  exists rest top b env',
    stack env = (rest ++ [top])%list /\
    r = inr env' /\
    stack env' = (rest ++ [JBool b])%list /\
    length (stack env') = length (stack env) /\
    Py.pop (stack env') = Some (JBool b, rest) /\
    (forall i, i < length rest ->
               nth_error (stack env') i = nth_error (stack env) i).

Definition env_of (payload : json) (st : list json) : Environment :=
  {| inp := payload; stack := st; context_vars := []; event_log := [] |}.


End StepFunctions.

(* ===================================================================== *)
(** ** ServiceDiscovery: the backend of [moto/servicediscovery/models.py] *)
(* ===================================================================== *)

Module ServiceDiscovery.

Import Py.
Local Open Scope string_scope.

Inductive exn : Type :=
| NamespaceNotFound (ns : string)
| ServiceNotFound (srv : string)
| InstanceNotFound (srv : string)
| OperationNotFound
| ConflictingDomainExists (vpc : string)
| CustomHealthNotFound (srv : string)
| InvalidInput (message : string)
| IndexError
| KeyError (key : string)
| TypeError
| OtherError (detail : string).

Definition result (A : Type) : Type := (exn + A)%type.

(** [v[k]] for a [str] key [k]: only a dict can be indexed by a [str]. *)
Definition getitem (v : json) (k : string) : result json :=
  match v with
  | JObject d =>
      match dict_get k d with
      | Some x => inr x
      | None => inl (KeyError k)
      end
  | _ => inl TypeError
  end.

(** [v[k] = x] for a [str] key [k]. *)
Definition setitem (v : json) (k : string) (x : json) : result json :=
  match v with
  | JObject d => inr (JObject (dict_set k x d))
  | _ => inl TypeError
  end.

(** [x in v] for a [str] on the left. *)
Definition contains (v : json) (x : string) : result bool :=
  match v with
  | JString s => inr (str_contains x s)
  | JArray items => inr (existsb (str_eq x) items)
  | JObject d => inr (dict_mem x d)
  | _ => inl TypeError
  end.

(** [isinstance(v, list)]. *)
Definition is_list (v : json) : bool :=
  match v with
  | JArray _ => true
  | _ => false
  end.

Module Namespace.
Record t : Type := {
  id : string;
  arn : string;
  name : string;
  type : string;
  creator_request_id : string;
  description : string;
  dns_properties : dict json;
  http_properties : dict json;
  vpc : option string;
  created : pyfloat;
  updated : pyfloat
}.
End Namespace.

Module ServiceInstance.
Record t : Type := {
  service_id : string;
  instance_id : string;
  attributes : dict string;
  creator_request_id : string;
  health_status : string
}.

Definition with_health_status (self : t) (status : string) : t :=
  {| service_id := service_id self; instance_id := instance_id self;
     attributes := attributes self;
     creator_request_id := creator_request_id self;
     health_status := status |}.
End ServiceInstance.

Module Service.
(** [description], [dns_config] and the health-check configurations
    hold whatever JSON value the caller supplies ([update] stores
    entries of [details] unchecked); [JNull] is [None]. *)
Record t : Type := {
  id : string;
  arn : string;
  name : string;
  namespace_id : string;
  description : json;
  creator_request_id : string;
  dns_config : json;
  health_check_config : json;
  health_check_custom_config : json;
  service_type : string;
  created : pyfloat;
  instances : list ServiceInstance.t;
  instances_revision : dict Z
}.

Definition with_description (self : t) (d : json) : t :=
  {| id := id self; arn := arn self; name := name self;
     namespace_id := namespace_id self; description := d;
     creator_request_id := creator_request_id self;
     dns_config := dns_config self;
     health_check_config := health_check_config self;
     health_check_custom_config := health_check_custom_config self;
     service_type := service_type self; created := created self;
     instances := instances self;
     instances_revision := instances_revision self |}.

Definition with_dns_config (self : t) (c : json) : t :=
  {| id := id self; arn := arn self; name := name self;
     namespace_id := namespace_id self; description := description self;
     creator_request_id := creator_request_id self;
     dns_config := c;
     health_check_config := health_check_config self;
     health_check_custom_config := health_check_custom_config self;
     service_type := service_type self; created := created self;
     instances := instances self;
     instances_revision := instances_revision self |}.

Definition with_health_check_config (self : t) (c : json) : t :=
  {| id := id self; arn := arn self; name := name self;
     namespace_id := namespace_id self; description := description self;
     creator_request_id := creator_request_id self;
     dns_config := dns_config self;
     health_check_config := c;
     health_check_custom_config := health_check_custom_config self;
     service_type := service_type self; created := created self;
     instances := instances self;
     instances_revision := instances_revision self |}.

Definition with_instances (self : t) (l : list ServiceInstance.t)
    (rev : dict Z) : t :=
  {| id := id self; arn := arn self; name := name self;
     namespace_id := namespace_id self; description := description self;
     creator_request_id := creator_request_id self;
     dns_config := dns_config self;
     health_check_config := health_check_config self;
     health_check_custom_config := health_check_custom_config self;
     service_type := service_type self; created := created self;
     instances := l;
     instances_revision := rev |}.

(** [Service.update].  The object is updated in place, so what was
    assigned before an exception stays assigned: the result is the
    exception, if any, and the object as the call leaves it.  The DNS
    configuration is the dict that [Service.__init__] was given, and the
    assignment of line 104 goes into that dict: a service built from the
    same dict object sees it too.  Here every service has a configuration
    of its own, so what is stated of [update] is stated of the service
    that is updated and of no other. *)
Definition update (self : t) (details : dict json) : option exn * t :=
  let self1 :=
    match dict_get "Description" details with
    | Some d => with_description self d
    | None => self
    end in
  let '(raised, self2) :=
    match dict_get "DnsConfig" details with
    | Some dc =>
        let self1' :=
          match dns_config self1 with
          | JNull => with_dns_config self1 (JObject [])
          | _ => self1
          end in
        match getitem dc "DnsRecords" with
        | inl e => (Some e, self1')
        | inr records =>
            match setitem (dns_config self1') "DnsRecords" records with
            | inl e => (Some e, self1')
            | inr cfg => (None, with_dns_config self1' cfg)
            end
        end
    | None => (None, with_dns_config self1 JNull)
    end in
  match raised with
  | Some e => (Some e, self2)
  | None =>
      (None,
       match dict_get "HealthCheckConfig" details with
       | Some h => with_health_check_config self2 h
       | None => self2
       end)
  end.
End Service.

Module Operation.
Record t : Type := {
  id : string;
  status : string;
  operation_type : string;
  created : pyfloat;
  updated : pyfloat;
  targets : dict string
}.
End Operation.

(** *** [to_json] of the four resource classes *)

Definition json_of_attributes (attributes : dict string) : json :=
  JObject (map (fun e => (fst e, JString (snd e))) attributes).

(** [Namespace.to_json]. *)
Definition Namespace_to_json (self : Namespace.t) : dict json :=
  [("Arn", JString (Namespace.arn self));
   ("Id", JString (Namespace.id self));
   ("Name", JString (Namespace.name self));
   ("Description", JString (Namespace.description self));
   ("Type", JString (Namespace.type self));
   ("Properties",
    JObject [("DnsProperties", JObject (Namespace.dns_properties self));
             ("HttpProperties", JObject (Namespace.http_properties self))]);
   ("CreateDate", JFloat (Namespace.created self));
   ("UpdateDate", JFloat (Namespace.updated self));
   ("CreatorRequestId", JString (Namespace.creator_request_id self))].

(** [Service.to_json]. *)
Definition Service_to_json (self : Service.t) : dict json :=
  [("Arn", JString (Service.arn self));
   ("Id", JString (Service.id self));
   ("Name", JString (Service.name self));
   ("NamespaceId", JString (Service.namespace_id self));
   ("CreateDate", JFloat (Service.created self));
   ("Description", Service.description self);
   ("CreatorRequestId", JString (Service.creator_request_id self));
   ("DnsConfig", Service.dns_config self);
   ("HealthCheckConfig", Service.health_check_config self);
   ("HealthCheckCustomConfig", Service.health_check_custom_config self);
   ("Type", JString (Service.service_type self))].

(** [ServiceInstance.to_json]. *)
Definition ServiceInstance_to_json (self : ServiceInstance.t) : dict json :=
  [("Id", JString (ServiceInstance.instance_id self));
   ("CreatorRequestId", JString (ServiceInstance.service_id self));
   ("Attributes", json_of_attributes (ServiceInstance.attributes self))].

(** The pair [(instance.instance_id, instance.health_status)] that
    [get_instances_health_status] reports for an instance. *)
Definition status_pair (instance : ServiceInstance.t) : string * string :=
  (ServiceInstance.instance_id instance,
   ServiceInstance.health_status instance).

(** [Operation.to_json]. *)
Definition Operation_to_json (self : Operation.t) (short : bool) : dict json :=
  if short
  then [("Id", JString (Operation.id self));
        ("Status", JString (Operation.status self))]
  else [("Id", JString (Operation.id self));
        ("Status", JString (Operation.status self));
        ("Type", JString (Operation.operation_type self));
        ("CreateDate", JFloat (Operation.created self));
        ("UpdateDate", JFloat (Operation.updated self));
        ("Targets", json_of_attributes (Operation.targets self))].

(** The namespace with [description] and [dns_properties] assigned, as
    the two [update_..._dns_namespace] methods assign them. *)
Definition Namespace_with_description (self : Namespace.t)
    (description : string) : Namespace.t :=
  {| Namespace.id := Namespace.id self; Namespace.arn := Namespace.arn self;
     Namespace.name := Namespace.name self;
     Namespace.type := Namespace.type self;
     Namespace.creator_request_id := Namespace.creator_request_id self;
     Namespace.description := description;
     Namespace.dns_properties := Namespace.dns_properties self;
     Namespace.http_properties := Namespace.http_properties self;
     Namespace.vpc := Namespace.vpc self;
     Namespace.created := Namespace.created self;
     Namespace.updated := Namespace.updated self |}.

Definition Namespace_with_dns_properties (self : Namespace.t)
    (dns_properties : dict json) : Namespace.t :=
  {| Namespace.id := Namespace.id self; Namespace.arn := Namespace.arn self;
     Namespace.name := Namespace.name self;
     Namespace.type := Namespace.type self;
     Namespace.creator_request_id := Namespace.creator_request_id self;
     Namespace.description := Namespace.description self;
     Namespace.dns_properties := dns_properties;
     Namespace.http_properties := Namespace.http_properties self;
     Namespace.vpc := Namespace.vpc self;
     Namespace.created := Namespace.created self;
     Namespace.updated := Namespace.updated self |}.

(** *** [ServiceDiscoveryBackend.paginate] *)

(** [c.isdigit()] for one character below 256: the ten decimal digits and
    the superscripts two, three and one. *)
Definition is_digit_char (c : ascii) : bool :=
  let n := nat_of_ascii c in
  ((48 <=? n) && (n <=? 57) || (n =? 178) || (n =? 179) || (n =? 185))%nat.

Fixpoint all_digit_chars (s : string) : bool :=
  match s with
  | EmptyString => true
  | String c r => is_digit_char c && all_digit_chars r
  end.

(** [s.isdigit()]: at least one character, and digits only. *)
Definition isdigit (s : string) : bool :=
  match s with
  | EmptyString => false
  | String _ _ => all_digit_chars s
  end.

(** A position of a slice on a list of [len] elements: a negative one
    counts from the end, and both ends are clipped. *)
Definition slice_index (len : nat) (i : Z) : nat :=
  if (i <? 0)%Z
  then Z.to_nat (Z.max 0 (i + Z.of_nat len))
  else Nat.min (Z.to_nat i) len.

(** [l[start:stop]]. *)
Definition slice {A : Type} (l : list A) (start stop : Z) : list A :=
  let a := slice_index (length l) start in
  let b := slice_index (length l) stop in
  firstn (b - a) (skipn a l).

(** [l[start:]]. *)
Definition slice_from {A : Type} (l : list A) (start : Z) : list A :=
  skipn (slice_index (length l) start) l.

Section Paginate.

(** The limit of the interpreter on the number of digits that [int(s)] and
    [str(n)] convert ([sys.get_int_max_str_digits()]): 0 when there is no
    limit, as in the interpreters that predate it. *)
Variable int_max_str_digits : nat.

Definition digits_allowed (n : nat) : bool :=
  ((int_max_str_digits =? 0) || (n <=? int_max_str_digits))%nat.

(** [int(s)]: the number that the decimal digits of [s] write; a
    ValueError for any other character, and for more characters than the
    limit allows. *)
Definition int_of_str (s : string) : result Z :=
  match NilZero.uint_of_string s with
  | Some u =>
      if digits_allowed (String.length s)
      then inr (Z.of_uint u)
      else inl (OtherError "ValueError")
  | None => inl (OtherError "ValueError")
  end.

(** [str(n)]; a ValueError for too many digits. *)
Definition str_of_int (n : Z) : result string :=
  if digits_allowed (String.length (str_int (Z.abs n)))
  then inr (str_int n)
  else inl (OtherError "ValueError").

(** [paginate(items, max_results, next_token)]. *)
Definition paginate {A : Type} (items : list A) (max_results : option Z)
    (next_token : option string) : result (list A * option string) :=
  let next_token :=
    match next_token with
    | None => "0"
    | Some t => t
    end in
  if negb (isdigit next_token)
  then inr ([], None)
  else
    let max_results :=
      match max_results with
      | None => Z.of_nat (length items)
      | Some m => m
      end in
    match int_of_str next_token with
    | inl e => inl e
    | inr start =>
        let new_token := (start + max_results)%Z in
        if (new_token >=? Z.of_nat (length items))%Z
        then inr (slice_from items start, None)
        else
          match str_of_int new_token with
          | inl e => inl e
          | inr token => inr (slice items start new_token, Some token)
          end
    end.

(** A client of [paginate]: it asks for the first page, then for the page
    of each token it is handed, at most [calls] times, and joins the pages
    in order; [None] when the last page it got still came with a token. *)
Fixpoint follow_pages {A : Type} (calls : nat) (items : list A)
    (max_results : option Z) (next_token : option string)
  : result (option (list A)) :=
  match calls with
  | O => inr None
  | S n =>
      match paginate items max_results next_token with
      | inl e => inl e
      | inr (page, None) => inr (Some page)
      | inr (page, Some token) =>
          match follow_pages n items max_results (Some token) with
          | inl e => inl e
          | inr None => inr None
          | inr (Some rest) => inr (Some (page ++ rest)%list)
          end
      end
  end.

End Paginate.

(** What the process supplies from outside the backend: the draws of the
    random generator behind [random.choice] and the readings of the
    clock behind [unix_time], each consumed in order. *)
Record World : Type := {
  rng : nat -> nat;
  rng_pos : nat;
  clock : nat -> pyfloat;
  clock_pos : nat
}.

(** The world after [n] more draws from the generator. *)
Definition drawn (w : World) (n : nat) : World :=
  {| rng := rng w; rng_pos := rng_pos w + n;
     clock := clock w; clock_pos := clock_pos w |}.

(** The collaborators imported from other packages of the repository:
    [moto.utilities.tagging_service.TaggingService] with its
    [tag_resource], and [moto.utilities.utils.get_partition]. *)
Class Collaborators : Type := {
  TaggingService : Type;
  TaggingService_init : TaggingService;
  tag_resource :
    string -> list (dict string) -> TaggingService -> result TaggingService;
  get_partition : string -> string
}.

Section Backend.

Context `{Collaborators}.

Record ServiceDiscoveryBackend : Type := {
  region_name : string;
  account_id : string;
  operations : dict Operation.t;
  namespaces : dict Namespace.t;
  services : dict Service.t;
  tagger : TaggingService
}.

(** [ServiceDiscoveryBackend.__init__]. *)
Definition ServiceDiscoveryBackend_init (region_name account_id : string)
  : ServiceDiscoveryBackend :=
  {| region_name := region_name; account_id := account_id;
     operations := []; namespaces := []; services := [];
     tagger := TaggingService_init |}.

Definition with_operations (b : ServiceDiscoveryBackend)
    (o : dict Operation.t) : ServiceDiscoveryBackend :=
  {| region_name := region_name b; account_id := account_id b;
     operations := o; namespaces := namespaces b;
     services := services b; tagger := tagger b |}.

Definition with_namespaces (b : ServiceDiscoveryBackend)
    (n : dict Namespace.t) : ServiceDiscoveryBackend :=
  {| region_name := region_name b; account_id := account_id b;
     operations := operations b; namespaces := n;
     services := services b; tagger := tagger b |}.

Definition with_services (b : ServiceDiscoveryBackend)
    (s : dict Service.t) : ServiceDiscoveryBackend :=
  {| region_name := region_name b; account_id := account_id b;
     operations := operations b; namespaces := namespaces b;
     services := s; tagger := tagger b |}.

Definition with_tagger (b : ServiceDiscoveryBackend)
    (t : TaggingService) : ServiceDiscoveryBackend :=
  {| region_name := region_name b; account_id := account_id b;
     operations := operations b; namespaces := namespaces b;
     services := services b; tagger := t |}.

(** *** The monad of backend methods

    A method runs on the world and the backend object and leaves both
    as they are when it returns or raises. *)
Definition state : Type := (World * ServiceDiscoveryBackend)%type.

Definition M (A : Type) : Type := state -> result A * state.

Definition ret {A : Type} (x : A) : M A := fun s => (inr x, s).

Definition raise {A : Type} (e : exn) : M A := fun s => (inl e, s).

Definition bind {A B : Type} (c : M A) (k : A -> M B) : M B :=
  fun s =>
    match c s with
    | (inl e, s1) => (inl e, s1)
    | (inr x, s1) => k x s1
    end.

Definition self : M ServiceDiscoveryBackend := fun s => (inr (snd s), s).

Definition assign (f : ServiceDiscoveryBackend -> ServiceDiscoveryBackend)
  : M unit :=
  fun s => (inr tt, (fst s, f (snd s))).

Notation "x <- c ;; k" := (bind c (fun x => k))
  (at level 61, c at next level, right associativity).
Notation "c ;; k" := (bind c (fun _ => k))
  (at level 61, right associativity).

(** [random.choice(seq)]. *)
Definition random_choice (seq : string) : M ascii :=
  fun s =>
    let w := fst s in
    match String.get (rng w (rng_pos w) mod String.length seq) seq with
    | Some c =>
        (inr c,
         ({| rng := rng w; rng_pos := S (rng_pos w);
             clock := clock w; clock_pos := clock_pos w |}, snd s))
    | None => (inl IndexError, s)
    end.

(** [unix_time()]. *)
Definition unix_time : M pyfloat :=
  fun s =>
    let w := fst s in
    (inr (clock w (clock_pos w)),
     ({| rng := rng w; rng_pos := rng_pos w;
         clock := clock w; clock_pos := S (clock_pos w) |}, snd s)).

Definition ascii_lowercase : string := "abcdefghijklmnopqrstuvwxyz".
Definition digits : string := "0123456789".

(** [random_id(size)]: [size] draws, joined in order. *)
Fixpoint random_id (size : nat) : M string :=
  match size with
  | O => ret EmptyString
  | S n =>
      c <- random_choice (ascii_lowercase ++ digits) ;;
      r <- random_id n ;;
      ret (String c r)
  end.

(** [Namespace.__init__]. *)
Definition Namespace_init (account_id region name ns_type
    creator_request_id description : string)
    (dns_properties http_properties : dict json) (vpc : option string)
  : M Namespace.t :=
  rid <- random_id 20 ;;
  let id := "ns-" ++ rid in
  let arn := "arn:" ++ get_partition region ++ ":servicediscovery:" ++
             region ++ ":" ++ account_id ++ ":namespace/" ++ id in
  created <- unix_time ;;
  updated <- unix_time ;;
  ret {| Namespace.id := id; Namespace.arn := arn;
         Namespace.name := name; Namespace.type := ns_type;
         Namespace.creator_request_id := creator_request_id;
         Namespace.description := description;
         Namespace.dns_properties := dns_properties;
         Namespace.http_properties := http_properties;
         Namespace.vpc := vpc;
         Namespace.created := created; Namespace.updated := updated |}.

(** [Service.__init__]. *)
Definition Service_init (account_id region name namespace_id : string)
    (description creator_request_id : string)
    (dns_config health_check_config health_check_custom_config : json)
    (service_type : string) : M Service.t :=
  rid <- random_id 8 ;;
  let id := "srv-" ++ rid in
  let arn := "arn:" ++ get_partition region ++ ":servicediscovery:" ++
             region ++ ":" ++ account_id ++ ":service/" ++ id in
  created <- unix_time ;;
  ret {| Service.id := id; Service.arn := arn; Service.name := name;
         Service.namespace_id := namespace_id;
         Service.description := JString description;
         Service.creator_request_id := creator_request_id;
         Service.dns_config := dns_config;
         Service.health_check_config := health_check_config;
         Service.health_check_custom_config := health_check_custom_config;
         Service.service_type := service_type;
         Service.created := created;
         Service.instances := [];
         Service.instances_revision := [] |}.

(** [ServiceInstance.__init__]: an absent or empty [attributes] becomes
    the empty dict, an absent or empty [creator_request_id] a random
    id. *)
Definition ServiceInstance_init (service_id instance_id : string)
    (creator_request_id : option string)
    (attributes : option (dict string)) : M ServiceInstance.t :=
  let attributes :=
    match attributes with
    | Some (e :: r) => e :: r
    | _ => []
    end in
  creator_request_id <-
    match creator_request_id with
    | Some (String c r) => ret (String c r)
    | _ => random_id 32
    end ;;
  ret {| ServiceInstance.service_id := service_id;
         ServiceInstance.instance_id := instance_id;
         ServiceInstance.attributes := attributes;
         ServiceInstance.creator_request_id := creator_request_id;
         ServiceInstance.health_status := "HEALTHY" |}.

(** [Operation.__init__]. *)
Definition Operation_init (operation_type : string)
    (targets : dict string) : M Operation.t :=
  r32 <- random_id 32 ;;
  r8 <- random_id 8 ;;
  created <- unix_time ;;
  updated <- unix_time ;;
  ret {| Operation.id := r32 ++ "-" ++ r8;
         Operation.status := "SUCCESS";
         Operation.operation_type := operation_type;
         Operation.created := created; Operation.updated := updated;
         Operation.targets := targets |}.

Definition list_namespaces : M (list Namespace.t) :=
  b <- self ;; ret (dict_values (namespaces b)).

Definition _create_operation (op_type : string) (targets : dict string)
  : M string :=
  operation <- Operation_init op_type targets ;;
  assign (fun b =>
    with_operations b
      (dict_set (Operation.id operation) operation (operations b))) ;;
  ret (Operation.id operation).

(** [self.tagger.tag_resource(arn, tags)]. *)
Definition tagger_tag_resource (arn : string) (tags : list (dict string))
  : M unit :=
  fun s =>
    match tag_resource arn tags (tagger (snd s)) with
    | inl e => (inl e, s)
    | inr t => (inr tt, (fst s, with_tagger (snd s) t))
    end.

Definition create_http_namespace (name creator_request_id description : string)
    (tags : list (dict string)) : M string :=
  b <- self ;;
  namespace <-
    Namespace_init (account_id b) (region_name b) name "HTTP"
      creator_request_id description
      [("SOA", JObject [])] [("HttpName", JString name)] None ;;
  assign (fun b =>
    with_namespaces b
      (dict_set (Namespace.id namespace) namespace (namespaces b))) ;;
  match tags with
  | _ :: _ => tagger_tag_resource (Namespace.arn namespace) tags
  | [] => ret tt
  end ;;
  operation_id <-
    _create_operation "CREATE_NAMESPACE"
      [("NAMESPACE", Namespace.id namespace)] ;;
  ret operation_id.

Definition delete_namespace (namespace_id : string) : M string :=
  b <- self ;;
  if negb (dict_mem namespace_id (namespaces b))
  then raise (NamespaceNotFound namespace_id)
  else
    assign (fun b =>
      with_namespaces b (dict_del namespace_id (namespaces b))) ;;
    operation_id <-
      _create_operation "DELETE_NAMESPACE" [("NAMESPACE", namespace_id)] ;;
    ret operation_id.

Definition get_namespace (namespace_id : string) : M Namespace.t :=
  b <- self ;;
  match dict_get namespace_id (namespaces b) with
  | None => raise (NamespaceNotFound namespace_id)
  | Some namespace => ret namespace
  end.

(** [op.targets.get("NAMESPACE") in self.namespaces]; a missing target
    is [None], which is the key of no namespace. *)
Definition targets_live_namespace (nss : dict Namespace.t)
    (op : Operation.t) : bool :=
  match dict_get "NAMESPACE" (Operation.targets op) with
  | Some ns => dict_mem ns nss
  | None => false
  end.

Definition list_operations : M (list Operation.t) :=
  assign (fun b =>
    with_operations b
      (filter (fun e => targets_live_namespace (namespaces b) (snd e))
              (operations b))) ;;
  b <- self ;;
  ret (dict_values (operations b)).

Definition get_operation (operation_id : string) : M Operation.t :=
  b <- self ;;
  match dict_get operation_id (operations b) with
  | None => raise OperationNotFound
  | Some operation => ret operation
  end.

Definition create_service (name namespace_id creator_request_id
    description : string)
    (dns_config health_check_config health_check_custom_config : json)
    (tags : list (dict string)) (service_type : string) : M Service.t :=
  b <- self ;;
  service <-
    Service_init (account_id b) (region_name b) name namespace_id
      description creator_request_id dns_config health_check_config
      health_check_custom_config service_type ;;
  assign (fun b =>
    with_services b (dict_set (Service.id service) service (services b))) ;;
  match tags with
  | _ :: _ => tagger_tag_resource (Service.arn service) tags
  | [] => ret tt
  end ;;
  ret service.

Definition get_service (service_id : string) : M Service.t :=
  b <- self ;;
  match dict_get service_id (services b) with
  | None => raise (ServiceNotFound service_id)
  | Some service => ret service
  end.

Definition delete_service (service_id : string) : M unit :=
  assign (fun b => with_services b (dict_del service_id (services b))).

Definition list_services : M (list Service.t) :=
  b <- self ;; ret (dict_values (services b)).

(** The object that [get_service(service_id)] returned is the one the
    store holds under [service_id]; changing it in place changes that
    entry. *)
Definition store_service (service_id : string) (service : Service.t)
  : M unit :=
  assign (fun b =>
    with_services b (dict_set service_id service (services b))).

Definition update_service (service_id : string) (details : dict json)
  : M string :=
  service <- get_service service_id ;;
  let '(raised, service) := Service.update service details in
  store_service service_id service ;;
  match raised with
  | Some e => raise e
  | None =>
      operation_id <-
        _create_operation "UPDATE_SERVICE"
          [("SERVICE", Service.id service)] ;;
      ret operation_id
  end.

(** [d.get(k, 0) + 1]. *)
Definition next_revision (rev : dict Z) (instance_id : string) : Z :=
  (match dict_get instance_id rev with
   | Some n => n
   | None => 0
   end + 1)%Z.

Definition register_instance (service_id instance_id : string)
    (creator_request_id : option string)
    (attributes : option (dict string)) : M string :=
  service <- get_service service_id ;;
  instance <-
    ServiceInstance_init service_id instance_id creator_request_id
      attributes ;;
  let rev := Service.instances_revision service in
  store_service service_id
    (Service.with_instances service
       (Py.append (Service.instances service) instance)
       (dict_set instance_id (next_revision rev instance_id) rev)) ;;
  operation_id <-
    _create_operation "REGISTER_INSTANCE" [("INSTANCE", instance_id)] ;;
  ret operation_id.

(** The list without its first instance named [instance_id], when there
    is one: what the loop of [deregister_instance] removes. *)
Fixpoint remove_instance (instance_id : string)
    (l : list ServiceInstance.t) : option (list ServiceInstance.t) :=
  match l with
  | [] => None
  | instance :: r =>
      if String.eqb (ServiceInstance.instance_id instance) instance_id
      then Some r
      else
        match remove_instance instance_id r with
        | Some r' => Some (instance :: r')
        | None => None
        end
  end.

Definition deregister_instance (service_id instance_id : string)
  : M string :=
  service <- get_service service_id ;;
  match remove_instance instance_id (Service.instances service) with
  | Some remaining =>
      let rev := Service.instances_revision service in
      store_service service_id
        (Service.with_instances service remaining
           (dict_set instance_id (next_revision rev instance_id) rev)) ;;
      operation_id <-
        _create_operation "DEREGISTER_INSTANCE"
          [("INSTANCE", instance_id)] ;;
      ret operation_id
  | None => raise (InstanceNotFound service_id)
  end.

Definition list_instances (service_id : string)
  : M (list ServiceInstance.t) :=
  service <- get_service service_id ;;
  ret (Service.instances service).

(** [instance.instance_id == instance_id]. *)
Definition has_id (instance_id : string) (instance : ServiceInstance.t)
  : bool :=
  String.eqb (ServiceInstance.instance_id instance) instance_id.

Definition get_instance (service_id instance_id : string)
  : M ServiceInstance.t :=
  instances <- list_instances service_id ;;
  match find (fun instance =>
                String.eqb (ServiceInstance.instance_id instance)
                           instance_id) instances with
  | Some instance => ret instance
  | None => raise (InstanceNotFound service_id)
  end.

(** The comprehension
    [[i for i in service.instances if i.instance_id in instances]];
    the membership test raises for a value that is no container. *)
Fixpoint instances_among (instances : json) (l : list ServiceInstance.t)
  : result (list ServiceInstance.t) :=
  match l with
  | [] => inr []
  | instance :: r =>
      match contains instances (ServiceInstance.instance_id instance) with
      | inl e => inl e
      | inr keep =>
          match instances_among instances r with
          | inl e => inl e
          | inr r' => inr (if keep then instance :: r' else r')
          end
      end
  end.

(** [get_instances_health_status]; [instances] is [JNull] for [None]. *)
Definition get_instances_health_status (service_id : string)
    (instances : json) : M (list (string * string)) :=
  service <- get_service service_id ;;
  let instances :=
    match instances with
    | JNull =>
        JArray (map (fun instance =>
                       JString (ServiceInstance.instance_id instance))
                    (Service.instances service))
    | _ => instances
    end in
  if is_list instances
  then raise (InvalidInput "Instances must be a list")
  else
    match instances_among instances (Service.instances service) with
    | inl e => raise e
    | inr filtered_instances =>
        ret (map (fun instance =>
                    (ServiceInstance.instance_id instance,
                     ServiceInstance.health_status instance))
                 filtered_instances)
    end.

(** [x in l] for a list of [str]. *)
Definition str_in (x : string) (l : list string) : bool :=
  existsb (String.eqb x) l.

(** The first instance named [instance_id] with its [health_status]
    assigned. *)
Fixpoint assign_health_status (instance_id status : string)
    (l : list ServiceInstance.t) : list ServiceInstance.t :=
  match l with
  | [] => []
  | instance :: r =>
      if String.eqb (ServiceInstance.instance_id instance) instance_id
      then ServiceInstance.with_health_status instance status :: r
      else instance :: assign_health_status instance_id status r
  end.

Definition update_instance_custom_health_status
    (service_id instance_id status : string) : M unit :=
  if negb (str_in status ["HEALTHY"; "UNHEALTHY"])
  then raise (CustomHealthNotFound service_id)
  else
    _ <- get_instance service_id instance_id ;;
    service <- get_service service_id ;;
    store_service service_id
      (Service.with_instances service
         (assign_health_status instance_id status
            (Service.instances service))
         (Service.instances_revision service)).

(** The inner loop of [discover_instances]: every parameter must equal
    the attribute of the same name; a missing attribute is [None] and
    equals no parameter. *)
Definition matches_parameters (parameters : dict string)
    (instance : ServiceInstance.t) : bool :=
  forallb
    (fun param =>
       match dict_get param (ServiceInstance.attributes instance),
             dict_get param parameters with
       | Some a, Some q => String.eqb a q
       | _, _ => false
       end)
    (dict_keys parameters).

(** One turn of the first loop of [discover_instances], on the pair
    [(filtered_instances, has_healthy)]. *)
Definition discover_step (query_parameters : dict string)
    (health_status : string)
    (acc : list ServiceInstance.t * bool) (instance : ServiceInstance.t)
  : list ServiceInstance.t * bool :=
  let '(filtered_instances, has_healthy) := acc in
  if negb (str_in (ServiceInstance.health_status instance)
             ["ALL"; "HEALTHY_OR_ELSE_ALL"])
     && negb (String.eqb (ServiceInstance.health_status instance)
                health_status)
  then (filtered_instances, has_healthy)
  else
    let has_healthy :=
      if String.eqb (ServiceInstance.health_status instance) "HEALTHY"
      then true else has_healthy in
    if negb (matches_parameters query_parameters instance)
    then (filtered_instances, has_healthy)
    else (Py.append filtered_instances instance, has_healthy).

Definition discover_instances (namespace_name service_name : string)
    (query_parameters optional_parameters : dict string)
    (health_status : string)
  : M (list ServiceInstance.t * dict Z) :=
  if negb (str_in health_status
             ["HEALTHY"; "UNHEALTHY"; "ALL"; "HEALTHY_OR_ELSE_ALL"])
  then raise (InvalidInput "Invalid health status")
  else
    all_namespaces <- list_namespaces ;;
    match filter (fun ns => String.eqb (Namespace.name ns) namespace_name)
            all_namespaces with
    | [] => raise (NamespaceNotFound namespace_name)
    | namespace :: _ =>
        all_services <- list_services ;;
        match filter
                (fun srv =>
                   String.eqb (Service.name srv) service_name
                   && String.eqb (Service.namespace_id srv)
                                 (Namespace.id namespace))
                all_services with
        | [] => raise (ServiceNotFound service_name)
        | service :: _ =>
            instances <- list_instances (Service.id service) ;;
            let '(filtered_instances, has_healthy) :=
              fold_left (discover_step query_parameters health_status)
                instances ([], false) in
            let filtered_instances :=
              if has_healthy
                 && String.eqb health_status "HEALTHY_OR_ELSE_ALL"
              then filter
                     (fun instance =>
                        String.eqb
                          (ServiceInstance.health_status instance)
                          "HEALTHY")
                     filtered_instances
              else filtered_instances in
            let opt_filtered_instances :=
              filter (matches_parameters optional_parameters)
                filtered_instances in
            let final_instances :=
              match opt_filtered_instances with
              | _ :: _ => opt_filtered_instances
              | [] => filtered_instances
              end in
            let instance_revisions :=
              fold_left
                (fun d instance =>
                   dict_set (ServiceInstance.instance_id instance)
                     match dict_get (ServiceInstance.instance_id instance)
                             (Service.instances_revision service) with
                     | Some n => n
                     | None => 0%Z
                     end d)
                final_instances [] in
            ret (final_instances, instance_revisions)
        end
    end.

(** [tag_resource]. *)
Definition backend_tag_resource (resource_arn : string)
    (tags : list (dict string)) : M unit :=
  tagger_tag_resource resource_arn tags.

(** The loop that opens [create_private_dns_namespace]: is there a
    namespace whose [vpc] is [vpc]. *)
Definition vpc_in_use (vpc : string) (nss : dict Namespace.t) : bool :=
  existsb
    (fun namespace =>
       match Namespace.vpc namespace with
       | Some v => String.eqb v vpc
       | None => false
       end)
    (dict_values nss).

(** [(properties or {}).get("DnsProperties", {})] followed by
    [dns_properties["HostedZoneId"] = "hzi"]; [None] is no [properties]. *)
Definition hosted_dns_properties (properties : option (dict json))
  : result (dict json) :=
  let properties :=
    match properties with
    | Some p => p
    | None => []
    end in
  let dns_properties :=
    match dict_get "DnsProperties" properties with
    | Some v => v
    | None => JObject []
    end in
  match setitem dns_properties "HostedZoneId" (JString "hzi") with
  | inl e => inl e
  | inr (JObject d) => inr d
  | inr _ => inl TypeError
  end.

Definition create_private_dns_namespace (name creator_request_id
    description vpc : string) (tags : list (dict string))
    (properties : option (dict json)) : M string :=
  b <- self ;;
  if vpc_in_use vpc (namespaces b)
  then raise (ConflictingDomainExists vpc)
  else
    match hosted_dns_properties properties with
    | inl e => raise e
    | inr dns_properties =>
        namespace <-
          Namespace_init (account_id b) (region_name b) name "DNS_PRIVATE"
            creator_request_id description dns_properties [] (Some vpc) ;;
        assign (fun b =>
          with_namespaces b
            (dict_set (Namespace.id namespace) namespace (namespaces b))) ;;
        match tags with
        | _ :: _ => tagger_tag_resource (Namespace.arn namespace) tags
        | [] => ret tt
        end ;;
        operation_id <-
          _create_operation "CREATE_NAMESPACE"
            [("NAMESPACE", Namespace.id namespace)] ;;
        ret operation_id
    end.

Definition create_public_dns_namespace (name creator_request_id
    description : string) (tags : list (dict string))
    (properties : option (dict json)) : M string :=
  b <- self ;;
  match hosted_dns_properties properties with
  | inl e => raise e
  | inr dns_properties =>
      namespace <-
        Namespace_init (account_id b) (region_name b) name "DNS_PUBLIC"
          creator_request_id description dns_properties [] None ;;
      assign (fun b =>
        with_namespaces b
          (dict_set (Namespace.id namespace) namespace (namespaces b))) ;;
      match tags with
      | _ :: _ => tagger_tag_resource (Namespace.arn namespace) tags
      | [] => ret tt
      end ;;
      operation_id <-
        _create_operation "CREATE_NAMESPACE"
          [("NAMESPACE", Namespace.id namespace)] ;;
      ret operation_id
  end.

(** The object that [get_namespace(_id)] returned is the one the store
    holds under [_id]; changing it in place changes that entry. *)
Definition store_namespace (namespace_id : string) (namespace : Namespace.t)
  : M unit :=
  assign (fun b =>
    with_namespaces b (dict_set namespace_id namespace (namespaces b))).

(** [update_private_dns_namespace]; [None] for a [description] or for
    [properties] that is [None]. *)
Definition update_private_dns_namespace (_id : string)
    (description : option string) (properties : option (dict json))
  : M string :=
  namespace <- get_namespace _id ;;
  let namespace :=
    match description with
    | Some d => Namespace_with_description namespace d
    | None => namespace
    end in
  let namespace :=
    match properties with
    | Some p => Namespace_with_dns_properties namespace p
    | None => namespace
    end in
  store_namespace _id namespace ;;
  operation_id <-
    _create_operation "UPDATE_NAMESPACE"
      [("NAMESPACE", Namespace.id namespace)] ;;
  ret operation_id.

(** [update_public_dns_namespace]. *)
Definition update_public_dns_namespace (_id : string)
    (description : option string) (properties : option (dict json))
  : M string :=
  namespace <- get_namespace _id ;;
  let namespace :=
    match description with
    | Some d => Namespace_with_description namespace d
    | None => namespace
    end in
  let namespace :=
    match properties with
    | Some p => Namespace_with_dns_properties namespace p
    | None => namespace
    end in
  store_namespace _id namespace ;;
  operation_id <-
    _create_operation "UPDATE_NAMESPACE"
      [("NAMESPACE", Namespace.id namespace)] ;;
  ret operation_id.

(** *** Properties of a backend, used to state the results below *)

(** The health status of every registered instance is one of the two that
    [ServiceInstance.__init__] and [update_instance_custom_health_status]
    assign. *)
Definition health_known (b : ServiceDiscoveryBackend) : Prop :=
  forall k srv instance,
    dict_get k (services b) = Some srv ->
    In instance (Service.instances srv) ->
    ServiceInstance.health_status instance = "HEALTHY" \/
    ServiceInstance.health_status instance = "UNHEALTHY".

(** Every namespace, service and operation is stored under its own id. *)
Definition keyed_by_id (b : ServiceDiscoveryBackend) : Prop :=
  (forall k namespace,
     In (k, namespace) (namespaces b) -> k = Namespace.id namespace) /\
  (forall k service,
     In (k, service) (services b) -> k = Service.id service) /\
  (forall k operation,
     In (k, operation) (operations b) -> k = Operation.id operation).

(** No two stored namespaces share a [vpc]. *)
Definition vpc_unique (b : ServiceDiscoveryBackend) : Prop :=
  forall k1 k2 n1 n2 v,
    dict_get k1 (namespaces b) = Some n1 ->
    dict_get k2 (namespaces b) = Some n2 ->
    Namespace.vpc n1 = Some v ->
    Namespace.vpc n2 = Some v ->
    k1 = k2.

(** The distinct keys of the three stores. *)
Definition stores_wf (b : ServiceDiscoveryBackend) : Prop :=
  dict_wf (operations b) /\ dict_wf (namespaces b) /\ dict_wf (services b).

(** *** The elementary changes of a backend

    Each one is what an assignment of the methods above does to one store,
    with what the method knows at that point. *)
Inductive step : ServiceDiscoveryBackend -> ServiceDiscoveryBackend -> Prop :=
| step_operation (b : ServiceDiscoveryBackend) (op : Operation.t) :
    step b (with_operations b (dict_set (Operation.id op) op (operations b)))
| step_prune (b : ServiceDiscoveryBackend)
    (keep : string * Operation.t -> bool) :
    step b (with_operations b (filter keep (operations b)))
| step_namespace_new (b : ServiceDiscoveryBackend) (ns : Namespace.t) :
    (forall v, Namespace.vpc ns = Some v ->
               vpc_in_use v (namespaces b) = false) ->
    step b (with_namespaces b (dict_set (Namespace.id ns) ns (namespaces b)))
| step_namespace_update (b : ServiceDiscoveryBackend) (k : string)
    (old ns : Namespace.t) :
    dict_get k (namespaces b) = Some old ->
    Namespace.id ns = Namespace.id old ->
    Namespace.vpc ns = Namespace.vpc old ->
    step b (with_namespaces b (dict_set k ns (namespaces b)))
| step_namespace_delete (b : ServiceDiscoveryBackend) (k : string) :
    step b (with_namespaces b (dict_del k (namespaces b)))
| step_service_new (b : ServiceDiscoveryBackend) (srv : Service.t) :
    Service.instances srv = [] ->
    step b (with_services b (dict_set (Service.id srv) srv (services b)))
| step_service_update (b : ServiceDiscoveryBackend) (k : string)
    (old srv : Service.t) :
    dict_get k (services b) = Some old ->
    Service.id srv = Service.id old ->
    (forall instance,
       In instance (Service.instances srv) ->
       In instance (Service.instances old) \/
       ServiceInstance.health_status instance = "HEALTHY" \/
       ServiceInstance.health_status instance = "UNHEALTHY") ->
    step b (with_services b (dict_set k srv (services b)))
| step_service_delete (b : ServiceDiscoveryBackend) (k : string) :
    step b (with_services b (dict_del k (services b)))
| step_tagger (b : ServiceDiscoveryBackend) (t : TaggingService) :
    step b (with_tagger b t).

Inductive steps : ServiceDiscoveryBackend -> ServiceDiscoveryBackend -> Prop :=
| steps_none (b : ServiceDiscoveryBackend) : steps b b
| steps_more (b b1 b2 : ServiceDiscoveryBackend) :
    steps b b1 -> step b1 b2 -> steps b b2.

(** *** Calls of the backend, one after the other *)

Inductive call : Type :=
| CreateHttpNamespace (name creator_request_id description : string)
    (tags : list (dict string))
| CreatePrivateDnsNamespace (name creator_request_id description vpc : string)
    (tags : list (dict string)) (properties : option (dict json))
| CreatePublicDnsNamespace (name creator_request_id description : string)
    (tags : list (dict string)) (properties : option (dict json))
| DeleteNamespace (namespace_id : string)
| GetNamespace (namespace_id : string)
| ListNamespaces
| UpdatePrivateDnsNamespace (_id : string) (description : option string)
    (properties : option (dict json))
| UpdatePublicDnsNamespace (_id : string) (description : option string)
    (properties : option (dict json))
| ListOperations
| GetOperation (operation_id : string)
| TagResource (resource_arn : string) (tags : list (dict string))
| CreateService (name namespace_id creator_request_id description : string)
    (dns_config health_check_config health_check_custom_config : json)
    (tags : list (dict string)) (service_type : string)
| GetService (service_id : string)
| DeleteService (service_id : string)
| ListServices
| UpdateService (service_id : string) (details : dict json)
| RegisterInstance (service_id instance_id : string)
    (creator_request_id : option string) (attributes : option (dict string))
| DeregisterInstance (service_id instance_id : string)
| ListInstances (service_id : string)
| GetInstance (service_id instance_id : string)
| GetInstancesHealthStatus (service_id : string) (instances : json)
| UpdateInstanceCustomHealthStatus (service_id instance_id status : string)
| DiscoverInstances (namespace_name service_name : string)
    (query_parameters optional_parameters : dict string)
    (health_status : string).

(** The state that a call leaves, whether it returned or raised. *)
Definition after_call (c : call) (s : state) : state :=
  match c with
  | CreateHttpNamespace n r d t => snd (create_http_namespace n r d t s)
  | CreatePrivateDnsNamespace n r d v t p =>
      snd (create_private_dns_namespace n r d v t p s)
  | CreatePublicDnsNamespace n r d t p =>
      snd (create_public_dns_namespace n r d t p s)
  | DeleteNamespace i => snd (delete_namespace i s)
  | GetNamespace i => snd (get_namespace i s)
  | ListNamespaces => snd (list_namespaces s)
  | UpdatePrivateDnsNamespace i d p =>
      snd (update_private_dns_namespace i d p s)
  | UpdatePublicDnsNamespace i d p =>
      snd (update_public_dns_namespace i d p s)
  | ListOperations => snd (list_operations s)
  | GetOperation i => snd (get_operation i s)
  | TagResource a t => snd (backend_tag_resource a t s)
  | CreateService n ns r d dc hc hcc t ty =>
      snd (create_service n ns r d dc hc hcc t ty s)
  | GetService i => snd (get_service i s)
  | DeleteService i => snd (delete_service i s)
  | ListServices => snd (list_services s)
  | UpdateService i d => snd (update_service i d s)
  | RegisterInstance i j r a => snd (register_instance i j r a s)
  | DeregisterInstance i j => snd (deregister_instance i j s)
  | ListInstances i => snd (list_instances i s)
  | GetInstance i j => snd (get_instance i j s)
  | GetInstancesHealthStatus i l => snd (get_instances_health_status i l s)
  | UpdateInstanceCustomHealthStatus i j st =>
      snd (update_instance_custom_health_status i j st s)
  | DiscoverInstances n sv q o h => snd (discover_instances n sv q o h s)
  end.

Fixpoint after_calls (cs : list call) (s : state) : state :=
  match cs with
  | [] => s
  | c :: rest => after_calls rest (after_call c s)
  end.

End Backend.

(** *** A concrete setting to run the backend in

    A tagging service that records the calls it receives and never raises,
    the partition of the commercial regions, a generator that draws
    0, 1, 2, ... and a clock that stands still. *)
Definition recording_collaborators : Collaborators :=
  {| TaggingService := list (string * list (dict string));
     TaggingService_init := [];
     tag_resource := fun arn tags t => inr (t ++ [(arn, tags)])%list;
     get_partition := fun _ => "aws" |}.

Definition counting_world : World :=
  {| rng := fun n => n; rng_pos := 0;
     clock := fun _ => "1700000000.0"; clock_pos := 0 |}.

(** A generator that draws the same number every time, as a seeded
    generator does that is seeded anew before each call. *)
Definition repeating_world : World :=
  {| rng := fun _ => 0; rng_pos := 0;
     clock := fun _ => "1700000000.0"; clock_pos := 0 |}.

Definition example_instance (instance_id health_status : string)
  : ServiceInstance.t :=
  {| ServiceInstance.service_id := "srv-web00001";
     ServiceInstance.instance_id := instance_id;
     ServiceInstance.attributes := [("zone", "a")];
     ServiceInstance.creator_request_id := "req-1";
     ServiceInstance.health_status := health_status |}.

Definition example_service : Service.t :=
  {| Service.id := "srv-web00001";
     Service.arn := "arn:aws:servicediscovery:us-east-1:123456789012:service/srv-web00001";
     Service.name := "web";
     Service.namespace_id := "ns-prod";
     Service.description := JString "front end";
     Service.creator_request_id := "req-0";
     Service.dns_config := JNull;
     Service.health_check_config := JNull;
     Service.health_check_custom_config := JNull;
     Service.service_type := "HTTP";
     Service.created := "1700000000.0";
     Service.instances :=
       [example_instance "i-1" "HEALTHY"; example_instance "i-2" "UNHEALTHY"];
     Service.instances_revision := [("i-1", 1%Z); ("i-2", 1%Z)] |}.

Definition example_namespace : Namespace.t :=
  {| Namespace.id := "ns-prod";
     Namespace.arn := "arn:aws:servicediscovery:us-east-1:123456789012:namespace/ns-prod";
     Namespace.name := "prod";
     Namespace.type := "HTTP";
     Namespace.creator_request_id := "req-0";
     Namespace.description := "production";
     Namespace.dns_properties := [("SOA", JObject [])];
     Namespace.http_properties := [("HttpName", JString "prod")];
     Namespace.vpc := None;
     Namespace.created := "1700000000.0";
     Namespace.updated := "1700000000.0" |}.

Definition example_operation (id operation_type target_kind target : string)
  : Operation.t :=
  {| Operation.id := id; Operation.status := "SUCCESS";
     Operation.operation_type := operation_type;
     Operation.created := "1700000000.0";
     Operation.updated := "1700000000.0";
     Operation.targets := [(target_kind, target)] |}.

Definition example_private_namespace : Namespace.t :=
  {| Namespace.id := "ns-priv";
     Namespace.arn := "arn:aws:servicediscovery:us-east-1:123456789012:namespace/ns-priv";
     Namespace.name := "internal";
     Namespace.type := "DNS_PRIVATE";
     Namespace.creator_request_id := "req-2";
     Namespace.description := "private zone";
     Namespace.dns_properties := [("HostedZoneId", JString "hzi")];
     Namespace.http_properties := [];
     Namespace.vpc := Some "vpc-1";
     Namespace.created := "1700000000.0";
     Namespace.updated := "1700000000.0" |}.

(** A backend with one namespace, one service with a healthy and an
    unhealthy instance, and the operations that a namespace creation, an
    instance registration and the deletion of another namespace left. *)
Definition example_backend : @ServiceDiscoveryBackend recording_collaborators :=
  {| region_name := "us-east-1"; account_id := "123456789012";
     operations :=
       [("op-1", example_operation "op-1" "CREATE_NAMESPACE" "NAMESPACE" "ns-prod");
        ("op-2", example_operation "op-2" "REGISTER_INSTANCE" "INSTANCE" "i-1");
        ("op-3", example_operation "op-3" "DELETE_NAMESPACE" "NAMESPACE" "ns-old")];
     namespaces := [("ns-prod", example_namespace)];
     services := [("srv-web00001", example_service)];
     tagger := @TaggingService_init recording_collaborators |}.

(** The example backend with a private DNS namespace beside the HTTP one. *)
Definition example_private_backend
  : @ServiceDiscoveryBackend recording_collaborators :=
  with_namespaces example_backend
    [("ns-prod", example_namespace);
     ("ns-priv", example_private_namespace)].

(** A new backend and a few calls to make on it. *)
Definition example_new_backend
  : @ServiceDiscoveryBackend recording_collaborators :=
  ServiceDiscoveryBackend_init "us-east-1" "123456789012".

Definition example_calls : list call :=
  [CreateHttpNamespace "prod" "req-0" "production" [];
   CreatePrivateDnsNamespace "internal" "req-1" "private zone" "vpc-1" [] None;
   CreatePrivateDnsNamespace "other" "req-2" "same vpc" "vpc-1" [] None;
   CreateService "web" "ns-prod" "req-3" "front end" JNull JNull JNull []
     "HTTP";
   RegisterInstance "srv-web00001" "i-1" None None;
   UpdateInstanceCustomHealthStatus "srv-web00001" "i-1" "UNHEALTHY";
   ListOperations].

End ServiceDiscovery.

(* ===================================================================== *)
(** * Properties *)
(* ===================================================================== *)

Local Open Scope string_scope.

Example repr_nested :
  Py.repr (JArray [JInt (-12); JString "a'b";
                   JObject [("k", JBool true); ("n", JNull)]])
  = String "[" ("-12, " ++ String Py.double_quote ("a'b" ++
      String Py.double_quote ", {'k': True, 'n': None}]")).
Proof. reflexivity. Qed.

Example str_of_zero : Py.str (JInt 0) = "0".
Proof. reflexivity. Qed.

Example repr_escapes :
  Py.repr_str (String (ascii_of_nat 10) (String (ascii_of_nat 1) "\")) = "'\n\x01\\'".
Proof. reflexivity. Qed.

(** Split the conjunctions of the goal, and nothing else. *)
Ltac conjuncts := repeat match goal with |- _ /\ _ => split end.

Module PyFacts.

Import Py.
Local Open Scope list_scope.

Lemma pop_app {A : Type} (l : list A) (x : A) :
  pop (l ++ [x]) = Some (x, l).
Proof.
  induction l as [|y l IH]; simpl; [reflexivity|].
  rewrite IH. reflexivity.
Qed.

Lemma pop_None {A : Type} (l : list A) : pop l = None -> l = [].
Proof.
  destruct l as [|x r]; simpl; [reflexivity|].
  destruct (pop r) as [[y r']|]; discriminate.
Qed.

Lemma pop_Some {A : Type} (l : list A) (x : A) (r : list A) :
  pop l = Some (x, r) -> l = r ++ [x].
Proof.
  revert x r. induction l as [|y l IH]; simpl; intros x r Hp; [discriminate|].
  destruct (pop l) as [[z r']|] eqn:E.
  - injection Hp as <- <-. simpl. f_equal. apply IH. reflexivity.
  - injection Hp as <- <-. apply pop_None in E. subst l. reflexivity.
Qed.

Lemma nonempty_snoc {A : Type} (l : list A) :
  l <> [] -> exists r x, l = r ++ [x].
Proof.
  intros Hne. destruct (pop l) as [[x r]|] eqn:E.
  - exists r, x. apply pop_Some, E.
  - apply pop_None in E. contradiction.
Qed.

Lemma str_eq_true (s : string) (v : json) :
  str_eq s v = true <-> v = JString s.
Proof.
  destruct v; simpl; try (split; [discriminate | intros [=]]).
  rewrite String.eqb_eq. split; [intros ->; reflexivity | intros [= ->]; reflexivity].
Qed.

Lemma nth_error_snoc_below {A : Type} (l : list A) (x y : A) (i : nat) :
  i < length l -> nth_error (l ++ [x]) i = nth_error (l ++ [y]) i.
Proof.
  intros Hi. rewrite !nth_error_app1 by exact Hi. reflexivity.
Qed.

Lemma dict_get_set_eq {V : Type} (k : string) (v : V) (d : dict V) :
  dict_get k (dict_set k v d) = Some v.
Proof.
  induction d as [|[k' v'] r IH]; simpl.
  - rewrite String.eqb_refl. reflexivity.
  - destruct (String.eqb k k') eqn:E; simpl; rewrite E; [reflexivity | exact IH].
Qed.

Lemma dict_get_set_neq {V : Type} (k k' : string) (v : V) (d : dict V) :
  k <> k' -> dict_get k (dict_set k' v d) = dict_get k d.
Proof.
  intros Hne. induction d as [|[k0 v0] r IH]; simpl.
  - apply String.eqb_neq in Hne. rewrite Hne. reflexivity.
  - destruct (String.eqb k' k0) eqn:E; simpl.
    + apply String.eqb_eq in E. subst k0.
      apply String.eqb_neq in Hne. rewrite Hne. reflexivity.
    + rewrite IH. reflexivity.
Qed.

Lemma dict_get_del_eq {V : Type} (k : string) (d : dict V) :
  dict_get k (dict_del k d) = None.
Proof.
  unfold dict_del. induction d as [|[k' v'] r IH]; simpl; [reflexivity|].
  destruct (String.eqb k k') eqn:E; simpl; [exact IH|].
  rewrite E. exact IH.
Qed.

Lemma dict_get_del_neq {V : Type} (k k' : string) (d : dict V) :
  k <> k' -> dict_get k (dict_del k' d) = dict_get k d.
Proof.
  intros Hne. unfold dict_del.
  induction d as [|[k0 v0] r IH]; simpl; [reflexivity|].
  destruct (String.eqb k' k0) eqn:E; simpl.
  - apply String.eqb_eq in E. subst k0.
    apply String.eqb_neq in Hne. rewrite Hne. exact IH.
  - rewrite IH. reflexivity.
Qed.

Lemma dict_set_fresh {V : Type} (k : string) (v : V) (d : dict V) :
  dict_get k d = None -> dict_set k v d = d ++ [(k, v)].
Proof.
  induction d as [|[k' v'] r IH]; simpl; intros Hg; [reflexivity|].
  destruct (String.eqb k k'); [discriminate|].
  rewrite IH by exact Hg. reflexivity.
Qed.

Lemma dict_get_In {V : Type} (k : string) (v : V) (d : dict V) :
  dict_get k d = Some v -> In (k, v) d.
Proof.
  induction d as [|[k' v'] r IH]; simpl; intros Hg; [discriminate|].
  destruct (String.eqb k k') eqn:E.
  - apply String.eqb_eq in E. injection Hg as ->. subst. left. reflexivity.
  - right. apply IH, Hg.
Qed.

Lemma dict_get_None {V : Type} (k : string) (d : dict V) :
  dict_get k d = None <-> ~ In k (dict_keys d).
Proof.
  induction d as [|[k' v'] r IH]; simpl.
  - split; [intros _ [] | reflexivity].
  - destruct (String.eqb k k') eqn:E.
    + apply String.eqb_eq in E. subst k'. split; [discriminate|].
      intros Hn. exfalso. apply Hn. left. reflexivity.
    + apply String.eqb_neq in E. rewrite IH. split.
      * intros Hn [Hk|Hk]; [congruence | contradiction].
      * intros Hn Hk. apply Hn. right. exact Hk.
Qed.

Lemma dict_mem_true {V : Type} (k : string) (d : dict V) :
  dict_mem k d = true <-> exists v, dict_get k d = Some v.
Proof.
  unfold dict_mem. destruct (dict_get k d) as [v|].
  - split; [intros _; exists v; reflexivity | reflexivity].
  - split; [discriminate | intros [v Hv]; discriminate].
Qed.

Lemma dict_mem_false {V : Type} (k : string) (d : dict V) :
  dict_mem k d = false <-> dict_get k d = None.
Proof.
  unfold dict_mem. destruct (dict_get k d); split; congruence.
Qed.

Lemma dict_keys_set {V : Type} (k : string) (v : V) (d : dict V) :
  dict_keys (dict_set k v d)
  = if dict_mem k d then dict_keys d else dict_keys d ++ [k].
Proof.
  unfold dict_mem. induction d as [|[k' v'] r IH]; simpl; [reflexivity|].
  destruct (String.eqb k k') eqn:E; simpl; [reflexivity|].
  fold (dict_keys (dict_set k v r)). rewrite IH.
  destruct (dict_get k r); reflexivity.
Qed.

Lemma dict_wf_set {V : Type} (k : string) (v : V) (d : dict V) :
  dict_wf d -> dict_wf (dict_set k v d).
Proof.
  unfold dict_wf. intros Hwf. rewrite dict_keys_set.
  destruct (dict_mem k d) eqn:E; [exact Hwf|].
  apply dict_mem_false, dict_get_None in E.
  apply NoDup_app; [exact Hwf | repeat constructor; intros [] | ].
  intros x Hx [<-|[]]. contradiction.
Qed.

Lemma dict_keys_filter_incl {V : Type} (f : string * V -> bool) (d : dict V)
    (k : string) :
  In k (dict_keys (filter f d)) -> In k (dict_keys d).
Proof.
  unfold dict_keys. rewrite !in_map_iff.
  intros (e & He & Hin). exists e. split; [exact He|].
  apply filter_In in Hin. apply Hin.
Qed.

Lemma dict_wf_filter {V : Type} (f : string * V -> bool) (d : dict V) :
  dict_wf d -> dict_wf (filter f d).
Proof.
  unfold dict_wf. induction d as [|[k v] r IH]; simpl; intros Hwf; [constructor|].
  inversion Hwf as [|? ? Hk Hr]; subst.
  destruct (f (k, v)); simpl.
  - constructor; [|apply IH, Hr].
    intros Hin. apply Hk. apply (dict_keys_filter_incl f r k Hin).
  - apply IH, Hr.
Qed.

Lemma dict_wf_del {V : Type} (k : string) (d : dict V) :
  dict_wf d -> dict_wf (dict_del k d).
Proof. apply dict_wf_filter. Qed.

Lemma dict_get_filter {V : Type} (f : string * V -> bool) (d : dict V)
    (k : string) :
  dict_wf d ->
  dict_get k (filter f d)
  = match dict_get k d with
    | Some v => if f (k, v) then Some v else None
    | None => None
    end.
Proof.
  unfold dict_wf. induction d as [|[k' v'] r IH]; simpl; intros Hwf; [reflexivity|].
  inversion Hwf as [|? ? Hk Hr]; subst.
  destruct (String.eqb k k') eqn:E.
  - apply String.eqb_eq in E. subst k'.
    destruct (f (k, v')); simpl.
    + rewrite String.eqb_refl. reflexivity.
    + apply dict_get_None. intros Hin. apply Hk.
      apply (dict_keys_filter_incl f r k Hin).
  - destruct (f (k', v')); simpl; [rewrite E|]; apply IH, Hr.
Qed.

Lemma str_checked_string (limit : nat) (s : string) :
  str_checked limit (JString s) = Some s.
Proof. reflexivity. Qed.

Lemma str_checked_bool (limit : nat) (b : bool) :
  str_checked limit (JBool b) = Some (if b then "True" else "False")%string.
Proof. destruct b; reflexivity. Qed.





End PyFacts.

(* ===================================================================== *)
(** ** Step Functions: comparison evaluation *)
(* ===================================================================== *)

Module StepFunctionsSpec.

Import StepFunctions PyFacts.
Local Open Scope list_scope.

Lemma string_equals_snoc (limit : nat) (env : Environment)
    (rest : list json) (val value : json) (text : string) :
  stack env = rest ++ [val] ->
  Py.str_checked limit val = Some text ->
  _string_equals limit env value
  = inr (with_stack env (rest ++ [JBool (Py.str_eq text value)])).
Proof.
  intros Hst Hstr. unfold _string_equals. rewrite Hst, pop_app, Hstr.
  reflexivity.
Qed.

Lemma string_equals_raises (limit : nat) (env : Environment)
    (rest : list json) (val value : json) :
  stack env = rest ++ [val] ->
  Py.str_checked limit val = None ->
  _string_equals limit env value = inl (ValueError, with_stack env rest).
Proof.
  intros Hst Hstr. unfold _string_equals. rewrite Hst, pop_app, Hstr.
  reflexivity.
Qed.

Lemma string_equals_empty (limit : nat) (env : Environment) (value : json) :
  stack env = [] -> _string_equals limit env value = inl (IndexError, env).
Proof. intros Hst. unfold _string_equals. rewrite Hst. reflexivity. Qed.

Lemma replaces_top_intro (env : Environment) (rest : list json)
    (top : json) (b : bool) :
  stack env = rest ++ [top] ->
  replaces_top_by_bool env (inr (with_stack env (rest ++ [JBool b]))).
Proof.
  intros Hst. exists rest, top, b, (with_stack env (rest ++ [JBool b])).
  simpl. repeat split.
  - exact Hst.
  - rewrite Hst, !length_app. reflexivity.
  - apply pop_app.
  - intros i Hi. rewrite Hst. apply nth_error_snoc_below, Hi.
Qed.

(** Whenever [str] shows the value on top of the stack, [_string_equals]
    pops it and pushes one boolean; whenever it does not, the value is
    popped and nothing is pushed. *)
Lemma string_equals_stack_effect (limit : nat) (env : Environment)
    (rest : list json) (val value : json) :
  stack env = rest ++ [val] ->
  if Py.ints_fit limit val
  then replaces_top_by_bool env (_string_equals limit env value)
  else _string_equals limit env value = inl (ValueError, with_stack env rest).
Proof.
  intros Hst. destruct (Py.ints_fit limit val) eqn:Hfit.
  - rewrite (string_equals_snoc limit env rest val value (Py.str val) Hst)
      by (unfold Py.str_checked; rewrite Hfit; reflexivity).
    apply (replaces_top_intro env rest val), Hst.
  - apply (string_equals_raises limit env rest val value Hst).
    unfold Py.str_checked. rewrite Hfit. reflexivity.
Qed.




(** C3.  The Choice with the single rule StringEquals A, Next X, and
    Default Y.  On the input with V = A the comparison of the resolved
    value against the operand pushes [True] and the chosen Next is X; on
    the input with V = B it pushes [False] and the chosen Next is the
    Default Y.  The operand stack is left as it was found. *)
Theorem choice_string_equals_example (limit : nat) (X Y : string)
    (st : list json) :
  let rules := [StringEquals_rule ["V"] "A" X] in
  let envA := env_of (JObject [("V", JString "A")]) st in
  let envB := env_of (JObject [("V", JString "B")]) st in
  resolve ["V"] (inp envA) = Some (JString "A") /\
  _string_equals limit (with_stack envA (st ++ [JString "A"])) (JString "A")
  = inr (with_stack envA (st ++ [JBool true])) /\
  choice_next rules (Some Y) envA = inr (X, envA) /\
  resolve ["V"] (inp envB) = Some (JString "B") /\
  _string_equals limit (with_stack envB (st ++ [JString "B"])) (JString "A")
  = inr (with_stack envB (st ++ [JBool false])) /\
  choice_next rules (Some Y) envB = inr (Y, envB).
Proof.
  cbv zeta. conjuncts; try reflexivity.
  - rewrite (string_equals_snoc limit _ st (JString "A") (JString "A") "A");
      reflexivity.
  - rewrite (string_equals_snoc limit _ st (JString "B") (JString "A") "B");
      reflexivity.
Qed.

End StepFunctionsSpec.

(* ===================================================================== *)
(** ** ServiceDiscovery: lookups, creation, deletion, listing *)
(* ===================================================================== *)

Module ServiceDiscoverySpec.

Import Py PyFacts ServiceDiscovery.
Local Open Scope list_scope.

Section Properties.

Context `{Collaborators}.

Lemma bind_inr {A B : Type} (c : M A) (k : A -> M B) (s s1 : state) (x : A) :
  c s = (inr x, s1) -> bind c k s = k x s1.
Proof. intros E. unfold bind. rewrite E. reflexivity. Qed.

Lemma bind_inl {A B : Type} (c : M A) (k : A -> M B) (s s1 : state) (e : exn) :
  c s = (inl e, s1) -> bind c k s = (inl e, s1).
Proof. intros E. unfold bind. rewrite E. reflexivity. Qed.

Lemma string_get_lt (n : nat) (s : string) :
  n < String.length s -> exists c, String.get n s = Some c.
Proof.
  revert n. induction s as [|a s IH]; simpl; intros n Hn; [lia|].
  destruct n as [|n]; [exists a; reflexivity|].
  apply IH. lia.
Qed.

(** A draw from a non-empty sequence returns and leaves the backend alone. *)
Lemma random_choice_run (seq : string) (w : World) (b : ServiceDiscoveryBackend) :
  0 < String.length seq ->
  exists c w', random_choice seq (w, b) = (inr c, (w', b)).
Proof.
  intros Hlen. unfold random_choice. simpl.
  destruct (string_get_lt (rng w (rng_pos w) mod String.length seq) seq)
    as [c Hc].
  - apply Nat.mod_upper_bound. lia.
  - rewrite Hc. eauto.
Qed.

Lemma random_id_run (size : nat) (w : World) (b : ServiceDiscoveryBackend) :
  exists r w', random_id size (w, b) = (inr r, (w', b))
               /\ String.length r = size.
Proof.
  revert w. induction size as [|n IH]; intros w; simpl.
  - exists EmptyString, w. split; reflexivity.
  - destruct (random_choice_run (ascii_lowercase ++ digits)%string w b)
      as (c & w1 & E1); [simpl; lia|].
    destruct (IH w1) as (r & w2 & E2 & Hlen).
    exists (String c r), w2. split; [|simpl; congruence].
    rewrite (bind_inr _ _ _ _ _ E1), (bind_inr _ _ _ _ _ E2). reflexivity.
Qed.

Lemma unix_time_run (w : World) (b : ServiceDiscoveryBackend) :
  exists t w', unix_time (w, b) = (inr t, (w', b)).
Proof. unfold unix_time. simpl. eauto. Qed.

Lemma Operation_init_run (op_type : string) (targets : dict string)
    (w : World) (b : ServiceDiscoveryBackend) :
  exists op w',
    Operation_init op_type targets (w, b) = (inr op, (w', b)) /\
    Operation.operation_type op = op_type /\
    Operation.targets op = targets /\
    Operation.status op = "SUCCESS"%string.
Proof.
  destruct (random_id_run 32 w b) as (r32 & w1 & E1 & _).
  destruct (random_id_run 8 w1 b) as (r8 & w2 & E2 & _).
  destruct (unix_time_run w2 b) as (t1 & w3 & E3).
  destruct (unix_time_run w3 b) as (t2 & w4 & E4).
  eexists. exists w4. unfold Operation_init.
  rewrite (bind_inr _ _ _ _ _ E1), (bind_inr _ _ _ _ _ E2),
    (bind_inr _ _ _ _ _ E3), (bind_inr _ _ _ _ _ E4).
  unfold ret. repeat split.
Qed.

(** [_create_operation] returns the id of a new operation of the given
    type and targets, stored under that id; nothing else changes. *)
Lemma create_operation_run (op_type : string) (targets : dict string)
    (w : World) (b : ServiceDiscoveryBackend) :
  exists op w',
    _create_operation op_type targets (w, b)
    = (inr (Operation.id op),
       (w', with_operations b (dict_set (Operation.id op) op (operations b))))
    /\ Operation.operation_type op = op_type
    /\ Operation.targets op = targets
    /\ Operation.status op = "SUCCESS"%string.
Proof.
  destruct (Operation_init_run op_type targets w b)
    as (op & w1 & E & Hty & Htg & Hst).
  exists op, w1. unfold _create_operation.
  rewrite (bind_inr _ _ _ _ _ E). repeat split; assumption.
Qed.

Lemma get_namespace_run (namespace_id : string) (s : state) :
  get_namespace namespace_id s
  = (match dict_get namespace_id (namespaces (snd s)) with
     | Some namespace => inr namespace
     | None => inl (NamespaceNotFound namespace_id)
     end, s).
Proof.
  unfold get_namespace, bind, self. simpl.
  destruct (dict_get namespace_id (namespaces (snd s))); reflexivity.
Qed.

Lemma get_service_run (service_id : string) (s : state) :
  get_service service_id s
  = (match dict_get service_id (services (snd s)) with
     | Some service => inr service
     | None => inl (ServiceNotFound service_id)
     end, s).
Proof.
  unfold get_service, bind, self. simpl.
  destruct (dict_get service_id (services (snd s))); reflexivity.
Qed.

(** C4.  [get_namespace] returns the stored Namespace exactly when the
    identifier is a key of the namespaces store and raises
    NamespaceNotFound otherwise; [get_service] does the same on the
    services store with ServiceNotFound; the world and the backend are as
    before in every case. *)
Theorem get_namespace_get_service_lookup (w : World)
    (b : ServiceDiscoveryBackend) (id : string) :
  get_namespace id (w, b)
  = (match dict_get id (namespaces b) with
     | Some namespace => inr namespace
     | None => inl (NamespaceNotFound id)
     end, (w, b)) /\
  (dict_mem id (namespaces b) = true <->
   exists namespace,
     dict_get id (namespaces b) = Some namespace /\
     get_namespace id (w, b) = (inr namespace, (w, b))) /\
  (dict_mem id (namespaces b) = false <->
   get_namespace id (w, b) = (inl (NamespaceNotFound id), (w, b))) /\
  get_service id (w, b)
  = (match dict_get id (services b) with
     | Some service => inr service
     | None => inl (ServiceNotFound id)
     end, (w, b)) /\
  (dict_mem id (services b) = true <->
   exists service,
     dict_get id (services b) = Some service /\
     get_service id (w, b) = (inr service, (w, b))) /\
  (dict_mem id (services b) = false <->
   get_service id (w, b) = (inl (ServiceNotFound id), (w, b))).
Proof.
  rewrite get_namespace_run, get_service_run. simpl. unfold dict_mem.
  destruct (dict_get id (namespaces b)) as [ns|];
    destruct (dict_get id (services b)) as [srv|];
    repeat split; try reflexivity; try discriminate;
    try (intros _; eexists; split; reflexivity);
    try (intros (x & Hx & _); discriminate).
Qed.

Lemma dict_del_In {V : Type} (k : string) (d : dict V) (k' : string) (v : V) :
  In (k', v) (dict_del k d) <-> In (k', v) d /\ k' <> k.
Proof.
  unfold dict_del. rewrite filter_In. simpl.
  rewrite negb_true_iff, String.eqb_neq.
  split; intros [H1 H2]; split; auto.
Qed.

(** C6, as amended.  When the identifier is a key of the namespaces store,
    [delete_namespace] returns the id of a new DELETE_NAMESPACE operation
    targeting that namespace; the namespaces store loses exactly the entry
    of that identifier and keeps every other entry, the services store is
    unchanged, and the operations store is the one before with the new
    operation stored under its generated id: one more entry at the end
    when that id was not in use, and in the place of the operation that
    had that id when it was.  When the identifier is absent,
    NamespaceNotFound is raised and nothing has changed. *)
Theorem delete_namespace_frame (w : World) (b : ServiceDiscoveryBackend)
    (namespace_id : string) :
  if dict_mem namespace_id (namespaces b)
  then
    exists op w' b',
      delete_namespace namespace_id (w, b)
      = (inr (Operation.id op), (w', b')) /\
      namespaces b' = dict_del namespace_id (namespaces b) /\
      dict_get namespace_id (namespaces b') = None /\
      (forall k, k <> namespace_id ->
                 dict_get k (namespaces b') = dict_get k (namespaces b)) /\
      (forall k ns, In (k, ns) (namespaces b') <->
                    In (k, ns) (namespaces b) /\ k <> namespace_id) /\
      services b' = services b /\
      tagger b' = tagger b /\
      Operation.operation_type op = "DELETE_NAMESPACE"%string /\
      Operation.targets op = [("NAMESPACE"%string, namespace_id)] /\
      operations b' = dict_set (Operation.id op) op (operations b) /\
      (forall k, k <> Operation.id op ->
                 dict_get k (operations b') = dict_get k (operations b)) /\
      (dict_mem (Operation.id op) (operations b) = false ->
       operations b' = operations b ++ [(Operation.id op, op)])
  else
    delete_namespace namespace_id (w, b)
    = (inl (NamespaceNotFound namespace_id), (w, b)).
Proof.
  destruct (dict_mem namespace_id (namespaces b)) eqn:Hmem.
  - destruct (create_operation_run "DELETE_NAMESPACE"
                [("NAMESPACE"%string, namespace_id)] w
                (with_namespaces b (dict_del namespace_id (namespaces b))))
      as (op & w' & E & Hty & Htg & _).
    exists op, w'.
    exists (with_operations
              (with_namespaces b (dict_del namespace_id (namespaces b)))
              (dict_set (Operation.id op) op (operations b))).
    conjuncts; try reflexivity.
    + unfold delete_namespace, bind at 1, self. simpl. rewrite Hmem. simpl.
      unfold bind at 1, assign. simpl.
      rewrite (bind_inr _ _ _ _ _ E). reflexivity.
    + simpl. apply dict_get_del_eq.
    + simpl. intros k Hk. apply dict_get_del_neq, Hk.
    + simpl. intros k ns. apply dict_del_In.
    + exact Hty.
    + exact Htg.
    + simpl. intros k Hk. apply dict_get_set_neq, Hk.
    + simpl. intros Hfresh. apply dict_set_fresh, dict_mem_false, Hfresh.
  - unfold delete_namespace, bind, self. simpl. rewrite Hmem. reflexivity.
Qed.

Lemma Namespace_init_run (account region name ns_type creator_request_id
    description : string) (dns_properties http_properties : dict json)
    (vpc : option string) (w : World) (b : ServiceDiscoveryBackend) :
  exists rid namespace w',
    fst (random_id 20 (w, b)) = inr rid /\
    Namespace_init account region name ns_type creator_request_id description
      dns_properties http_properties vpc (w, b)
    = (inr namespace, (w', b)) /\
    Namespace.id namespace = ("ns-" ++ rid)%string /\
    Namespace.name namespace = name /\
    Namespace.type namespace = ns_type /\
    Namespace.creator_request_id namespace = creator_request_id /\
    Namespace.description namespace = description /\
    Namespace.dns_properties namespace = dns_properties /\
    Namespace.http_properties namespace = http_properties /\
    Namespace.vpc namespace = vpc.
Proof.
  destruct (random_id_run 20 w b) as (rid & w1 & E1 & _).
  destruct (unix_time_run w1 b) as (t1 & w2 & E2).
  destruct (unix_time_run w2 b) as (t2 & w3 & E3).
  exists rid. eexists. exists w3. unfold Namespace_init.
  rewrite (bind_inr _ _ _ _ _ E1), (bind_inr _ _ _ _ _ E2),
    (bind_inr _ _ _ _ _ E3), E1.
  unfold ret. conjuncts; reflexivity.
Qed.

Lemma Service_init_run (account region name namespace_id description
    creator_request_id : string)
    (dns_config health_check_config health_check_custom_config : json)
    (service_type : string) (w : World) (b : ServiceDiscoveryBackend) :
  exists rid service w',
    fst (random_id 8 (w, b)) = inr rid /\
    Service_init account region name namespace_id description
      creator_request_id dns_config health_check_config
      health_check_custom_config service_type (w, b)
    = (inr service, (w', b)) /\
    Service.id service = ("srv-" ++ rid)%string /\
    Service.name service = name /\
    Service.namespace_id service = namespace_id /\
    Service.description service = JString description /\
    Service.creator_request_id service = creator_request_id /\
    Service.service_type service = service_type /\
    Service.instances service = [] /\
    Service.instances_revision service = [].
Proof.
  destruct (random_id_run 8 w b) as (rid & w1 & E1 & _).
  destruct (unix_time_run w1 b) as (t1 & w2 & E2).
  exists rid. eexists. exists w2. unfold Service_init.
  rewrite (bind_inr _ _ _ _ _ E1), (bind_inr _ _ _ _ _ E2), E1.
  unfold ret. conjuncts; reflexivity.
Qed.

(** C5.  Whenever [create_http_namespace] returns, the Namespace it
    created (named as asked, of type HTTP, with the generated id) is stored
    under its generated id, and [get_namespace] with that id returns
    exactly that Namespace and changes nothing; whenever [create_service]
    returns a Service, [get_service] with the id of that Service returns
    exactly that Service.  Neither call can raise unless it is given tags
    to hand to the tagging service. *)
Theorem create_get_roundtrip (w : World) (b : ServiceDiscoveryBackend)
    (name creator_request_id description : string)
    (tags : list (dict string))
    (srv_name srv_namespace_id srv_creator_request_id srv_description : string)
    (dns_config health_check_config health_check_custom_config : json)
    (srv_tags : list (dict string)) (service_type : string) :
  match create_http_namespace name creator_request_id description tags (w, b)
  with
  | (inr _, s') =>
      exists rid namespace,
        fst (random_id 20 (w, b)) = inr rid /\
        Namespace.id namespace = ("ns-" ++ rid)%string /\
        Namespace.name namespace = name /\
        Namespace.type namespace = "HTTP"%string /\
        Namespace.creator_request_id namespace = creator_request_id /\
        Namespace.description namespace = description /\
        dict_get (Namespace.id namespace) (namespaces (snd s'))
        = Some namespace /\
        get_namespace (Namespace.id namespace) s' = (inr namespace, s')
  | (inl _, _) => tags <> []
  end /\
  match create_service srv_name srv_namespace_id srv_creator_request_id
          srv_description dns_config health_check_config
          health_check_custom_config srv_tags service_type (w, b)
  with
  | (inr service, s') =>
      exists rid,
        fst (random_id 8 (w, b)) = inr rid /\
        Service.id service = ("srv-" ++ rid)%string /\
        Service.name service = srv_name /\
        Service.namespace_id service = srv_namespace_id /\
        dict_get (Service.id service) (services (snd s')) = Some service /\
        get_service (Service.id service) s' = (inr service, s')
  | (inl _, _) => srv_tags <> []
  end.
Proof.
  split.
  - destruct (Namespace_init_run (account_id b) (region_name b) name "HTTP"
                creator_request_id description
                [("SOA"%string, JObject [])]
                [("HttpName"%string, JString name)] None w b)
      as (rid & ns & w1 & Erid & Einit & Hid & Hname & Hty & Hcr & Hde & _).
    unfold create_http_namespace, bind at 1, self. simpl.
    rewrite (bind_inr _ _ _ _ _ Einit).
    unfold bind at 1, assign. simpl.
    set (b1 := with_namespaces b (dict_set (Namespace.id ns) ns (namespaces b))).
    assert (Hdone : forall (w2 : World) (b2 : ServiceDiscoveryBackend),
               namespaces b2 = namespaces b1 ->
               match
                 bind (_create_operation "CREATE_NAMESPACE"
                         [("NAMESPACE"%string, Namespace.id ns)])
                      (fun operation_id => ret operation_id) (w2, b2)
               with
               | (inr _, s') =>
                   exists rid namespace,
                     fst (random_id 20 (w, b)) = inr rid /\
                     Namespace.id namespace = ("ns-" ++ rid)%string /\
                     Namespace.name namespace = name /\
                     Namespace.type namespace = "HTTP"%string /\
                     Namespace.creator_request_id namespace
                     = creator_request_id /\
                     Namespace.description namespace = description /\
                     dict_get (Namespace.id namespace) (namespaces (snd s'))
                     = Some namespace /\
                     get_namespace (Namespace.id namespace) s'
                     = (inr namespace, s')
               | (inl _, _) => tags <> []
               end).
    { intros w2 b2 Hns.
      destruct (create_operation_run "CREATE_NAMESPACE"
                  [("NAMESPACE"%string, Namespace.id ns)] w2 b2)
        as (op & w3 & E & _).
      rewrite (bind_inr _ _ _ _ _ E). unfold ret.
      exists rid, ns.
      assert (Hget : dict_get (Namespace.id ns)
                       (namespaces
                          (with_operations b2
                             (dict_set (Operation.id op) op (operations b2))))
                     = Some ns).
      { simpl. rewrite Hns. unfold b1. simpl. apply dict_get_set_eq. }
      conjuncts; try assumption.
      rewrite get_namespace_run. cbn [snd]. rewrite Hget. reflexivity. }
    destruct tags as [|tag tags].
    + unfold bind at 1, ret at 1. apply Hdone. reflexivity.
    + unfold bind at 1, tagger_tag_resource. cbn [fst snd].
      destruct (tag_resource (Namespace.arn ns) (tag :: tags) (tagger b1)).
      * discriminate.
      * apply Hdone. reflexivity.
  - destruct (Service_init_run (account_id b) (region_name b) srv_name
                srv_namespace_id srv_description srv_creator_request_id
                dns_config health_check_config health_check_custom_config
                service_type w b)
      as (rid & srv & w1 & Erid & Einit & Hid & Hname & Hns & _).
    unfold create_service, bind at 1, self. simpl.
    rewrite (bind_inr _ _ _ _ _ Einit).
    unfold bind at 1, assign. simpl.
    set (b1 := with_services b (dict_set (Service.id srv) srv (services b))).
    assert (Hget : forall t, dict_get (Service.id srv)
                               (services (with_tagger b1 t)) = Some srv).
    { intros t. simpl. apply dict_get_set_eq. }
    destruct srv_tags as [|tag srv_tags].
    + unfold bind, ret. exists rid. conjuncts; try assumption.
      * apply (Hget (tagger b)).
      * rewrite get_service_run. cbn [snd]. unfold b1. simpl.
        rewrite dict_get_set_eq. reflexivity.
    + unfold bind at 1, tagger_tag_resource. cbn [fst snd].
      destruct (tag_resource (Service.arn srv) (tag :: srv_tags) (tagger b1)).
      * discriminate.
      * unfold ret. exists rid. conjuncts; try assumption.
        -- apply Hget.
        -- rewrite get_service_run. cbn [snd]. rewrite Hget. reflexivity.
Qed.

Lemma list_namespaces_run (s : state) :
  list_namespaces s = (inr (dict_values (namespaces (snd s))), s).
Proof. reflexivity. Qed.

Lemma list_services_run (s : state) :
  list_services s = (inr (dict_values (services (snd s))), s).
Proof. reflexivity. Qed.

Lemma list_instances_run (service_id : string) (s : state) :
  list_instances service_id s
  = (match dict_get service_id (services (snd s)) with
     | Some service => inr (Service.instances service)
     | None => inl (ServiceNotFound service_id)
     end, s).
Proof.
  unfold list_instances, bind. rewrite get_service_run.
  destruct (dict_get service_id (services (snd s))); reflexivity.
Qed.

Lemma contains_raises (v : json) (x : string) (e : exn) :
  contains v x = inl e -> e = TypeError.
Proof. destruct v; simpl; congruence. Qed.

Lemma instances_among_raises (v : json) (l : list ServiceInstance.t) (e : exn) :
  instances_among v l = inl e -> e = TypeError.
Proof.
  induction l as [|i r IH]; simpl; [discriminate|].
  destruct (contains v (ServiceInstance.instance_id i)) as [e'|keep] eqn:Ec.
  - intros [= <-]. apply (contains_raises _ _ _ Ec).
  - destruct (instances_among v r) as [e'|r']; [|discriminate].
    intros [= <-]. apply IH. reflexivity.
Qed.

(** C8.  For a service that is in the services store,
    [get_instances_health_status] raises InvalidInput (Instances must be a
    list) whenever the [instances] argument is None or a list, and returns
    no status list: None is first replaced by the list of the ids of the
    service, and the check raises exactly for lists.  Nothing is changed.
    Conversely that InvalidInput is raised for no other argument. *)
Theorem get_instances_health_status_rejects_lists (w : World)
    (b : ServiceDiscoveryBackend) (service_id : string) (service : Service.t)
    (instances : json) :
  dict_get service_id (services b) = Some service ->
  instances = JNull \/ (exists ids, instances = JArray ids) ->
  get_instances_health_status service_id instances (w, b)
  = (inl (InvalidInput "Instances must be a list"), (w, b)) /\
  forall other : json,
    fst (get_instances_health_status service_id other (w, b))
    = inl (InvalidInput "Instances must be a list")
    <-> other = JNull \/ is_list other = true.
Proof.
  intros Hsrv Harg.
  assert (Hrun : forall v : json,
             v = JNull \/ is_list v = true ->
             get_instances_health_status service_id v (w, b)
             = (inl (InvalidInput "Instances must be a list"), (w, b))).
  { intros v Hv. unfold get_instances_health_status, bind.
    rewrite get_service_run. cbn [snd]. rewrite Hsrv.
    destruct Hv as [-> | Hv]; [reflexivity|].
    destruct v; try discriminate. reflexivity. }
  split.
  - apply Hrun. destruct Harg as [-> | [ids ->]]; [left | right]; reflexivity.
  - intros other. split.
    + intros Hraised.
      destruct other; try (left; reflexivity); try (right; reflexivity);
        exfalso; revert Hraised;
        unfold get_instances_health_status, bind;
        rewrite get_service_run; cbn [snd]; rewrite Hsrv; cbn [is_list];
        (match goal with
         | |- context [instances_among ?v ?l] =>
             destruct (instances_among v l) as [e|f] eqn:Ea;
             [apply instances_among_raises in Ea; subst e|]
         end); simpl; discriminate.
    + intros Hv. rewrite (Hrun other Hv). reflexivity.
Qed.

Lemma find_filter_head {A : Type} (f : A -> bool) (l : list A) (x : A) :
  find f l = Some x -> exists r, filter f l = x :: r.
Proof.
  induction l as [|y l IH]; simpl; [discriminate|].
  destruct (f y) eqn:E.
  - intros [= ->]. eauto.
  - exact IH.
Qed.

(** An instance whose health status is HEALTHY or UNHEALTHY is skipped by
    the first loop of [discover_instances] when ALL or HEALTHY_OR_ELSE_ALL
    is asked for. *)
Lemma discover_step_skips (query_parameters : dict string)
    (health_status : string) (acc : list ServiceInstance.t * bool)
    (instance : ServiceInstance.t) :
  health_status = "ALL"%string \/ health_status = "HEALTHY_OR_ELSE_ALL"%string ->
  ServiceInstance.health_status instance = "HEALTHY"%string \/
  ServiceInstance.health_status instance = "UNHEALTHY"%string ->
  discover_step query_parameters health_status acc instance = acc.
Proof.
  intros Hhs Hi. unfold discover_step. destruct acc as [filtered has_healthy].
  destruct Hhs as [-> | ->]; destruct Hi as [-> | ->]; reflexivity.
Qed.

Lemma discover_fold_skips (query_parameters : dict string)
    (health_status : string) (instances : list ServiceInstance.t)
    (acc : list ServiceInstance.t * bool) :
  health_status = "ALL"%string \/ health_status = "HEALTHY_OR_ELSE_ALL"%string ->
  (forall instance, In instance instances ->
     ServiceInstance.health_status instance = "HEALTHY"%string \/
     ServiceInstance.health_status instance = "UNHEALTHY"%string) ->
  fold_left (discover_step query_parameters health_status) instances acc = acc.
Proof.
  intros Hhs. induction instances as [|i r IH]; simpl; intros Hall; [reflexivity|].
  rewrite discover_step_skips; [|exact Hhs|apply Hall; left; reflexivity].
  apply IH. intros j Hj. apply Hall. right. exact Hj.
Qed.

(** A new instance is HEALTHY. *)
Lemma ServiceInstance_init_healthy (service_id instance_id : string)
    (creator_request_id : option string) (attributes : option (dict string))
    (w : World) (b : ServiceDiscoveryBackend) :
  exists instance w',
    ServiceInstance_init service_id instance_id creator_request_id attributes
      (w, b) = (inr instance, (w', b)) /\
    ServiceInstance.instance_id instance = instance_id /\
    ServiceInstance.health_status instance = "HEALTHY"%string.
Proof.
  unfold ServiceInstance_init.
  destruct creator_request_id as [[|c r]|].
  - destruct (random_id_run 32 w b) as (rid & w1 & E & _).
    rewrite (bind_inr _ _ _ _ _ E). unfold ret. eauto.
  - unfold bind, ret. eauto.
  - destruct (random_id_run 32 w b) as (rid & w1 & E & _).
    rewrite (bind_inr _ _ _ _ _ E). unfold ret. eauto.
Qed.

Lemma assign_health_status_In (instance_id status : string)
    (l : list ServiceInstance.t) (instance : ServiceInstance.t) :
  In instance (assign_health_status instance_id status l) ->
  In instance l \/ ServiceInstance.health_status instance = status.
Proof.
  induction l as [|i r IH]; simpl; [intros []|].
  destruct (String.eqb (ServiceInstance.instance_id i) instance_id).
  - intros [<- | Hin]; [right; reflexivity | left; right; exact Hin].
  - intros [<- | Hin]; [left; left; reflexivity|].
    destruct (IH Hin) as [Hl | Hs]; [left; right; exact Hl | right; exact Hs].
Qed.

Lemma str_in_two (x a c : string) :
  str_in x [a; c] = true -> x = a \/ x = c.
Proof.
  unfold str_in. simpl. rewrite orb_false_r, orb_true_iff, !String.eqb_eq.
  tauto.
Qed.

(** [register_instance] returns whenever the service is stored: it puts a
    new HEALTHY instance last, counts a revision and records an operation. *)
Lemma register_instance_run (service_id instance_id : string)
    (creator_request_id : option string) (attributes : option (dict string))
    (w : World) (b : ServiceDiscoveryBackend) (service : Service.t) :
  dict_get service_id (services b) = Some service ->
  exists instance op w',
    register_instance service_id instance_id creator_request_id attributes
      (w, b)
    = (inr (Operation.id op),
       (w',
        with_operations
          (with_services b
             (dict_set service_id
                (Service.with_instances service
                   (Service.instances service ++ [instance])
                   (dict_set instance_id
                      (next_revision (Service.instances_revision service)
                         instance_id)
                      (Service.instances_revision service)))
                (services b)))
          (dict_set (Operation.id op) op (operations b)))) /\
    ServiceInstance.instance_id instance = instance_id /\
    ServiceInstance.health_status instance = "HEALTHY"%string.
Proof.
  intros Hsrv.
  destruct (ServiceInstance_init_healthy service_id instance_id
              creator_request_id attributes w b) as (i & w1 & Ei & Hid & Hh).
  unfold register_instance, bind at 1. rewrite get_service_run. cbn [snd].
  rewrite Hsrv, (bind_inr _ _ _ _ _ Ei).
  unfold bind at 1, store_service, assign. cbn [fst snd].
  match goal with
  | |- context [bind (_create_operation ?ty ?tg) _ (?w0, ?b0)] =>
      destruct (create_operation_run ty tg w0 b0) as (op & w' & E & _)
  end.
  exists i, op, w'. rewrite (bind_inr _ _ _ _ _ E). unfold ret.
  split; [reflexivity | split; assumption].
Qed.

Lemma register_instance_health_known (service_id instance_id : string)
    (creator_request_id : option string) (attributes : option (dict string))
    (w : World) (b : ServiceDiscoveryBackend) :
  health_known b ->
  health_known
    (snd (snd (register_instance service_id instance_id creator_request_id
                 attributes (w, b)))).
Proof.
  intros Hknown.
  destruct (dict_get service_id (services b)) as [service|] eqn:Hsrv.
  - destruct (register_instance_run service_id instance_id creator_request_id
                attributes w b service Hsrv) as (i & op & w' & E & _ & Hh).
    rewrite E. cbn [snd]. intros k srv instance. cbn [services with_operations].
    cbn [services with_services].
    destruct (String.eqb_spec k service_id) as [-> | Hne].
    + rewrite dict_get_set_eq. intros [= <-]. cbn [Service.instances Service.with_instances].
      rewrite in_app_iff. intros [Hold | [<- | []]].
      * apply (Hknown _ _ _ Hsrv Hold).
      * left. exact Hh.
    + rewrite dict_get_set_neq by exact Hne. apply Hknown.
  - unfold register_instance, bind at 1. rewrite get_service_run. cbn [snd].
    rewrite Hsrv. exact Hknown.
Qed.

Lemma update_instance_custom_health_status_health_known
    (service_id instance_id status : string)
    (w : World) (b : ServiceDiscoveryBackend) :
  health_known b ->
  health_known
    (snd (snd (update_instance_custom_health_status service_id instance_id
                 status (w, b)))).
Proof.
  intros Hknown. unfold update_instance_custom_health_status.
  destruct (str_in status ["HEALTHY"; "UNHEALTHY"]%string) eqn:Hst;
    [|exact Hknown].
  apply str_in_two in Hst. cbn [negb].
  unfold bind at 1, get_instance, bind at 1.
  rewrite list_instances_run. cbn [snd].
  destruct (dict_get service_id (services b)) as [service|] eqn:Hsrv;
    [|exact Hknown].
  destruct (find _ (Service.instances service)); [|exact Hknown].
  unfold ret, bind. rewrite get_service_run. cbn [snd]. rewrite Hsrv.
  unfold store_service, assign. cbn [fst snd].
  intros k srv instance. cbn [services with_services].
  destruct (String.eqb_spec k service_id) as [-> | Hne].
  - rewrite dict_get_set_eq. intros [= <-].
    cbn [Service.instances Service.with_instances]. intros Hin.
    destruct (assign_health_status_In _ _ _ _ Hin) as [Hold | ->].
    + apply (Hknown _ _ _ Hsrv Hold).
    + exact Hst.
  - rewrite dict_get_set_neq by exact Hne. apply Hknown.
Qed.

(** C9.  When the health status of every registered instance is HEALTHY or
    UNHEALTHY, [discover_instances] asked for ALL or HEALTHY_OR_ELSE_ALL
    returns no instance and no revision, for every namespace and service it
    finds and whatever the query and optional parameters are: the first
    loop compares the status of the instance itself with the keywords and
    with the status asked for, and skips every instance. *)
Theorem discover_instances_all_is_empty (w : World)
    (b : ServiceDiscoveryBackend) (namespace_name service_name : string)
    (query_parameters optional_parameters : dict string)
    (health_status : string) (namespace : Namespace.t) (service : Service.t) :
  health_status = "ALL"%string \/ health_status = "HEALTHY_OR_ELSE_ALL"%string ->
  health_known b ->
  find (fun ns => String.eqb (Namespace.name ns) namespace_name)
       (dict_values (namespaces b)) = Some namespace ->
  find (fun srv => String.eqb (Service.name srv) service_name
                   && String.eqb (Service.namespace_id srv)
                                 (Namespace.id namespace))
       (dict_values (services b)) = Some service ->
  dict_mem (Service.id service) (services b) = true ->
  discover_instances namespace_name service_name query_parameters
    optional_parameters health_status (w, b)
  = (inr ([], []), (w, b)).
Proof.
  intros Hhs Hhealth Hns Hsrv Hkey.
  apply find_filter_head in Hns. destruct Hns as [nss Hns].
  apply find_filter_head in Hsrv. destruct Hsrv as [srvs Hsrv].
  apply dict_mem_true in Hkey. destruct Hkey as [stored Hstored].
  unfold discover_instances.
  replace (negb (str_in health_status
                   ["HEALTHY"; "UNHEALTHY"; "ALL"; "HEALTHY_OR_ELSE_ALL"]%string))
    with false by (destruct Hhs as [-> | ->]; reflexivity).
  rewrite (bind_inr _ _ _ _ _ (list_namespaces_run (w, b))). cbn [snd].
  rewrite Hns.
  rewrite (bind_inr _ _ _ _ _ (list_services_run (w, b))). cbn [snd].
  rewrite Hsrv.
  unfold bind. rewrite list_instances_run. cbn [snd]. rewrite Hstored.
  rewrite discover_fold_skips; [|exact Hhs|].
  - rewrite andb_false_l. reflexivity.
  - intros i Hi. apply (Hhealth _ _ _ Hstored Hi).
Qed.

Lemma list_operations_run (s : state) :
  list_operations s
  = (inr (dict_values
            (filter (fun e => targets_live_namespace (namespaces (snd s)) (snd e))
                    (operations (snd s)))),
     (fst s,
      with_operations (snd s)
        (filter (fun e => targets_live_namespace (namespaces (snd s)) (snd e))
                (operations (snd s))))).
Proof. reflexivity. Qed.

(** An operation without a NAMESPACE target that has just been stored is
    in the store, and is gone once the operations have been listed. *)
Lemma stored_then_listed (b0 b1 : ServiceDiscoveryBackend) (op : Operation.t)
    (w1 : World) :
  dict_wf (operations b0) ->
  operations b1 = dict_set (Operation.id op) op (operations b0) ->
  dict_get "NAMESPACE" (Operation.targets op) = None ->
  dict_mem (Operation.id op) (operations b1) = true /\
  dict_mem (Operation.id op)
    (operations (snd (snd (list_operations (w1, b1))))) = false.
Proof.
  intros Hwf Hops Htg. split.
  - apply dict_mem_true. exists op. rewrite Hops. apply dict_get_set_eq.
  - rewrite list_operations_run. cbn [fst snd]. apply dict_mem_false.
    cbn [operations with_operations].
    rewrite dict_get_filter by (rewrite Hops; apply dict_wf_set, Hwf).
    rewrite Hops, dict_get_set_eq. cbn [snd].
    unfold targets_live_namespace. rewrite Htg. reflexivity.
Qed.

Lemma update_service_stores (service_id : string) (details : dict json)
    (w : World) (b : ServiceDiscoveryBackend) (operation_id : string)
    (s1 : state) :
  update_service service_id details (w, b) = (inr operation_id, s1) ->
  exists op target,
    operation_id = Operation.id op /\
    Operation.operation_type op = "UPDATE_SERVICE"%string /\
    Operation.targets op = [("SERVICE"%string, target)] /\
    operations (snd s1) = dict_set (Operation.id op) op (operations b).
Proof.
  unfold update_service, bind at 1. rewrite get_service_run. cbn [snd].
  destruct (dict_get service_id (services b)) as [service|]; [|discriminate].
  destruct (Service.update service details) as [raised service'].
  unfold bind at 1, store_service, assign. cbn [fst snd].
  destruct raised as [e|]; [discriminate|].
  match goal with
  | |- context [bind (_create_operation ?ty ?tg) _ (?w0, ?b0)] =>
      destruct (create_operation_run ty tg w0 b0) as (op & w' & E & Hty & Htg & _)
  end.
  rewrite (bind_inr _ _ _ _ _ E). unfold ret. intros [= <- <-].
  exists op, (Service.id service'). conjuncts; try assumption; reflexivity.
Qed.

Lemma register_instance_stores (service_id instance_id : string)
    (creator_request_id : option string) (attributes : option (dict string))
    (w : World) (b : ServiceDiscoveryBackend) (operation_id : string)
    (s1 : state) :
  register_instance service_id instance_id creator_request_id attributes (w, b)
  = (inr operation_id, s1) ->
  exists op,
    operation_id = Operation.id op /\
    Operation.operation_type op = "REGISTER_INSTANCE"%string /\
    Operation.targets op = [("INSTANCE"%string, instance_id)] /\
    operations (snd s1) = dict_set (Operation.id op) op (operations b).
Proof.
  unfold register_instance, bind at 1. rewrite get_service_run. cbn [snd].
  destruct (dict_get service_id (services b)) as [service|]; [|discriminate].
  destruct (ServiceInstance_init_healthy service_id instance_id
              creator_request_id attributes w b) as (i & w1 & Ei & _).
  rewrite (bind_inr _ _ _ _ _ Ei).
  unfold bind at 1, store_service, assign. cbn [fst snd].
  match goal with
  | |- context [bind (_create_operation ?ty ?tg) _ (?w0, ?b0)] =>
      destruct (create_operation_run ty tg w0 b0) as (op & w' & E & Hty & Htg & _)
  end.
  rewrite (bind_inr _ _ _ _ _ E). unfold ret. intros [= <- <-].
  exists op. conjuncts; try assumption; reflexivity.
Qed.

Lemma deregister_instance_stores (service_id instance_id : string)
    (w : World) (b : ServiceDiscoveryBackend) (operation_id : string)
    (s1 : state) :
  deregister_instance service_id instance_id (w, b) = (inr operation_id, s1) ->
  exists op,
    operation_id = Operation.id op /\
    Operation.operation_type op = "DEREGISTER_INSTANCE"%string /\
    Operation.targets op = [("INSTANCE"%string, instance_id)] /\
    operations (snd s1) = dict_set (Operation.id op) op (operations b).
Proof.
  unfold deregister_instance, bind at 1. rewrite get_service_run. cbn [snd].
  destruct (dict_get service_id (services b)) as [service|]; [|discriminate].
  destruct (remove_instance instance_id (Service.instances service))
    as [remaining|]; [|discriminate].
  unfold bind at 1, store_service, assign. cbn [fst snd].
  match goal with
  | |- context [bind (_create_operation ?ty ?tg) _ (?w0, ?b0)] =>
      destruct (create_operation_run ty tg w0 b0) as (op & w' & E & Hty & Htg & _)
  end.
  rewrite (bind_inr _ _ _ _ _ E). unfold ret. intros [= <- <-].
  exists op. conjuncts; try assumption; reflexivity.
Qed.

(** C10.  [list_operations] replaces the operations store: afterwards it
    holds exactly the operations stored before whose targets map NAMESPACE
    to an id that is a key of the namespaces store, and these are what it
    returns; namespaces and services are untouched.  So an operation that
    [update_service], [register_instance] or [deregister_instance] has just
    created, which has no NAMESPACE target, is in the store after that call
    and is no longer there after the next [list_operations]. *)
Theorem list_operations_keeps_namespace_operations (w : World)
    (b : ServiceDiscoveryBackend) :
  dict_wf (operations b) ->
  (exists b',
     list_operations (w, b) = (inr (dict_values (operations b')), (w, b')) /\
     operations b'
     = filter (fun e => targets_live_namespace (namespaces b) (snd e))
              (operations b) /\
     namespaces b' = namespaces b /\
     services b' = services b /\
     forall id op,
       dict_get id (operations b') = Some op <->
       dict_get id (operations b) = Some op /\
       exists ns, dict_get "NAMESPACE" (Operation.targets op) = Some ns /\
                  dict_mem ns (namespaces b) = true) /\
  (forall service_id details operation_id s1,
     update_service service_id details (w, b) = (inr operation_id, s1) ->
     dict_mem operation_id (operations (snd s1)) = true /\
     dict_mem operation_id
       (operations (snd (snd (list_operations s1)))) = false) /\
  (forall service_id instance_id creator_request_id attributes operation_id s1,
     register_instance service_id instance_id creator_request_id attributes
       (w, b) = (inr operation_id, s1) ->
     dict_mem operation_id (operations (snd s1)) = true /\
     dict_mem operation_id
       (operations (snd (snd (list_operations s1)))) = false) /\
  (forall service_id instance_id operation_id s1,
     deregister_instance service_id instance_id (w, b)
     = (inr operation_id, s1) ->
     dict_mem operation_id (operations (snd s1)) = true /\
     dict_mem operation_id
       (operations (snd (snd (list_operations s1)))) = false).
Proof.
  intros Hwf. conjuncts.
  - eexists (with_operations b _). split; [apply list_operations_run|].
    cbn [fst snd operations namespaces services with_operations].
    conjuncts; try reflexivity.
    intros id op. rewrite dict_get_filter by exact Hwf. cbn [snd].
    unfold targets_live_namespace.
    destruct (dict_get id (operations b)) as [op0|]; [|split; [discriminate|intros [[=] _]]].
    split.
    + destruct (dict_get "NAMESPACE" (Operation.targets op0)) as [ns|] eqn:Etg;
        [|discriminate].
      destruct (dict_mem ns (namespaces b)) eqn:Em; [|discriminate].
      intros [= <-]. split; [reflexivity|]. exists ns. split; assumption.
    + intros [[= ->] (ns & Etg & Em)]. rewrite Etg, Em. reflexivity.
  - intros service_id details operation_id [w1 b1] Hrun.
    destruct (update_service_stores _ _ _ _ _ _ Hrun)
      as (op & target & -> & _ & Htg & Hops).
    apply (stored_then_listed b b1 op w1 Hwf Hops). rewrite Htg. reflexivity.
  - intros service_id instance_id creator_request_id attributes operation_id
      [w1 b1] Hrun.
    destruct (register_instance_stores _ _ _ _ _ _ _ _ Hrun)
      as (op & -> & _ & Htg & Hops).
    apply (stored_then_listed b b1 op w1 Hwf Hops). rewrite Htg. reflexivity.
  - intros service_id instance_id operation_id [w1 b1] Hrun.
    destruct (deregister_instance_stores _ _ _ _ _ _ Hrun)
      as (op & -> & _ & Htg & Hops).
    apply (stored_then_listed b b1 op w1 Hwf Hops). rewrite Htg. reflexivity.
Qed.

(** The operations store stays a dict when an operation is created, and the
    store that [list_operations] leaves is one too. *)
Lemma create_operation_wf (op_type : string) (targets : dict string)
    (w : World) (b : ServiceDiscoveryBackend) :
  dict_wf (operations b) ->
  dict_wf (operations (snd (snd (_create_operation op_type targets (w, b))))).
Proof.
  intros Hwf.
  destruct (create_operation_run op_type targets w b) as (op & w' & E & _).
  rewrite E. cbn [snd operations with_operations]. apply dict_wf_set, Hwf.
Qed.

Lemma list_operations_wf (s : state) :
  dict_wf (operations (snd s)) ->
  dict_wf (operations (snd (snd (list_operations s)))).
Proof.
  intros Hwf. rewrite list_operations_run.
  cbn [snd operations with_operations]. apply dict_wf_filter, Hwf.
Qed.

End Properties.

(** *** Runs on the example backend *)

#[local] Existing Instance recording_collaborators.

Example create_http_namespace_first_id :
  match create_http_namespace "prod" "req-0" "production" []
          (counting_world, ServiceDiscoveryBackend_init "us-east-1" "123456789012")
  with
  | (inr operation_id, (_, b)) =>
      operation_id = "uvwxyz0123456789abcdefghijklmnop-qrstuvwx"%string /\
      dict_keys (namespaces b) = ["ns-abcdefghijklmnopqrst"%string] /\
      dict_keys (operations b) = [operation_id]
  | (inl _, _) => False
  end.
Proof. vm_compute. repeat split. Qed.

(** C6 does not hold as stated.  With a generator that repeats, a new
    backend holds after one [create_http_namespace] the namespace
    ns-aaaaaaaaaaaaaaaaaaaa and one operation, under the id that the next
    operation is given as well.  [delete_namespace] of that namespace
    returns that id, and the operations store has one entry still: the
    operation DELETE_NAMESPACE has taken the place of the operation
    CREATE_NAMESPACE, and nothing has been appended. *)
Example delete_namespace_replaces_an_operation :
  match create_http_namespace "prod" "req-0" "production" []
          (repeating_world, example_new_backend)
  with
  | (inr created_id, s1) =>
      dict_keys (namespaces (snd s1)) = ["ns-aaaaaaaaaaaaaaaaaaaa"%string] /\
      map (fun e => (fst e, Operation.operation_type (snd e)))
        (operations (snd s1))
      = [(created_id, "CREATE_NAMESPACE"%string)] /\
      match delete_namespace "ns-aaaaaaaaaaaaaaaaaaaa" s1 with
      | (inr deleted_id, s2) =>
          deleted_id = created_id /\
          dict_keys (namespaces (snd s2)) = [] /\
          map (fun e => (fst e, Operation.operation_type (snd e)))
            (operations (snd s2))
          = [(created_id, "DELETE_NAMESPACE"%string)] /\
          length (operations (snd s2)) = length (operations (snd s1))
      | (inl _, _) => False
      end
  | (inl _, _) => False
  end.
Proof. vm_compute. conjuncts; reflexivity. Qed.

Example discover_instances_healthy :
  fst (discover_instances "prod" "web" [("zone", "a")]%string [] "HEALTHY"
         (counting_world, example_backend))
  = inr ([example_instance "i-1" "HEALTHY"], [("i-1"%string, 1%Z)]).
Proof. reflexivity. Qed.

Example health_status_of_a_dict_argument :
  fst (get_instances_health_status "srv-web00001"
         (JObject [("i-2"%string, JNull)]) (counting_world, example_backend))
  = inr [("i-2", "UNHEALTHY")]%string.
Proof. reflexivity. Qed.

Lemma example_backend_health : health_known example_backend.
Proof.
  intros k srv instance.
  simpl. destruct (String.eqb k "srv-web00001"); [|discriminate].
  intros [= <-]. simpl. intros [<- | [<- | []]]; [left | right]; reflexivity.
Defined.

Lemma example_backend_operations_wf : dict_wf (operations example_backend).
Proof.
  unfold dict_wf. simpl.
  repeat (constructor; [simpl; intuition discriminate|]). constructor.
Defined.

Lemma get_instances_health_status_rejects_lists_witness :
  get_instances_health_status "srv-web00001" (JArray [JString "i-1"])
    (counting_world, example_backend)
  = (inl (InvalidInput "Instances must be a list"),
     (counting_world, example_backend)) /\
  forall other : json,
    fst (get_instances_health_status "srv-web00001" other
           (counting_world, example_backend))
    = inl (InvalidInput "Instances must be a list")
    <-> other = JNull \/ is_list other = true.
Proof.
  apply (get_instances_health_status_rejects_lists counting_world
           example_backend "srv-web00001" example_service
           (JArray [JString "i-1"])).
  - reflexivity.
  - right. exists [JString "i-1"]. reflexivity.
Defined.

Lemma discover_instances_all_is_empty_witness :
  discover_instances "prod" "web" [] [] "ALL" (counting_world, example_backend)
  = (inr ([], []), (counting_world, example_backend)).
Proof.
  apply (discover_instances_all_is_empty counting_world example_backend
           "prod" "web" [] [] "ALL" example_namespace example_service).
  - left. reflexivity.
  - exact example_backend_health.
  - reflexivity.
  - reflexivity.
  - reflexivity.
Defined.

Lemma list_operations_keeps_namespace_operations_witness :
  dict_wf (operations example_backend) /\
  exists b',
    list_operations (counting_world, example_backend)
    = (inr (dict_values (operations b')), (counting_world, b')) /\
    operations b'
    = [("op-1"%string,
        example_operation "op-1" "CREATE_NAMESPACE" "NAMESPACE" "ns-prod")].
Proof.
  split; [exact example_backend_operations_wf|].
  destruct (list_operations_keeps_namespace_operations counting_world
              example_backend example_backend_operations_wf)
    as [(b' & Hrun & Hops & _) _].
  exists b'. split; [exact Hrun | exact Hops].
Defined.

End ServiceDiscoverySpec.

(* ===================================================================== *)
(** ** ServiceDiscovery: the rest of the backend *)
(* ===================================================================== *)

Module ServiceDiscoveryMore.

Import Py PyFacts ServiceDiscovery ServiceDiscoverySpec.
Local Open Scope list_scope.

Section Properties.

Context `{Collaborators}.

(** *** Generated ids *)

Lemma string_get_has_char (n : nat) (s : string) (c : ascii) :
  String.get n s = Some c -> has_char c s = true.
Proof.
  revert n. induction s as [|a s IH]; simpl; intros n Hg; [discriminate|].
  destruct n as [|n].
  - injection Hg as ->. rewrite Ascii.eqb_refl. reflexivity.
  - rewrite (IH n Hg). apply orb_true_r.
Qed.

Lemma drawn_drawn (w : World) (n m : nat) :
  drawn (drawn w n) m = drawn w (n + m).
Proof. unfold drawn. simpl. f_equal. lia. Qed.

Lemma random_choice_exact (seq : string) (w : World)
    (b : ServiceDiscoveryBackend) :
  0 < String.length seq ->
  exists c, random_choice seq (w, b) = (inr c, (drawn w 1, b))
            /\ has_char c seq = true.
Proof.
  intros Hlen. unfold random_choice. cbn [fst snd].
  destruct (string_get_lt (rng w (rng_pos w) mod String.length seq) seq)
    as [c Hc]; [apply Nat.mod_upper_bound; lia|].
  rewrite Hc. exists c. split; [|apply (string_get_has_char _ _ _ Hc)].
  unfold drawn. rewrite Nat.add_1_r. reflexivity.
Qed.

(** X1.  [random_id(size)] never fails: it returns [size] characters, each
    a lowercase letter or a digit, takes exactly [size] draws from the
    generator, and touches neither the clock nor the backend. *)
Theorem random_id_shape (size : nat) (w : World)
    (b : ServiceDiscoveryBackend) :
  exists r,
    random_id size (w, b) = (inr r, (drawn w size, b)) /\
    String.length r = size /\
    forall c, has_char c r = true ->
              has_char c "abcdefghijklmnopqrstuvwxyz0123456789" = true.
Proof.
  revert w. induction size as [|n IH]; intros w.
  - exists EmptyString. conjuncts.
    + simpl. unfold ret, drawn. rewrite Nat.add_0_r. destruct w; reflexivity.
    + reflexivity.
    + discriminate.
  - destruct (random_choice_exact (ascii_lowercase ++ digits)%string w b)
      as (c & E1 & Hc); [simpl; lia|].
    destruct (IH (drawn w 1)) as (r & E2 & Hlen & Hall).
    exists (String c r). conjuncts.
    + simpl random_id.
      rewrite (bind_inr _ _ _ _ _ E1), (bind_inr _ _ _ _ _ E2). unfold ret.
      rewrite drawn_drawn. reflexivity.
    + simpl. congruence.
    + intros d. cbn [has_char]. intros Hd. apply orb_true_iff in Hd.
      destruct Hd as [Hd | Hd]; [|apply Hall, Hd].
      apply Ascii.eqb_eq in Hd. subst d. exact Hc.
Qed.

(** *** Instances: registration, removal, lookup, health *)

Lemma remove_instance_None (instance_id : string) (l : list ServiceInstance.t) :
  remove_instance instance_id l = None <->
  forall j, In j l -> ServiceInstance.instance_id j <> instance_id.
Proof.
  induction l as [|i r IH]; simpl.
  - split; [intros _ j [] | reflexivity].
  - destruct (String.eqb_spec (ServiceInstance.instance_id i) instance_id)
      as [E | E].
    + split; [discriminate|]. intros Hall. exfalso.
      apply (Hall i); [left; reflexivity | exact E].
    + destruct (remove_instance instance_id r) as [r'|].
      * split; [discriminate|]. intros Hall.
        assert (Hn : Some r' = None); [|discriminate].
        apply IH. intros j Hj. apply Hall. right. exact Hj.
      * split; [|reflexivity]. intros _ j [<- | Hj]; [exact E|].
        destruct IH as [IH _]. apply (IH eq_refl j Hj).
Qed.

Lemma remove_instance_Some (instance_id : string)
    (l remaining : list ServiceInstance.t) :
  remove_instance instance_id l = Some remaining ->
  exists l1 i l2,
    l = l1 ++ i :: l2 /\ remaining = l1 ++ l2 /\
    ServiceInstance.instance_id i = instance_id /\
    forall j, In j l1 -> ServiceInstance.instance_id j <> instance_id.
Proof.
  revert remaining. induction l as [|i r IH]; simpl; intros remaining;
    [discriminate|].
  destruct (String.eqb_spec (ServiceInstance.instance_id i) instance_id)
    as [E | E].
  - intros [= <-]. exists [], i, r. conjuncts; try reflexivity; [exact E|].
    intros j [].
  - destruct (remove_instance instance_id r) as [r'|]; [|discriminate].
    intros [= <-]. destruct (IH r' eq_refl) as (l1 & x & l2 & -> & -> & Hx & Hl1).
    exists (i :: l1), x, l2. conjuncts; try reflexivity; [exact Hx|].
    intros j [<- | Hj]; [exact E | apply Hl1, Hj].
Qed.

Lemma remove_instance_last (instance_id : string)
    (l : list ServiceInstance.t) (i : ServiceInstance.t) :
  (forall j, In j l -> ServiceInstance.instance_id j <> instance_id) ->
  ServiceInstance.instance_id i = instance_id ->
  remove_instance instance_id (l ++ [i]) = Some l.
Proof.
  intros Hall Hi. induction l as [|x r IH]; simpl.
  - apply String.eqb_eq in Hi. rewrite Hi. reflexivity.
  - destruct (String.eqb_spec (ServiceInstance.instance_id x) instance_id)
      as [E | E].
    + exfalso. apply (Hall x); [left; reflexivity | exact E].
    + rewrite IH; [reflexivity|]. intros j Hj. apply Hall. right. exact Hj.
Qed.

Lemma find_none_all {A : Type} (f : A -> bool) (l : list A) :
  (forall x, In x l -> f x = false) -> find f l = None.
Proof.
  induction l as [|y l IH]; simpl; intros Hall; [reflexivity|].
  rewrite (Hall y) by (left; reflexivity).
  apply IH. intros x Hx. apply Hall. right. exact Hx.
Qed.

Lemma find_app_first {A : Type} (f : A -> bool) (l1 l2 : list A) (x : A) :
  find f l1 = Some x -> find f (l1 ++ l2) = Some x.
Proof.
  induction l1 as [|y l1 IH]; simpl; [discriminate|].
  destruct (f y); [trivial | exact IH].
Qed.

Lemma find_app_second {A : Type} (f : A -> bool) (l1 l2 : list A) :
  find f l1 = None -> find f (l1 ++ l2) = find f l2.
Proof.
  induction l1 as [|y l1 IH]; simpl; [reflexivity|].
  destruct (f y); [discriminate | exact IH].
Qed.

Lemma get_instance_run (service_id instance_id : string) (s : state) :
  get_instance service_id instance_id s
  = (match dict_get service_id (services (snd s)) with
     | None => inl (ServiceNotFound service_id)
     | Some service =>
         match find (has_id instance_id) (Service.instances service) with
         | Some instance => inr instance
         | None => inl (InstanceNotFound service_id)
         end
     end, s).
Proof.
  unfold get_instance, bind. rewrite list_instances_run.
  destruct (dict_get service_id (services (snd s))) as [service|];
    [|reflexivity].
  unfold has_id.
  destruct (find _ (Service.instances service)); reflexivity.
Qed.

(** What [deregister_instance] does on a stored service. *)
Lemma deregister_instance_run (service_id instance_id : string)
    (w : World) (b : ServiceDiscoveryBackend) (service : Service.t) :
  dict_get service_id (services b) = Some service ->
  match remove_instance instance_id (Service.instances service) with
  | None =>
      deregister_instance service_id instance_id (w, b)
      = (inl (InstanceNotFound service_id), (w, b))
  | Some remaining =>
      exists op w',
        deregister_instance service_id instance_id (w, b)
        = (inr (Operation.id op),
           (w',
            with_operations
              (with_services b
                 (dict_set service_id
                    (Service.with_instances service remaining
                       (dict_set instance_id
                          (next_revision (Service.instances_revision service)
                             instance_id)
                          (Service.instances_revision service)))
                    (services b)))
              (dict_set (Operation.id op) op (operations b)))) /\
        Operation.operation_type op = "DEREGISTER_INSTANCE"%string /\
        Operation.targets op = [("INSTANCE"%string, instance_id)]
  end.
Proof.
  intros Hsrv.
  destruct (remove_instance instance_id (Service.instances service))
    as [remaining|] eqn:Hrem;
    unfold deregister_instance, bind at 1; rewrite get_service_run;
    cbn [snd]; rewrite Hsrv, Hrem; [|reflexivity].
  unfold bind at 1, store_service, assign. cbn [fst snd].
  match goal with
  | |- context [bind (_create_operation ?ty ?tg) _ (?w0, ?b0)] =>
      destruct (create_operation_run ty tg w0 b0) as (op & w' & E & Hty & Htg & _)
  end.
  exists op, w'. rewrite (bind_inr _ _ _ _ _ E). unfold ret.
  conjuncts; [reflexivity | exact Hty | exact Htg].
Qed.

(** X2.  On a stored service, [deregister_instance] raises
    InstanceNotFound (carrying the id of the service) and changes nothing
    when no instance has the given id; otherwise it removes the first
    instance with that id and no other, keeps the order of the rest, counts
    one more revision for the id and records a DEREGISTER_INSTANCE
    operation targeting the id. *)
Theorem deregister_instance_removes_first (service_id instance_id : string)
    (w : World) (b : ServiceDiscoveryBackend) (service : Service.t) :
  dict_get service_id (services b) = Some service ->
  match find (has_id instance_id) (Service.instances service) with
  | None =>
      deregister_instance service_id instance_id (w, b)
      = (inl (InstanceNotFound service_id), (w, b))
  | Some instance =>
      exists l1 l2 op s1 service',
        Service.instances service = l1 ++ instance :: l2 /\
        (forall j, In j l1 -> ServiceInstance.instance_id j <> instance_id) /\
        deregister_instance service_id instance_id (w, b)
        = (inr (Operation.id op), s1) /\
        dict_get service_id (services (snd s1)) = Some service' /\
        Service.instances service' = l1 ++ l2 /\
        dict_get instance_id (Service.instances_revision service')
        = Some (next_revision (Service.instances_revision service) instance_id) /\
        Operation.operation_type op = "DEREGISTER_INSTANCE"%string /\
        Operation.targets op = [("INSTANCE"%string, instance_id)] /\
        dict_get (Operation.id op) (operations (snd s1)) = Some op
  end.
Proof.
  intros Hsrv.
  pose proof (deregister_instance_run service_id instance_id w b service Hsrv)
    as Hrun.
  destruct (remove_instance instance_id (Service.instances service))
    as [remaining|] eqn:Hrem.
  - destruct (remove_instance_Some _ _ _ Hrem)
      as (l1 & i & l2 & Hl & -> & Hi & Hl1).
    assert (Hfind : find (has_id instance_id) (Service.instances service)
                    = Some i).
    { rewrite Hl. rewrite find_app_second.
      - simpl. unfold has_id at 1. apply String.eqb_eq in Hi. rewrite Hi.
        reflexivity.
      - apply find_none_all. intros j Hj. unfold has_id.
        apply String.eqb_neq, Hl1, Hj. }
    rewrite Hfind. destruct Hrun as (op & w' & E & Hty & Htg).
    exists l1, l2, op. eexists. eexists.
    conjuncts; try eassumption.
    + cbn [snd services with_operations with_services]. apply dict_get_set_eq.
    + reflexivity.
    + cbn [Service.instances_revision Service.with_instances].
      apply dict_get_set_eq.
    + cbn [snd operations with_operations]. apply dict_get_set_eq.
  - assert (Hfind : find (has_id instance_id) (Service.instances service) = None).
    { apply find_none_all. intros j Hj. unfold has_id. apply String.eqb_neq.
      apply (proj1 (remove_instance_None _ _) Hrem j Hj). }
    rewrite Hfind. exact Hrun.
Qed.

Lemma ServiceInstance_init_full (service_id instance_id : string)
    (creator_request_id : option string) (attributes : option (dict string))
    (w : World) (b : ServiceDiscoveryBackend) :
  exists instance w',
    ServiceInstance_init service_id instance_id creator_request_id attributes
      (w, b) = (inr instance, (w', b)) /\
    ServiceInstance.service_id instance = service_id /\
    ServiceInstance.instance_id instance = instance_id /\
    ServiceInstance.attributes instance
    = match attributes with
      | Some (e :: r) => e :: r
      | _ => []
      end /\
    ServiceInstance.health_status instance = "HEALTHY"%string /\
    match creator_request_id with
    | Some (String c r) =>
        ServiceInstance.creator_request_id instance = String c r
    | _ => String.length (ServiceInstance.creator_request_id instance) = 32
    end.
Proof.
  unfold ServiceInstance_init.
  destruct creator_request_id as [[|c r]|].
  - destruct (random_id_run 32 w b) as (rid & w1 & E & Hlen).
    rewrite (bind_inr _ _ _ _ _ E). unfold ret. eexists. exists w1.
    conjuncts; try reflexivity. exact Hlen.
  - unfold bind, ret. eexists. exists w. conjuncts; reflexivity.
  - destruct (random_id_run 32 w b) as (rid & w1 & E & Hlen).
    rewrite (bind_inr _ _ _ _ _ E). unfold ret. eexists. exists w1.
    conjuncts; try reflexivity. exact Hlen.
Qed.

(** What [register_instance] does on a stored service. *)
Lemma register_instance_full (service_id instance_id : string)
    (creator_request_id : option string) (attributes : option (dict string))
    (w : World) (b : ServiceDiscoveryBackend) (service : Service.t) :
  dict_get service_id (services b) = Some service ->
  exists instance op w',
    register_instance service_id instance_id creator_request_id attributes
      (w, b)
    = (inr (Operation.id op),
       (w',
        with_operations
          (with_services b
             (dict_set service_id
                (Service.with_instances service
                   (Service.instances service ++ [instance])
                   (dict_set instance_id
                      (next_revision (Service.instances_revision service)
                         instance_id)
                      (Service.instances_revision service)))
                (services b)))
          (dict_set (Operation.id op) op (operations b)))) /\
    ServiceInstance.service_id instance = service_id /\
    ServiceInstance.instance_id instance = instance_id /\
    ServiceInstance.attributes instance
    = match attributes with
      | Some (e :: r) => e :: r
      | _ => []
      end /\
    ServiceInstance.health_status instance = "HEALTHY"%string /\
    Operation.operation_type op = "REGISTER_INSTANCE"%string /\
    Operation.targets op = [("INSTANCE"%string, instance_id)].
Proof.
  intros Hsrv.
  destruct (ServiceInstance_init_full service_id instance_id
              creator_request_id attributes w b)
    as (i & w1 & Ei & Hsid & Hid & Hattr & Hh & _).
  unfold register_instance, bind at 1. rewrite get_service_run. cbn [snd].
  rewrite Hsrv, (bind_inr _ _ _ _ _ Ei).
  unfold bind at 1, store_service, assign. cbn [fst snd].
  match goal with
  | |- context [bind (_create_operation ?ty ?tg) _ (?w0, ?b0)] =>
      destruct (create_operation_run ty tg w0 b0) as (op & w' & E & Hty & Htg & _)
  end.
  exists i, op, w'. rewrite (bind_inr _ _ _ _ _ E). unfold ret.
  conjuncts; try assumption. reflexivity.
Qed.

(** X3.  Registering an instance under an id that no instance of the
    service has, and then deregistering that id, returns twice and leaves
    the instances of the service exactly as they were, in the same order;
    the revision counted for the id has gone up by two, the other services
    and the namespaces are as before. *)
Theorem register_then_deregister (service_id instance_id : string)
    (creator_request_id : option string) (attributes : option (dict string))
    (w : World) (b : ServiceDiscoveryBackend) (service : Service.t) :
  dict_get service_id (services b) = Some service ->
  (forall j, In j (Service.instances service) ->
             ServiceInstance.instance_id j <> instance_id) ->
  exists op1 s1 op2 s2 service',
    register_instance service_id instance_id creator_request_id attributes
      (w, b) = (inr op1, s1) /\
    deregister_instance service_id instance_id s1 = (inr op2, s2) /\
    dict_get service_id (services (snd s2)) = Some service' /\
    Service.instances service' = Service.instances service /\
    dict_get instance_id (Service.instances_revision service')
    = Some (match dict_get instance_id (Service.instances_revision service)
            with
            | Some n => n
            | None => 0
            end + 2)%Z /\
    (forall k, k <> service_id ->
               dict_get k (services (snd s2)) = dict_get k (services b)) /\
    namespaces (snd s2) = namespaces b.
Proof.
  intros Hsrv Hnew.
  destruct (register_instance_full service_id instance_id creator_request_id
              attributes w b service Hsrv)
    as (i & op1 & w1 & E1 & _ & Hid & _).
  match type of E1 with
  | _ = (_, (_, ?b1)) => set (b1' := b1) in *
  end.
  set (service1 :=
         Service.with_instances service (Service.instances service ++ [i])
           (dict_set instance_id
              (next_revision (Service.instances_revision service) instance_id)
              (Service.instances_revision service))) in *.
  assert (Hsrv1 : dict_get service_id (services b1') = Some service1).
  { unfold b1'. cbn [services with_operations with_services].
    apply dict_get_set_eq. }
  pose proof (deregister_instance_run service_id instance_id w1 b1' service1
                Hsrv1) as Hrun.
  assert (Hrem : remove_instance instance_id (Service.instances service1)
                 = Some (Service.instances service)).
  { unfold service1. cbn [Service.instances Service.with_instances].
    apply remove_instance_last; assumption. }
  rewrite Hrem in Hrun. destruct Hrun as (op2 & w2 & E2 & _).
  exists (Operation.id op1). eexists. exists (Operation.id op2).
  eexists. eexists.
  split; [exact E1|]. split; [exact E2|].
  cbn [snd services namespaces with_operations with_services].
  conjuncts.
  - apply dict_get_set_eq.
  - reflexivity.
  - cbn [Service.instances_revision Service.with_instances].
    rewrite dict_get_set_eq. unfold service1.
    cbn [Service.instances_revision Service.with_instances].
    unfold next_revision at 1. rewrite dict_get_set_eq.
    unfold next_revision. f_equal. lia.
  - intros k Hk. unfold b1'. cbn [services with_operations with_services].
    rewrite !dict_get_set_neq by exact Hk. reflexivity.
  - reflexivity.
Qed.

(** X4.  After [register_instance] on a stored service, [get_instance]
    with the registered id returns the earliest instance that already had
    this id, when there was one: the new instance is added behind it and
    replaces nothing.  When there was none it returns the new instance,
    which belongs to the service, is HEALTHY and has the attributes given
    (none for an absent or empty dict).  The lookup changes nothing. *)
Theorem register_then_get_instance (service_id instance_id : string)
    (creator_request_id : option string) (attributes : option (dict string))
    (w : World) (b : ServiceDiscoveryBackend) (service : Service.t) :
  dict_get service_id (services b) = Some service ->
  exists op s1 service',
    register_instance service_id instance_id creator_request_id attributes
      (w, b) = (inr op, s1) /\
    dict_get service_id (services (snd s1)) = Some service' /\
    length (Service.instances service')
    = S (length (Service.instances service)) /\
    match find (has_id instance_id) (Service.instances service) with
    | Some old => get_instance service_id instance_id s1 = (inr old, s1)
    | None =>
        exists instance,
          get_instance service_id instance_id s1 = (inr instance, s1) /\
          Service.instances service' = Service.instances service ++ [instance] /\
          ServiceInstance.service_id instance = service_id /\
          ServiceInstance.instance_id instance = instance_id /\
          ServiceInstance.health_status instance = "HEALTHY"%string /\
          ServiceInstance.attributes instance
          = match attributes with
            | Some (e :: r) => e :: r
            | _ => []
            end
    end.
Proof.
  intros Hsrv.
  destruct (register_instance_full service_id instance_id creator_request_id
              attributes w b service Hsrv)
    as (i & op & w1 & E1 & Hsid & Hid & Hattr & Hh & _).
  exists (Operation.id op). eexists.
  exists (Service.with_instances service (Service.instances service ++ [i])
            (dict_set instance_id
               (next_revision (Service.instances_revision service) instance_id)
               (Service.instances_revision service))).
  split; [exact E1|].
  rewrite get_instance_run.
  cbn [snd services with_operations with_services].
  rewrite dict_get_set_eq.
  cbn [Service.instances Service.with_instances].
  split; [reflexivity|]. split; [rewrite length_app; simpl; lia|].
  destruct (find (has_id instance_id) (Service.instances service))
    as [old|] eqn:Hfind.
  - rewrite (find_app_first _ _ _ _ Hfind). reflexivity.
  - exists i. rewrite (find_app_second _ _ _ Hfind).
    assert (Hhas : has_id instance_id i = true)
      by (unfold has_id; apply String.eqb_eq, Hid).
    cbn [find]. rewrite Hhas.
    conjuncts; try assumption; reflexivity.
Qed.

Lemma assign_health_status_find (instance_id status : string)
    (l : list ServiceInstance.t) (instance : ServiceInstance.t) :
  find (has_id instance_id) l = Some instance ->
  find (has_id instance_id) (assign_health_status instance_id status l)
  = Some (ServiceInstance.with_health_status instance status) /\
  exists l1 l2,
    l = l1 ++ instance :: l2 /\
    assign_health_status instance_id status l
    = l1 ++ ServiceInstance.with_health_status instance status :: l2.
Proof.
  induction l as [|i r IH]; cbn [find assign_health_status]; [discriminate|].
  fold (has_id instance_id i).
  destruct (has_id instance_id i) eqn:E.
  - intros [= ->]. split.
    + cbn [find]. unfold has_id in *. simpl. rewrite E. reflexivity.
    + exists [], r. split; reflexivity.
  - intros Hfind. destruct (IH Hfind) as (Hf & l1 & l2 & -> & Hl).
    split.
    + cbn [find]. rewrite E. exact Hf.
    + exists (i :: l1), l2. split; [reflexivity|]. simpl. rewrite Hl.
      reflexivity.
Qed.

(** X5.  In every state of the backend, whether or not the service and
    the instance exist, [update_instance_custom_health_status] rejects a
    status other than HEALTHY and UNHEALTHY with CustomHealthNotFound and
    changes nothing: the status is tested before anything is looked up.
    With one of the two it looks up the service, then the instance, and
    raises ServiceNotFound or InstanceNotFound when there is none, again
    changing nothing; on a stored service that has an instance of the
    given id it returns, assigns the status to the first such instance
    and to no other, and records no operation; [get_instance] then returns
    that instance with the new status. *)
Theorem update_health_status_then_get (service_id instance_id status : string)
    (w : World) (b : ServiceDiscoveryBackend) :
  if str_in status ["HEALTHY"; "UNHEALTHY"]%string
  then
    match dict_get service_id (services b) with
    | None =>
        update_instance_custom_health_status service_id instance_id status
          (w, b) = (inl (ServiceNotFound service_id), (w, b))
    | Some service =>
        match find (has_id instance_id) (Service.instances service) with
        | None =>
            update_instance_custom_health_status service_id instance_id
              status (w, b) = (inl (InstanceNotFound service_id), (w, b))
        | Some instance =>
            exists b' service' l1 l2,
              update_instance_custom_health_status service_id instance_id
                status (w, b) = (inr tt, (w, b')) /\
              dict_get service_id (services b') = Some service' /\
              Service.instances service = l1 ++ instance :: l2 /\
              Service.instances service'
              = l1 ++ ServiceInstance.with_health_status instance status
                   :: l2 /\
              Service.instances_revision service'
              = Service.instances_revision service /\
              operations b' = operations b /\
              namespaces b' = namespaces b /\
              get_instance service_id instance_id (w, b')
              = (inr (ServiceInstance.with_health_status instance status),
                 (w, b'))
        end
    end
  else
    update_instance_custom_health_status service_id instance_id status (w, b)
    = (inl (CustomHealthNotFound service_id), (w, b)).
Proof.
  destruct (str_in status ["HEALTHY"; "UNHEALTHY"]%string) eqn:Hst;
    unfold update_instance_custom_health_status; rewrite Hst; cbn [negb];
    [|reflexivity].
  destruct (dict_get service_id (services b)) as [service|] eqn:Hsrv;
    [|unfold bind at 1; rewrite get_instance_run; cbn [snd];
      rewrite Hsrv; reflexivity].
  destruct (find (has_id instance_id) (Service.instances service))
    as [instance|] eqn:Hfind;
    [|unfold bind at 1; rewrite get_instance_run; cbn [snd];
      rewrite Hsrv, Hfind; reflexivity].
  destruct (assign_health_status_find instance_id status _ _ Hfind)
    as (Hf & l1 & l2 & Hl & Hl').
  exists (with_services b
            (dict_set service_id
               (Service.with_instances service
                  (assign_health_status instance_id status
                     (Service.instances service))
                  (Service.instances_revision service))
               (services b))).
  eexists. exists l1, l2.
  split.
  { unfold bind at 1. rewrite get_instance_run. cbn [snd].
    rewrite Hsrv, Hfind. unfold bind at 1. rewrite get_service_run.
    cbn [snd]. rewrite Hsrv. reflexivity. }
  cbn [services with_services]. split; [apply dict_get_set_eq|].
  cbn [Service.instances Service.instances_revision Service.with_instances].
  conjuncts; try reflexivity; try assumption.
  rewrite get_instance_run. cbn [snd services with_services].
  rewrite dict_get_set_eq.
  cbn [Service.instances Service.with_instances]. rewrite Hf. reflexivity.
Qed.

(** *** Services: deletion and update *)

Lemma delete_service_run (service_id : string) (w : World)
    (b : ServiceDiscoveryBackend) :
  delete_service service_id (w, b)
  = (inr tt, (w, with_services b (dict_del service_id (services b)))).
Proof. reflexivity. Qed.

Lemma dict_del_del {V : Type} (k : string) (d : dict V) :
  dict_del k (dict_del k d) = dict_del k d.
Proof.
  unfold dict_del. induction d as [|[k' v] r IH]; simpl; [reflexivity|].
  destruct (String.eqb k k') eqn:E; simpl; [exact IH|].
  rewrite E. simpl. rewrite IH. reflexivity.
Qed.

Lemma dict_del_absent {V : Type} (k : string) (d : dict V) :
  dict_get k d = None -> dict_del k d = d.
Proof.
  unfold dict_del. induction d as [|[k' v] r IH]; simpl; [reflexivity|].
  destruct (String.eqb k k') eqn:E; [discriminate|].
  intros Hg. simpl. rewrite IH by exact Hg. reflexivity.
Qed.

(** X6.  [delete_service] never raises, whether the id is stored or not:
    afterwards [get_service] with that id raises ServiceNotFound, every
    other service is stored as before, namespaces and operations are
    untouched (no operation is recorded for a deletion), an id that was not
    stored leaves the backend as it was, and deleting a second time changes
    nothing more. *)
Theorem delete_service_silent (service_id : string) (w : World)
    (b : ServiceDiscoveryBackend) :
  exists b',
    delete_service service_id (w, b) = (inr tt, (w, b')) /\
    get_service service_id (w, b')
    = (inl (ServiceNotFound service_id), (w, b')) /\
    (forall k, k <> service_id ->
               dict_get k (services b') = dict_get k (services b)) /\
    namespaces b' = namespaces b /\
    operations b' = operations b /\
    tagger b' = tagger b /\
    (dict_mem service_id (services b) = false -> services b' = services b) /\
    delete_service service_id (w, b') = (inr tt, (w, b')).
Proof.
  exists (with_services b (dict_del service_id (services b))).
  conjuncts; try reflexivity.
  - rewrite get_service_run. cbn [snd services with_services].
    rewrite dict_get_del_eq. reflexivity.
  - intros k Hk. cbn [services with_services]. apply dict_get_del_neq, Hk.
  - intros Hmem. cbn [services with_services].
    apply dict_del_absent, dict_mem_false, Hmem.
  - rewrite delete_service_run. cbn [services with_services].
    rewrite dict_del_del. reflexivity.
Qed.

(** [Service.update] leaves everything but the description, the DNS
    configuration and the health check configuration as it was, whether it
    raises or not. *)
Lemma Service_update_frame (service : Service.t) (details : dict json) :
  let service' := snd (Service.update service details) in
  Service.id service' = Service.id service /\
  Service.arn service' = Service.arn service /\
  Service.name service' = Service.name service /\
  Service.namespace_id service' = Service.namespace_id service /\
  Service.creator_request_id service' = Service.creator_request_id service /\
  Service.health_check_custom_config service'
  = Service.health_check_custom_config service /\
  Service.service_type service' = Service.service_type service /\
  Service.created service' = Service.created service /\
  Service.instances service' = Service.instances service /\
  Service.instances_revision service' = Service.instances_revision service.
Proof.
  unfold Service.update, getitem, setitem. cbv zeta.
  repeat (match goal with
          | |- context [match ?x with _ => _ end] =>
              lazymatch type of x with
              | prod _ _ => fail
              | _ => destruct x
              end
          end; simpl);
    simpl; conjuncts; reflexivity.
Qed.

(** X7.  [Service.update] with details that hold no DnsConfig never
    raises: it deletes the DNS configuration of the service (sets it to
    None), while a Description or a HealthCheckConfig that is left out is
    kept as it was and one that is given is stored. *)
Theorem Service_update_without_dns_config (service : Service.t)
    (details : dict json) :
  dict_get "DnsConfig" details = None ->
  exists service',
    Service.update service details = (None, service') /\
    Service.dns_config service' = JNull /\
    Service.description service'
    = match dict_get "Description" details with
      | Some d => d
      | None => Service.description service
      end /\
    Service.health_check_config service'
    = match dict_get "HealthCheckConfig" details with
      | Some h => h
      | None => Service.health_check_config service
      end /\
    Service.instances service' = Service.instances service /\
    Service.id service' = Service.id service.
Proof.
  intros Hdns. unfold Service.update. rewrite Hdns.
  destruct (dict_get "Description" details) as [d|];
    destruct (dict_get "HealthCheckConfig" details) as [h|];
    eexists; conjuncts; reflexivity.
Qed.

(** X8.  [Service.update] with a DnsConfig that holds DnsRecords, on a
    service whose DNS configuration is None or a dict, never raises: the
    DNS configuration becomes the former dict (the empty one for None) with
    DnsRecords set to the records given, so every other key it had is kept
    and every other key of the given DnsConfig is ignored. *)
Theorem Service_update_sets_dns_records (service : Service.t)
    (details : dict json) (dc : dict json) (records : json) :
  dict_get "DnsConfig" details = Some (JObject dc) ->
  dict_get "DnsRecords" dc = Some records ->
  Service.dns_config service = JNull \/
  (exists cfg, Service.dns_config service = JObject cfg) ->
  exists service',
    Service.update service details = (None, service') /\
    Service.dns_config service'
    = JObject (dict_set "DnsRecords" records
                 match Service.dns_config service with
                 | JObject cfg => cfg
                 | _ => []
                 end) /\
    (forall k, k <> "DnsRecords"%string ->
       getitem (Service.dns_config service') k
       = match Service.dns_config service with
         | JObject cfg => getitem (JObject cfg) k
         | _ => inl (KeyError k)
         end).
Proof.
  intros Hdns Hrec Hold. unfold Service.update. rewrite Hdns.
  cbn [getitem]. rewrite Hrec.
  assert (Hproj : forall s x, Service.dns_config (Service.with_description s x)
                              = Service.dns_config s) by reflexivity.
  destruct (dict_get "Description" details) as [d|];
    destruct (dict_get "HealthCheckConfig" details) as [h|];
    destruct Hold as [Hn | [cfg Hc]];
    rewrite ?Hproj; try rewrite Hn; try rewrite Hc;
    rewrite ?Hproj; try rewrite Hn; try rewrite Hc;
    cbn [setitem];
    eexists; (split; [reflexivity|]);
    (split; [reflexivity|]); intros k Hk;
    unfold Service.with_health_check_config, Service.with_dns_config,
      Service.with_description, Service.dns_config;
    cbn [getitem];
    rewrite dict_get_set_neq by exact Hk; reflexivity.
Qed.

(** X9.  A failed [update_service] is not undone.  When the details hold a
    Description and a DnsConfig dict without DnsRecords, the call raises
    KeyError (DnsRecords) after the description of the stored service has
    already been replaced (and a DNS configuration that was None has become
    the empty dict); no operation is recorded. *)
Theorem update_service_fails_half_way (service_id : string)
    (details : dict json) (w : World) (b : ServiceDiscoveryBackend)
    (service : Service.t) (d : json) (dc : dict json) :
  dict_get service_id (services b) = Some service ->
  dict_get "Description" details = Some d ->
  dict_get "DnsConfig" details = Some (JObject dc) ->
  dict_get "DnsRecords" dc = None ->
  exists b' service',
    update_service service_id details (w, b)
    = (inl (KeyError "DnsRecords"), (w, b')) /\
    dict_get service_id (services b') = Some service' /\
    Service.description service' = d /\
    Service.dns_config service'
    = match Service.dns_config service with
      | JNull => JObject []
      | c => c
      end /\
    operations b' = operations b.
Proof.
  intros Hsrv Hd Hdns Hrec.
  unfold update_service, bind at 1. rewrite get_service_run. cbn [snd].
  rewrite Hsrv. unfold Service.update. rewrite Hd, Hdns. cbn [getitem].
  rewrite Hrec.
  change (Service.dns_config (Service.with_description service d))
    with (Service.dns_config service).
  destruct (Service.dns_config service) eqn:Hcfg;
    (eexists; eexists; split; [reflexivity|]);
    cbn [services with_services operations]; rewrite dict_get_set_eq;
    (split; [reflexivity|]); simpl; rewrite ?Hcfg; conjuncts; reflexivity.
Qed.

(** X10.  When [Service.update] accepts the details, [update_service] on a
    stored service returns the id of a new UPDATE_SERVICE operation that
    targets the id of the service; afterwards [get_service] returns the
    updated service and [get_operation] returns the operation. *)
Theorem update_service_then_get (service_id : string) (details : dict json)
    (w : World) (b : ServiceDiscoveryBackend) (service service' : Service.t) :
  dict_get service_id (services b) = Some service ->
  Service.update service details = (None, service') ->
  exists op s1,
    update_service service_id details (w, b) = (inr (Operation.id op), s1) /\
    get_service service_id s1 = (inr service', s1) /\
    get_operation (Operation.id op) s1 = (inr op, s1) /\
    Operation.operation_type op = "UPDATE_SERVICE"%string /\
    Operation.targets op = [("SERVICE"%string, Service.id service)].
Proof.
  intros Hsrv Hupd.
  pose proof (Service_update_frame service details) as Hframe.
  rewrite Hupd in Hframe. cbn [snd] in Hframe. destruct Hframe as (Hid & _).
  unfold update_service, bind at 1. rewrite get_service_run. cbn [snd].
  rewrite Hsrv, Hupd.
  unfold bind at 1, store_service, assign. cbn [fst snd].
  match goal with
  | |- context [bind (_create_operation ?ty ?tg) _ (?w0, ?b0)] =>
      destruct (create_operation_run ty tg w0 b0) as (op & w' & E & Hty & Htg & _)
  end.
  exists op. eexists. rewrite (bind_inr _ _ _ _ _ E). unfold ret.
  split; [reflexivity|].
  rewrite get_service_run.
  unfold get_operation, bind, ServiceDiscovery.self.
  cbn [fst snd services operations namespaces with_operations with_services].
  rewrite !dict_get_set_eq. conjuncts; try reflexivity.
  - exact Hty.
  - rewrite Htg, Hid. reflexivity.
Qed.

(** *** Namespaces: DNS namespaces and their update *)

Lemma vpc_in_use_spec (vpc : string) (nss : dict Namespace.t) :
  vpc_in_use vpc nss = true <->
  exists k ns, In (k, ns) nss /\ Namespace.vpc ns = Some vpc.
Proof.
  unfold vpc_in_use, dict_values. rewrite existsb_exists. split.
  - intros (ns & Hin & Hv). apply in_map_iff in Hin.
    destruct Hin as ([k ns'] & Heq & Hin). simpl in Heq. subst ns'.
    exists k, ns. split; [exact Hin|].
    destruct (Namespace.vpc ns) as [v|]; [|discriminate].
    apply String.eqb_eq in Hv. subst v. reflexivity.
  - intros (k & ns & Hin & Hv). exists ns. split.
    + apply in_map_iff. exists (k, ns). split; [reflexivity | exact Hin].
    + rewrite Hv. apply String.eqb_refl.
Qed.

Lemma hosted_dns_properties_spec (properties : option (dict json))
    (d : dict json) :
  hosted_dns_properties properties = inr d ->
  dict_get "HostedZoneId" d = Some (JString "hzi") /\
  forall k, k <> "HostedZoneId"%string ->
    dict_get k d
    = match dict_get "DnsProperties"
              match properties with
              | Some p => p
              | None => []
              end with
      | Some (JObject given) => dict_get k given
      | _ => None
      end.
Proof.
  unfold hosted_dns_properties.
  destruct (dict_get "DnsProperties" _) as [v|].
  - destruct v; cbn [setitem]; try discriminate.
    intros [= <-]. split; [apply dict_get_set_eq|].
    intros k Hk. apply dict_get_set_neq, Hk.
  - cbn [setitem]. intros [= <-]. split; [reflexivity|].
    intros k Hk. apply (dict_get_set_neq k "HostedZoneId" _ [] Hk).
Qed.

(** The tail that the three [create_..._namespace] methods share: store
    the namespace, tag it, record the operation. *)
Lemma store_tag_record (namespace : Namespace.t) (tags : list (dict string))
    (w : World) (b : ServiceDiscoveryBackend) :
  let rest :=
    bind
      (assign (fun b =>
         with_namespaces b
           (dict_set (Namespace.id namespace) namespace (namespaces b))))
      (fun _ =>
         bind
           match tags with
           | _ :: _ => tagger_tag_resource (Namespace.arn namespace) tags
           | [] => ret tt
           end
           (fun _ =>
              bind
                (_create_operation "CREATE_NAMESPACE"
                   [("NAMESPACE"%string, Namespace.id namespace)])
                (fun operation_id => ret operation_id))) in
  let b1 :=
    with_namespaces b
      (dict_set (Namespace.id namespace) namespace (namespaces b)) in
  match tags with
  | [] =>
      exists op w',
        rest (w, b)
        = (inr (Operation.id op),
           (w', with_operations b1
                  (dict_set (Operation.id op) op (operations b)))) /\
        Operation.operation_type op = "CREATE_NAMESPACE"%string /\
        Operation.targets op = [("NAMESPACE"%string, Namespace.id namespace)]
  | _ :: _ =>
      match tag_resource (Namespace.arn namespace) tags (tagger b) with
      | inl e => rest (w, b) = (inl e, (w, b1))
      | inr t =>
          exists op w',
            rest (w, b)
            = (inr (Operation.id op),
               (w', with_operations (with_tagger b1 t)
                      (dict_set (Operation.id op) op (operations b)))) /\
            Operation.operation_type op = "CREATE_NAMESPACE"%string /\
            Operation.targets op
            = [("NAMESPACE"%string, Namespace.id namespace)]
      end
  end.
Proof.
  cbv zeta. destruct tags as [|tag tags].
  - unfold bind at 1, assign. cbn [fst snd]. unfold bind at 1, ret at 1.
    match goal with
    | |- context [bind (_create_operation ?ty ?tg) _ (?w0, ?b0)] =>
        destruct (create_operation_run ty tg w0 b0)
          as (op & w' & E & Hty & Htg & _)
    end.
    exists op, w'. rewrite (bind_inr _ _ _ _ _ E). unfold ret.
    conjuncts; [reflexivity | exact Hty | exact Htg].
  - destruct (tag_resource (Namespace.arn namespace) (tag :: tags) (tagger b))
      as [e|t] eqn:Et;
      unfold bind at 1, assign; cbn [fst snd];
      unfold bind at 1, tagger_tag_resource;
      cbn [fst snd tagger with_namespaces]; rewrite Et; [reflexivity|].
    match goal with
    | |- context [bind (_create_operation ?ty ?tg) _ (?w0, ?b0)] =>
        destruct (create_operation_run ty tg w0 b0)
          as (op & w' & E & Hty & Htg & _)
    end.
    exists op, w'. rewrite (bind_inr _ _ _ _ _ E). unfold ret.
    conjuncts; [reflexivity | exact Hty | exact Htg].
Qed.

(** X11.  [create_private_dns_namespace] raises ConflictingDomainExists
    for a vpc that a stored namespace already has, before it draws an id,
    reads the clock or looks at the properties: nothing is changed. *)
Theorem create_private_dns_namespace_conflict (name creator_request_id
    description vpc : string) (tags : list (dict string))
    (properties : option (dict json)) (w : World)
    (b : ServiceDiscoveryBackend) (k : string) (ns : Namespace.t) :
  In (k, ns) (namespaces b) ->
  Namespace.vpc ns = Some vpc ->
  create_private_dns_namespace name creator_request_id description vpc tags
    properties (w, b)
  = (inl (ConflictingDomainExists vpc), (w, b)).
Proof.
  intros Hin Hvpc.
  assert (Huse : vpc_in_use vpc (namespaces b) = true)
    by (apply vpc_in_use_spec; exists k, ns; split; assumption).
  unfold create_private_dns_namespace, bind at 1, ServiceDiscovery.self.
  cbn [fst snd]. rewrite Huse. reflexivity.
Qed.

(** X12.  [create_private_dns_namespace] without tags, for a vpc that no
    stored namespace has and properties whose DnsProperties is absent or a
    dict, returns the id of a CREATE_NAMESPACE operation; the namespace it
    created is stored under its generated id, is of type DNS_PRIVATE, has
    the vpc, no HTTP properties, and DNS properties in which HostedZoneId
    is hzi whatever the caller gave for it. *)
Theorem create_private_dns_namespace_stores (name creator_request_id
    description vpc : string) (properties : option (dict json))
    (w : World) (b : ServiceDiscoveryBackend) (d : dict json) :
  vpc_in_use vpc (namespaces b) = false ->
  hosted_dns_properties properties = inr d ->
  exists op ns s1,
    create_private_dns_namespace name creator_request_id description vpc []
      properties (w, b) = (inr (Operation.id op), s1) /\
    get_namespace (Namespace.id ns) s1 = (inr ns, s1) /\
    get_operation (Operation.id op) s1 = (inr op, s1) /\
    Operation.operation_type op = "CREATE_NAMESPACE"%string /\
    Operation.targets op = [("NAMESPACE"%string, Namespace.id ns)] /\
    Namespace.name ns = name /\
    Namespace.type ns = "DNS_PRIVATE"%string /\
    Namespace.vpc ns = Some vpc /\
    Namespace.http_properties ns = [] /\
    Namespace.dns_properties ns = d /\
    dict_get "HostedZoneId" d = Some (JString "hzi") /\
    services (snd s1) = services b.
Proof.
  intros Huse Hd.
  destruct (Namespace_init_run (account_id b) (region_name b) name
              "DNS_PRIVATE" creator_request_id description d [] (Some vpc)
              w b)
    as (rid & ns & w1 & _ & Einit & _ & Hname & Hty & _ & _ & Hdns & Hhttp
        & Hvpc).
  pose proof (store_tag_record ns [] w1 b) as Htail. cbv zeta in Htail.
  destruct Htail as (op & w2 & Etail & Hoty & Hotg).
  exists op, ns. eexists.
  split.
  { unfold create_private_dns_namespace, bind at 1, ServiceDiscovery.self.
    cbn [fst snd]. rewrite Huse, Hd.
    rewrite (bind_inr _ _ _ _ _ Einit). exact Etail. }
  rewrite get_namespace_run.
  unfold get_operation, bind, ServiceDiscovery.self.
  cbn [fst snd namespaces operations services with_operations with_namespaces].
  rewrite !dict_get_set_eq.
  conjuncts; try reflexivity; try assumption.
  apply (hosted_dns_properties_spec properties d Hd).
Qed.

(** X13.  Neither DNS namespace creator changes anything when the
    DnsProperties of the given properties is not a dict: both raise
    TypeError before drawing an id, and the public one does so for every
    backend since it checks no vpc. *)
Theorem create_dns_namespace_bad_properties (name creator_request_id
    description vpc : string) (tags : list (dict string))
    (properties : dict json) (v : json) (w : World)
    (b : ServiceDiscoveryBackend) :
  dict_get "DnsProperties" properties = Some v ->
  (forall fields, v <> JObject fields) ->
  create_public_dns_namespace name creator_request_id description tags
    (Some properties) (w, b) = (inl TypeError, (w, b)) /\
  (vpc_in_use vpc (namespaces b) = false ->
   create_private_dns_namespace name creator_request_id description vpc tags
     (Some properties) (w, b) = (inl TypeError, (w, b))).
Proof.
  intros Hget Hnot.
  assert (Hbad : hosted_dns_properties (Some properties) = inl TypeError).
  { unfold hosted_dns_properties. rewrite Hget.
    destruct v; try reflexivity. exfalso. apply (Hnot fields). reflexivity. }
  split.
  - unfold create_public_dns_namespace, bind at 1, ServiceDiscovery.self.
    cbn [fst snd]. rewrite Hbad. reflexivity.
  - intros Huse.
    unfold create_private_dns_namespace, bind at 1, ServiceDiscovery.self.
    cbn [fst snd]. rewrite Huse, Hbad. reflexivity.
Qed.

Lemma update_dns_namespace_run (_id : string) (description : option string)
    (properties : option (dict json)) (w : World)
    (b : ServiceDiscoveryBackend) :
  match dict_get _id (namespaces b) with
  | None =>
      update_private_dns_namespace _id description properties (w, b)
      = (inl (NamespaceNotFound _id), (w, b))
  | Some namespace =>
      let namespace1 :=
        match description with
        | Some d => Namespace_with_description namespace d
        | None => namespace
        end in
      let namespace2 :=
        match properties with
        | Some p => Namespace_with_dns_properties namespace1 p
        | None => namespace1
        end in
      exists op w',
        update_private_dns_namespace _id description properties (w, b)
        = (inr (Operation.id op),
           (w',
            with_operations
              (with_namespaces b (dict_set _id namespace2 (namespaces b)))
              (dict_set (Operation.id op) op (operations b)))) /\
        Operation.operation_type op = "UPDATE_NAMESPACE"%string /\
        Operation.targets op
        = [("NAMESPACE"%string, Namespace.id namespace)]
  end.
Proof.
  destruct (dict_get _id (namespaces b)) as [namespace|] eqn:Hns;
    unfold update_private_dns_namespace, bind at 1;
    rewrite get_namespace_run; cbn [snd]; rewrite Hns; [|reflexivity].
  cbv zeta. unfold bind at 1, store_namespace, assign. cbn [fst snd].
  match goal with
  | |- context [bind (_create_operation ?ty ?tg) _ (?w0, ?b0)] =>
      destruct (create_operation_run ty tg w0 b0)
        as (op & w' & E & Hty & Htg & _)
  end.
  exists op, w'. rewrite (bind_inr _ _ _ _ _ E). unfold ret.
  conjuncts; [reflexivity | exact Hty |].
  rewrite Htg. destruct description, properties; reflexivity.
Qed.

(** X14.  [update_private_dns_namespace] and [update_public_dns_namespace]
    are the same operation and check no namespace type.  For an id that is
    not stored they raise NamespaceNotFound and change nothing.  For a
    stored namespace they return the id of an UPDATE_NAMESPACE operation
    targeting it, and [get_namespace] then returns the namespace with the
    description replaced when one is given and the DNS properties replaced
    as a whole when properties are given; its id, name, type, vpc, creation
    date and also its update date are what they were. *)
Theorem update_dns_namespace_then_get (_id : string)
    (description : option string) (properties : option (dict json))
    (w : World) (b : ServiceDiscoveryBackend) :
  update_public_dns_namespace _id description properties (w, b)
  = update_private_dns_namespace _id description properties (w, b) /\
  match dict_get _id (namespaces b) with
  | None =>
      update_private_dns_namespace _id description properties (w, b)
      = (inl (NamespaceNotFound _id), (w, b))
  | Some old =>
      exists op s1 ns,
        update_private_dns_namespace _id description properties (w, b)
        = (inr (Operation.id op), s1) /\
        get_namespace _id s1 = (inr ns, s1) /\
        Operation.operation_type op = "UPDATE_NAMESPACE"%string /\
        Operation.targets op = [("NAMESPACE"%string, Namespace.id old)] /\
        Namespace.description ns
        = match description with
          | Some d => d
          | None => Namespace.description old
          end /\
        Namespace.dns_properties ns
        = match properties with
          | Some p => p
          | None => Namespace.dns_properties old
          end /\
        Namespace.id ns = Namespace.id old /\
        Namespace.name ns = Namespace.name old /\
        Namespace.type ns = Namespace.type old /\
        Namespace.vpc ns = Namespace.vpc old /\
        Namespace.http_properties ns = Namespace.http_properties old /\
        Namespace.created ns = Namespace.created old /\
        Namespace.updated ns = Namespace.updated old
  end.
Proof.
  split; [reflexivity|].
  pose proof (update_dns_namespace_run _id description properties w b) as Hrun.
  destruct (dict_get _id (namespaces b)) as [old|]; [|exact Hrun].
  cbv zeta in Hrun. destruct Hrun as (op & w' & E & Hty & Htg).
  exists op. eexists. eexists. split; [exact E|].
  rewrite get_namespace_run.
  cbn [snd namespaces with_operations with_namespaces].
  rewrite dict_get_set_eq.
  split; [reflexivity|].
  destruct description, properties; conjuncts; try reflexivity; assumption.
Qed.

(** *** Operations *)

Lemma get_operation_run (operation_id : string) (s : state) :
  get_operation operation_id s
  = (match dict_get operation_id (operations (snd s)) with
     | Some operation => inr operation
     | None => inl OperationNotFound
     end, s).
Proof.
  unfold get_operation, bind, ServiceDiscovery.self. cbn [fst snd].
  destruct (dict_get operation_id (operations (snd s))); reflexivity.
Qed.

(** X15.  [create_http_namespace] without tags returns the id of an
    operation that [get_operation] finds: a CREATE_NAMESPACE operation with
    status SUCCESS whose NAMESPACE target is the id under which the new
    namespace is stored.  Since that namespace exists, the operation is
    still found after [list_operations]. *)
Theorem create_http_namespace_operation (name creator_request_id
    description : string) (w : World) (b : ServiceDiscoveryBackend) :
  dict_wf (operations b) ->
  exists op ns s1,
    create_http_namespace name creator_request_id description [] (w, b)
    = (inr (Operation.id op), s1) /\
    get_operation (Operation.id op) s1 = (inr op, s1) /\
    Operation.operation_type op = "CREATE_NAMESPACE"%string /\
    Operation.status op = "SUCCESS"%string /\
    Operation.targets op = [("NAMESPACE"%string, Namespace.id ns)] /\
    get_namespace (Namespace.id ns) s1 = (inr ns, s1) /\
    Namespace.name ns = name /\
    get_operation (Operation.id op) (snd (list_operations s1))
    = (inr op, snd (list_operations s1)).
Proof.
  intros Hwf.
  destruct (Namespace_init_run (account_id b) (region_name b) name "HTTP"
              creator_request_id description
              [("SOA"%string, JObject [])]
              [("HttpName"%string, JString name)] None w b)
    as (rid & ns & w1 & _ & Einit & _ & Hname & _).
  set (b1 := with_namespaces b (dict_set (Namespace.id ns) ns (namespaces b))).
  destruct (create_operation_run "CREATE_NAMESPACE"
              [("NAMESPACE"%string, Namespace.id ns)] w1 b1)
    as (op & w2 & E & Hty & Htg & Hst).
  exists op, ns. eexists. split.
  { unfold create_http_namespace, bind at 1, ServiceDiscovery.self.
    cbn [fst snd]. rewrite (bind_inr _ _ _ _ _ Einit).
    unfold bind at 1, assign. cbn [fst snd]. fold b1.
    unfold bind at 1, ret at 1.
    rewrite (bind_inr _ _ _ _ _ E). reflexivity. }
  rewrite !get_operation_run, get_namespace_run, list_operations_run.
  cbn [fst snd operations namespaces with_operations].
  rewrite dict_get_filter by (apply dict_wf_set; exact Hwf).
  rewrite !dict_get_set_eq. cbn [snd].
  unfold targets_live_namespace. rewrite Htg. cbn [dict_get].
  rewrite String.eqb_refl.
  unfold b1. cbn [namespaces with_namespaces].
  unfold dict_mem. rewrite !dict_get_set_eq.
  conjuncts; try reflexivity; assumption.
Qed.

(** X16.  After [delete_namespace] of a stored namespace, the next
    [list_operations] keeps no operation that targets the deleted
    namespace: the DELETE_NAMESPACE operation whose id was just returned is
    gone ([get_operation] raises OperationNotFound), and so is every older
    operation of that namespace. *)
Theorem delete_namespace_then_list_operations (namespace_id : string)
    (w : World) (b : ServiceDiscoveryBackend) :
  dict_mem namespace_id (namespaces b) = true ->
  dict_wf (operations b) ->
  exists operation_id s1,
    delete_namespace namespace_id (w, b) = (inr operation_id, s1) /\
    dict_mem operation_id (operations (snd s1)) = true /\
    let s2 := snd (list_operations s1) in
    get_operation operation_id s2 = (inl OperationNotFound, s2) /\
    get_namespace namespace_id s2 = (inl (NamespaceNotFound namespace_id), s2) /\
    forall k op,
      In (k, op) (operations (snd s2)) ->
      In (k, op) (operations b) /\
      dict_get "NAMESPACE" (Operation.targets op) <> Some namespace_id.
Proof.
  intros Hmem Hwf.
  destruct (create_operation_run "DELETE_NAMESPACE"
              [("NAMESPACE"%string, namespace_id)] w
              (with_namespaces b (dict_del namespace_id (namespaces b))))
    as (op & w' & E0 & _ & Htg & _).
  set (b' := with_operations
               (with_namespaces b (dict_del namespace_id (namespaces b)))
               (dict_set (Operation.id op) op (operations b))).
  assert (E : delete_namespace namespace_id (w, b)
              = (inr (Operation.id op), (w', b'))).
  { unfold delete_namespace, bind at 1, ServiceDiscovery.self.
    cbn [fst snd]. rewrite Hmem. cbn [negb].
    unfold bind at 1, assign. cbn [fst snd].
    rewrite (bind_inr _ _ _ _ _ E0). reflexivity. }
  assert (Hgone : dict_get namespace_id (namespaces b') = None)
    by apply dict_get_del_eq.
  assert (Hops : operations b'
                 = dict_set (Operation.id op) op (operations b))
    by reflexivity.
  clearbody b'.
  exists (Operation.id op), (w', b'). split; [exact E|].
  cbn [snd]. split.
  { apply dict_mem_true. exists op. rewrite Hops. apply dict_get_set_eq. }
  cbv zeta. rewrite get_operation_run, get_namespace_run, list_operations_run.
  cbn [fst snd operations namespaces with_operations].
  assert (Hwf' : dict_wf (operations b'))
    by (rewrite Hops; apply dict_wf_set, Hwf).
  rewrite dict_get_filter by exact Hwf'.
  rewrite Hops at 1. rewrite dict_get_set_eq. cbn [snd].
  unfold targets_live_namespace at 1. rewrite Htg. cbn [dict_get].
  rewrite String.eqb_refl. unfold dict_mem at 1. rewrite Hgone.
  conjuncts; try reflexivity.
  intros k op0 Hin0.
  apply filter_In in Hin0. destruct Hin0 as [Hin Hlive]. cbn [snd] in Hlive.
  rewrite Hops in Hin.
  assert (Hne : dict_get "NAMESPACE" (Operation.targets op0)
                <> Some namespace_id).
  { intros Heq. unfold targets_live_namespace in Hlive.
    rewrite Heq in Hlive. unfold dict_mem in Hlive.
    rewrite Hgone in Hlive. discriminate. }
  split; [|exact Hne].
  clear Hlive. revert Hin. generalize (operations b).
  intros d. induction d as [|[k' v'] r IH]; simpl.
  - intros [[= <- <-] | []]. exfalso. apply Hne. rewrite Htg.
    reflexivity.
  - destruct (String.eqb (Operation.id op) k'); simpl.
    + intros [[= <- <-] | Hin].
      * exfalso. apply Hne. rewrite Htg. reflexivity.
      * right. exact Hin.
    + intros [Heq | Hin]; [left; exact Heq | right; apply IH, Hin].
Qed.

(** *** Discovery *)

Lemma narrowed_or_all_sub {A : Type} (p : A -> bool) (l : list A) (x : A) :
  In x match filter p l with
       | _ :: _ => filter p l
       | [] => l
       end ->
  In x l.
Proof.
  destruct (filter p l) as [|y r] eqn:Hf; [trivial|].
  rewrite <- Hf. intros Hin. apply filter_In in Hin. apply Hin.
Qed.

(** X17.  [discover_instances] is a lookup: it never changes the world or
    the backend.  It checks its arguments in this order: a health status
    other than the four keywords raises InvalidInput; then a namespace name
    that no stored namespace has raises NamespaceNotFound with the name;
    then a service name that no service of the first such namespace has
    raises ServiceNotFound with the name; then the id of that service must
    be a key of the services store, else ServiceNotFound with the id;
    otherwise it returns. *)
Theorem discover_instances_decides (namespace_name service_name : string)
    (query_parameters optional_parameters : dict string)
    (health_status : string) (w : World) (b : ServiceDiscoveryBackend) :
  let r := discover_instances namespace_name service_name query_parameters
             optional_parameters health_status (w, b) in
  snd r = (w, b) /\
  if negb (str_in health_status
             ["HEALTHY"; "UNHEALTHY"; "ALL"; "HEALTHY_OR_ELSE_ALL"]%string)
  then fst r = inl (InvalidInput "Invalid health status")
  else
    match find (fun ns => String.eqb (Namespace.name ns) namespace_name)
               (dict_values (namespaces b)) with
    | None => fst r = inl (NamespaceNotFound namespace_name)
    | Some namespace =>
        match find (fun srv =>
                      String.eqb (Service.name srv) service_name
                      && String.eqb (Service.namespace_id srv)
                                    (Namespace.id namespace))
                   (dict_values (services b)) with
        | None => fst r = inl (ServiceNotFound service_name)
        | Some service =>
            match dict_get (Service.id service) (services b) with
            | None => fst r = inl (ServiceNotFound (Service.id service))
            | Some stored =>
                exists found revisions,
                  fst r = inr (found, revisions) /\
                  forall instance, In instance found ->
                                   In instance (Service.instances stored)
            end
        end
    end.
Proof.
  cbv zeta. unfold discover_instances.
  destruct (negb (str_in health_status _)); [split; reflexivity|].
  rewrite (bind_inr _ _ _ _ _ (list_namespaces_run (w, b))). cbn [snd].
  destruct (find _ (dict_values (namespaces b))) as [namespace|] eqn:Hns.
  - destruct (find_filter_head _ _ _ Hns) as [nss Hnss]. rewrite Hnss.
    rewrite (bind_inr _ _ _ _ _ (list_services_run (w, b))). cbn [snd].
    destruct (find _ (dict_values (services b))) as [service|] eqn:Hsrv.
    + destruct (find_filter_head _ _ _ Hsrv) as [srvs Hsrvs]. rewrite Hsrvs.
      unfold bind. rewrite list_instances_run. cbn [snd].
      destruct (dict_get (Service.id service) (services b)) as [stored|];
        [|split; reflexivity].
      destruct (fold_left _ (Service.instances stored) ([], false))
        as [filtered has_healthy] eqn:Hfold.
      split; [reflexivity|].
      eexists. eexists. split; [reflexivity|].
      assert (Hsub : forall i, In i filtered ->
                               In i (Service.instances stored)).
      { assert (Hgen : forall l acc,
                  (forall i, In i (fst acc) -> In i (Service.instances stored)) ->
                  (forall i, In i l -> In i (Service.instances stored)) ->
                  forall i,
                    In i (fst (fold_left
                                 (discover_step query_parameters health_status)
                                 l acc)) ->
                    In i (Service.instances stored)).
        { induction l as [|x l IH]; intros acc Hacc Hl; [exact Hacc|].
          cbn [fold_left]. apply IH.
          - unfold discover_step. destruct acc as [f hh]. cbn [fst] in Hacc.
            repeat match goal with
                   | |- context [if ?c then _ else _] => destruct c
                   end; cbn [fst]; try exact Hacc.
            all: intros i Hi; unfold Py.append in Hi; apply in_app_iff in Hi;
              destruct Hi as [Hi | [<- | []]];
              [apply Hacc, Hi | apply Hl; left; reflexivity].
          - intros i Hi. apply Hl. right. exact Hi. }
        intros i Hi.
        apply (Hgen (Service.instances stored) ([], false)).
        - intros j [].
        - trivial.
        - rewrite Hfold. exact Hi. }
      intros instance Hin. cbv zeta in Hin.
      apply narrowed_or_all_sub in Hin.
      destruct (has_healthy && _)%bool in Hin;
        [apply filter_In in Hin; destruct Hin as [Hin _]|];
        apply Hsub, Hin.
    + pose proof (find_none _ _ Hsrv) as Hnone.
      assert (Hf : filter
                     (fun srv =>
                        String.eqb (Service.name srv) service_name
                        && String.eqb (Service.namespace_id srv)
                                      (Namespace.id namespace))
                     (dict_values (services b)) = []).
      { destruct (filter _ (dict_values (services b))) as [|x r] eqn:Hf;
          [reflexivity|].
        assert (Hx : In x (x :: r)) by (left; reflexivity).
        rewrite <- Hf in Hx. apply filter_In in Hx. destruct Hx as [Hx Hp].
        rewrite (Hnone x Hx) in Hp. discriminate. }
      rewrite Hf. split; reflexivity.
  - pose proof (find_none _ _ Hns) as Hnone.
    assert (Hf : filter (fun ns => String.eqb (Namespace.name ns) namespace_name)
                   (dict_values (namespaces b)) = []).
    { destruct (filter _ (dict_values (namespaces b))) as [|x r] eqn:Hf;
        [reflexivity|].
      assert (Hx : In x (x :: r)) by (left; reflexivity).
      rewrite <- Hf in Hx. apply filter_In in Hx. destruct Hx as [Hx Hp].
      rewrite (Hnone x Hx) in Hp. discriminate. }
    rewrite Hf. split; reflexivity.
Qed.

Lemma discover_fold_filter (query_parameters : dict string)
    (health_status : string) (l : list ServiceInstance.t)
    (acc : list ServiceInstance.t * bool) :
  health_status = "HEALTHY"%string \/ health_status = "UNHEALTHY"%string ->
  (forall i, In i l ->
     ServiceInstance.health_status i = "HEALTHY"%string \/
     ServiceInstance.health_status i = "UNHEALTHY"%string) ->
  fst (fold_left (discover_step query_parameters health_status) l acc)
  = fst acc ++
    filter (fun i =>
              String.eqb (ServiceInstance.health_status i) health_status
              && matches_parameters query_parameters i) l.
Proof.
  intros Hhs. revert acc.
  induction l as [|x l IH]; intros acc Hall.
  - simpl. rewrite app_nil_r. reflexivity.
  - cbn [fold_left filter]. rewrite IH by (intros i Hi; apply Hall; right; exact Hi).
    destruct acc as [f hh].
    assert (Hx := Hall x (or_introl eq_refl)).
    unfold discover_step.
    destruct Hhs as [-> | ->]; destruct Hx as [-> | ->]; cbn;
      destruct (matches_parameters query_parameters x); cbn;
      unfold Py.append; rewrite <- ?app_assoc; reflexivity.
Qed.

Lemma revisions_fold (rev : string -> Z) (l : list ServiceInstance.t)
    (d0 : dict Z) (k : string) :
  dict_get k
    (fold_left
       (fun d instance =>
          dict_set (ServiceInstance.instance_id instance)
                   (rev (ServiceInstance.instance_id instance)) d)
       l d0)
  = if existsb (has_id k) l then Some (rev k) else dict_get k d0.
Proof.
  revert d0. induction l as [|x l IH]; intros d0; [reflexivity|].
  cbn [fold_left existsb]. rewrite IH. unfold has_id at 2.
  destruct (String.eqb_spec (ServiceInstance.instance_id x) k) as [-> | Hne].
  - rewrite dict_get_set_eq. cbn [orb].
    destruct (existsb _ l); reflexivity.
  - cbn [orb]. rewrite dict_get_set_neq by congruence. reflexivity.
Qed.

(** X18.  Asked for HEALTHY or for UNHEALTHY, on a backend whose instances
    have one of these two statuses, [discover_instances] returns, in the
    order of registration, exactly the instances of the service that have
    the status asked for and whose attributes equal every query parameter;
    when at least one of them also equals every optional parameter, only
    those that do.  The revision map holds the revision counted for each
    returned instance id (0 when none was counted) and nothing else. *)
Theorem discover_instances_by_status (namespace_name service_name : string)
    (query_parameters optional_parameters : dict string)
    (health_status : string) (w : World) (b : ServiceDiscoveryBackend)
    (namespace : Namespace.t) (service stored : Service.t) :
  health_status = "HEALTHY"%string \/ health_status = "UNHEALTHY"%string ->
  health_known b ->
  find (fun ns => String.eqb (Namespace.name ns) namespace_name)
       (dict_values (namespaces b)) = Some namespace ->
  find (fun srv => String.eqb (Service.name srv) service_name
                   && String.eqb (Service.namespace_id srv)
                                 (Namespace.id namespace))
       (dict_values (services b)) = Some service ->
  dict_get (Service.id service) (services b) = Some stored ->
  let matching :=
    filter (fun i =>
              String.eqb (ServiceInstance.health_status i) health_status
              && matches_parameters query_parameters i)
           (Service.instances stored) in
  let narrowed := filter (matches_parameters optional_parameters) matching in
  let found :=
    match narrowed with
    | _ :: _ => narrowed
    | [] => matching
    end in
  exists revisions,
    discover_instances namespace_name service_name query_parameters
      optional_parameters health_status (w, b)
    = (inr (found, revisions), (w, b)) /\
    (forall i, In i found ->
       dict_get (ServiceInstance.instance_id i) revisions
       = Some match dict_get (ServiceInstance.instance_id i)
                      (Service.instances_revision service) with
              | Some n => n
              | None => 0%Z
              end) /\
    (forall k, dict_mem k revisions = true ->
       exists i, In i found /\ ServiceInstance.instance_id i = k).
Proof.
  intros Hhs Hknown Hns Hsrv Hstored. cbv zeta.
  apply find_filter_head in Hns. destruct Hns as [nss Hns].
  apply find_filter_head in Hsrv. destruct Hsrv as [srvs Hsrv].
  pose proof (discover_fold_filter query_parameters health_status
                (Service.instances stored) ([], false) Hhs
                (fun i Hi => Hknown _ _ _ Hstored Hi)) as Hfold.
  cbn [fst app] in Hfold.
  eexists. split; [|split].
  - unfold discover_instances.
    replace (negb (str_in health_status
                     ["HEALTHY"; "UNHEALTHY"; "ALL"; "HEALTHY_OR_ELSE_ALL"]%string))
      with false by (destruct Hhs as [-> | ->]; reflexivity).
    rewrite (bind_inr _ _ _ _ _ (list_namespaces_run (w, b))). cbn [snd].
    rewrite Hns.
    rewrite (bind_inr _ _ _ _ _ (list_services_run (w, b))). cbn [snd].
    rewrite Hsrv.
    unfold bind. rewrite list_instances_run. cbn [snd]. rewrite Hstored.
    destruct (fold_left _ (Service.instances stored) ([], false))
      as [filtered has_healthy].
    cbn [fst] in Hfold. subst filtered.
    replace (has_healthy && String.eqb health_status "HEALTHY_OR_ELSE_ALL")%bool
      with false
      by (destruct Hhs as [-> | ->]; destruct has_healthy; reflexivity).
    unfold ret. reflexivity.
  - intros i Hi. rewrite revisions_fold with
      (rev := fun k => match dict_get k (Service.instances_revision service) with
                       | Some n => n
                       | None => 0%Z
                       end).
    replace (existsb (has_id (ServiceInstance.instance_id i)) _) with true;
      [reflexivity|].
    symmetry. apply existsb_exists. exists i. split; [exact Hi|].
    unfold has_id. apply String.eqb_refl.
  - intros k Hk. unfold dict_mem in Hk.
    rewrite revisions_fold with
      (rev := fun k => match dict_get k (Service.instances_revision service) with
                       | Some n => n
                       | None => 0%Z
                       end) in Hk.
    destruct (existsb (has_id k) _) eqn:Hex; [|discriminate].
    apply existsb_exists in Hex. destruct Hex as (i & Hi & Hid).
    exists i. split; [exact Hi|]. unfold has_id in Hid.
    apply String.eqb_eq, Hid.
Qed.

(** *** Every call is made of elementary changes *)

Lemma steps_one (b b' : ServiceDiscoveryBackend) : step b b' -> steps b b'.
Proof. intros Hs. apply (steps_more b b b'); [apply steps_none | exact Hs]. Qed.

Lemma steps_trans (b1 b2 b3 : ServiceDiscoveryBackend) :
  steps b1 b2 -> steps b2 b3 -> steps b1 b3.
Proof.
  intros H12 H23. induction H23 as [|b2 b3 b4 _ IH Hs]; [exact H12|].
  apply (steps_more b1 b3 b4); [apply IH, H12 | exact Hs].
Qed.

Lemma create_operation_steps (op_type : string) (targets : dict string)
    (w : World) (b : ServiceDiscoveryBackend) :
  steps b (snd (snd (_create_operation op_type targets (w, b)))).
Proof.
  destruct (create_operation_run op_type targets w b) as (op & w' & E & _).
  rewrite E. apply steps_one, step_operation.
Qed.

Lemma namespace_tail_steps (namespace : Namespace.t)
    (tags : list (dict string)) (w : World) (b : ServiceDiscoveryBackend) :
  (forall v, Namespace.vpc namespace = Some v ->
             vpc_in_use v (namespaces b) = false) ->
  steps b
    (snd (snd
       (bind
          (assign (fun b =>
             with_namespaces b
               (dict_set (Namespace.id namespace) namespace (namespaces b))))
          (fun _ =>
             bind
               match tags with
               | _ :: _ => tagger_tag_resource (Namespace.arn namespace) tags
               | [] => ret tt
               end
               (fun _ =>
                  bind
                    (_create_operation "CREATE_NAMESPACE"
                       [("NAMESPACE"%string, Namespace.id namespace)])
                    (fun operation_id => ret operation_id)))
          (w, b)))).
Proof.
  intros Hvpc.
  pose proof (step_namespace_new b namespace Hvpc) as Hnew.
  pose proof (store_tag_record namespace tags w b) as Htail.
  cbv zeta in Htail. destruct tags as [|tag tags].
  - destruct Htail as (op & w' & E & _). rewrite E. cbn [snd].
    eapply steps_more; [apply steps_one, Hnew|].
    apply (step_operation
             (with_namespaces b
                (dict_set (Namespace.id namespace) namespace (namespaces b)))).
  - destruct (tag_resource (Namespace.arn namespace) (tag :: tags) (tagger b))
      as [e|t].
    + rewrite Htail. apply steps_one, Hnew.
    + destruct Htail as (op & w' & E & _). rewrite E. cbn [snd].
      eapply steps_more; [eapply steps_more; [apply steps_one, Hnew|]|].
      * apply (step_tagger _ t).
      * apply (step_operation
                 (with_tagger
                    (with_namespaces b
                       (dict_set (Namespace.id namespace) namespace
                          (namespaces b))) t)).
Qed.

Lemma create_http_namespace_steps (name creator_request_id description : string)
    (tags : list (dict string)) (w : World) (b : ServiceDiscoveryBackend) :
  steps b
    (snd (snd (create_http_namespace name creator_request_id description tags
                 (w, b)))).
Proof.
  destruct (Namespace_init_run (account_id b) (region_name b) name "HTTP"
              creator_request_id description
              [("SOA"%string, JObject [])]
              [("HttpName"%string, JString name)] None w b)
    as (rid & ns & w1 & _ & Einit & Hrest).
  unfold create_http_namespace, bind at 1, ServiceDiscovery.self.
  cbn [fst snd]. rewrite (bind_inr _ _ _ _ _ Einit).
  apply namespace_tail_steps.
  intros v Hv. destruct Hrest as (_ & _ & _ & _ & _ & _ & _ & Hnone).
  congruence.
Qed.

Lemma create_public_dns_namespace_steps (name creator_request_id
    description : string) (tags : list (dict string))
    (properties : option (dict json)) (w : World)
    (b : ServiceDiscoveryBackend) :
  steps b
    (snd (snd (create_public_dns_namespace name creator_request_id description
                 tags properties (w, b)))).
Proof.
  unfold create_public_dns_namespace, bind at 1, ServiceDiscovery.self.
  cbn [fst snd].
  destruct (hosted_dns_properties properties) as [e|d]; [apply steps_none|].
  destruct (Namespace_init_run (account_id b) (region_name b) name
              "DNS_PUBLIC" creator_request_id description d [] None w b)
    as (rid & ns & w1 & _ & Einit & Hrest).
  rewrite (bind_inr _ _ _ _ _ Einit).
  apply namespace_tail_steps.
  intros v Hv. destruct Hrest as (_ & _ & _ & _ & _ & _ & _ & Hnone).
  congruence.
Qed.

Lemma create_private_dns_namespace_steps (name creator_request_id
    description vpc : string) (tags : list (dict string))
    (properties : option (dict json)) (w : World)
    (b : ServiceDiscoveryBackend) :
  steps b
    (snd (snd (create_private_dns_namespace name creator_request_id
                 description vpc tags properties (w, b)))).
Proof.
  unfold create_private_dns_namespace, bind at 1, ServiceDiscovery.self.
  cbn [fst snd].
  destruct (vpc_in_use vpc (namespaces b)) eqn:Huse; [apply steps_none|].
  destruct (hosted_dns_properties properties) as [e|d]; [apply steps_none|].
  destruct (Namespace_init_run (account_id b) (region_name b) name
              "DNS_PRIVATE" creator_request_id description d [] (Some vpc) w b)
    as (rid & ns & w1 & _ & Einit & Hrest).
  rewrite (bind_inr _ _ _ _ _ Einit).
  apply namespace_tail_steps.
  intros v Hv. destruct Hrest as (_ & _ & _ & _ & _ & _ & _ & Hsome).
  rewrite Hsome in Hv. injection Hv as <-. exact Huse.
Qed.

Lemma delete_namespace_steps (namespace_id : string) (w : World)
    (b : ServiceDiscoveryBackend) :
  steps b (snd (snd (delete_namespace namespace_id (w, b)))).
Proof.
  unfold delete_namespace, bind at 1, ServiceDiscovery.self. cbn [fst snd].
  destruct (dict_mem namespace_id (namespaces b)); cbn [negb];
    [|apply steps_none].
  unfold bind at 1, assign. cbn [fst snd].
  match goal with
  | |- context [bind (_create_operation ?ty ?tg) _ (?w0, ?b0)] =>
      destruct (create_operation_run ty tg w0 b0) as (op & w' & E & _)
  end.
  rewrite (bind_inr _ _ _ _ _ E). unfold ret. cbn [snd].
  eapply steps_more; [apply steps_one, (step_namespace_delete b namespace_id)|].
  apply (step_operation
           (with_namespaces b (dict_del namespace_id (namespaces b)))).
Qed.

Lemma update_dns_namespace_steps (_id : string) (description : option string)
    (properties : option (dict json)) (w : World)
    (b : ServiceDiscoveryBackend) :
  steps b
    (snd (snd (update_private_dns_namespace _id description properties
                 (w, b)))).
Proof.
  pose proof (update_dns_namespace_run _id description properties w b) as Hrun.
  destruct (dict_get _id (namespaces b)) as [old|] eqn:Hold.
  - cbv zeta in Hrun. destruct Hrun as (op & w' & E & _). rewrite E.
    cbn [snd].
    eapply steps_more; [|apply (step_operation (with_namespaces b _))].
    apply steps_one. apply (step_namespace_update b _id old); [exact Hold| |];
      destruct description, properties; reflexivity.
  - rewrite Hrun. apply steps_none.
Qed.

Lemma create_service_steps (name namespace_id creator_request_id
    description : string)
    (dns_config health_check_config health_check_custom_config : json)
    (tags : list (dict string)) (service_type : string) (w : World)
    (b : ServiceDiscoveryBackend) :
  steps b
    (snd (snd (create_service name namespace_id creator_request_id description
                 dns_config health_check_config health_check_custom_config
                 tags service_type (w, b)))).
Proof.
  destruct (Service_init_run (account_id b) (region_name b) name namespace_id
              description creator_request_id dns_config health_check_config
              health_check_custom_config service_type w b)
    as (rid & srv & w1 & _ & Einit & _ & _ & _ & _ & _ & _ & Hnil & _).
  unfold create_service, bind at 1, ServiceDiscovery.self. cbn [fst snd].
  rewrite (bind_inr _ _ _ _ _ Einit).
  unfold bind at 1, assign. cbn [fst snd].
  pose proof (step_service_new b srv Hnil) as Hnew.
  destruct tags as [|tag tags].
  - unfold bind, ret. cbn [snd]. apply steps_one, Hnew.
  - unfold bind at 1, tagger_tag_resource. cbn [fst snd].
    destruct (tag_resource _ _ _) as [e|t].
    + cbn [snd]. apply steps_one, Hnew.
    + unfold ret. cbn [snd].
      eapply steps_more; [apply steps_one, Hnew | apply step_tagger].
Qed.

Lemma update_service_steps (service_id : string) (details : dict json)
    (w : World) (b : ServiceDiscoveryBackend) :
  steps b (snd (snd (update_service service_id details (w, b)))).
Proof.
  unfold update_service, bind at 1. rewrite get_service_run. cbn [snd].
  destruct (dict_get service_id (services b)) as [service|] eqn:Hsrv;
    [|apply steps_none].
  pose proof (Service_update_frame service details) as Hframe.
  destruct (Service.update service details) as [raised service'].
  cbn [snd] in Hframe.
  destruct Hframe as (Hid & _ & _ & _ & _ & _ & _ & _ & Hinst & _).
  assert (Hupd : step b (with_services b
                           (dict_set service_id service' (services b)))).
  { apply (step_service_update b service_id service service' Hsrv Hid).
    intros i Hi. left. rewrite <- Hinst. exact Hi. }
  unfold bind at 1, store_service, assign. cbn [fst snd].
  destruct raised as [e|].
  - unfold raise. cbn [snd]. apply steps_one, Hupd.
  - match goal with
    | |- context [bind (_create_operation ?ty ?tg) _ (?w0, ?b0)] =>
        destruct (create_operation_run ty tg w0 b0) as (op & w' & E & _)
    end.
    rewrite (bind_inr _ _ _ _ _ E). unfold ret. cbn [snd].
    eapply steps_more; [apply steps_one, Hupd|].
    apply (step_operation (with_services b _)).
Qed.

Lemma register_instance_steps (service_id instance_id : string)
    (creator_request_id : option string) (attributes : option (dict string))
    (w : World) (b : ServiceDiscoveryBackend) :
  steps b
    (snd (snd (register_instance service_id instance_id creator_request_id
                 attributes (w, b)))).
Proof.
  destruct (dict_get service_id (services b)) as [service|] eqn:Hsrv.
  - destruct (register_instance_full service_id instance_id
                creator_request_id attributes w b service Hsrv)
      as (i & op & w' & E & _ & _ & _ & Hh & _).
    rewrite E. cbn [snd].
    eapply steps_more; [|apply (step_operation (with_services b _))].
    apply steps_one.
    apply (step_service_update b service_id service); [exact Hsrv|reflexivity|].
    cbn [Service.instances Service.with_instances].
    intros j Hj. apply in_app_iff in Hj.
    destruct Hj as [Hj | [<- | []]]; [left; exact Hj | right; left; exact Hh].
  - unfold register_instance, bind at 1. rewrite get_service_run. cbn [snd].
    rewrite Hsrv. apply steps_none.
Qed.

Lemma deregister_instance_steps (service_id instance_id : string)
    (w : World) (b : ServiceDiscoveryBackend) :
  steps b (snd (snd (deregister_instance service_id instance_id (w, b)))).
Proof.
  destruct (dict_get service_id (services b)) as [service|] eqn:Hsrv.
  - pose proof (deregister_instance_run service_id instance_id w b service
                  Hsrv) as Hrun.
    destruct (remove_instance instance_id (Service.instances service))
      as [remaining|] eqn:Hrem.
    + destruct Hrun as (op & w' & E & _). rewrite E. cbn [snd].
      destruct (remove_instance_Some _ _ _ Hrem)
        as (l1 & i & l2 & Hl & -> & _).
      eapply steps_more; [|apply (step_operation (with_services b _))].
      apply steps_one.
      apply (step_service_update b service_id service);
        [exact Hsrv|reflexivity|].
      cbn [Service.instances Service.with_instances].
      intros j Hj. left. rewrite Hl. apply in_app_iff.
      apply in_app_iff in Hj. destruct Hj as [Hj | Hj];
        [left; exact Hj | right; right; exact Hj].
    + rewrite Hrun. apply steps_none.
  - unfold deregister_instance, bind at 1. rewrite get_service_run.
    cbn [snd]. rewrite Hsrv. apply steps_none.
Qed.

Lemma update_health_status_steps (service_id instance_id status : string)
    (w : World) (b : ServiceDiscoveryBackend) :
  steps b
    (snd (snd (update_instance_custom_health_status service_id instance_id
                 status (w, b)))).
Proof.
  unfold update_instance_custom_health_status.
  destruct (str_in status ["HEALTHY"; "UNHEALTHY"]%string) eqn:Hst;
    cbn [negb]; [|apply steps_none].
  apply str_in_two in Hst.
  unfold bind at 1. rewrite get_instance_run. cbn [snd].
  destruct (dict_get service_id (services b)) as [service|] eqn:Hsrv;
    [|apply steps_none].
  destruct (find _ (Service.instances service)); [|apply steps_none].
  unfold bind at 1. rewrite get_service_run. cbn [snd]. rewrite Hsrv.
  unfold store_service, assign. cbn [fst snd].
  apply steps_one.
  apply (step_service_update b service_id service); [exact Hsrv|reflexivity|].
  cbn [Service.instances Service.with_instances]. intros j Hj.
  destruct (assign_health_status_In _ _ _ _ Hj) as [Hold | ->];
    [left; exact Hold | right; exact Hst].
Qed.

Lemma get_instances_health_status_reads (service_id : string)
    (instances : json) (s : state) :
  snd (get_instances_health_status service_id instances s) = s.
Proof.
  unfold get_instances_health_status, bind. rewrite get_service_run.
  destruct (dict_get service_id (services (snd s))) as [service|];
    [|reflexivity].
  destruct (is_list _); [reflexivity|].
  destruct (instances_among _ _); reflexivity.
Qed.

Lemma discover_instances_reads (namespace_name service_name : string)
    (query_parameters optional_parameters : dict string)
    (health_status : string) (s : state) :
  snd (discover_instances namespace_name service_name query_parameters
         optional_parameters health_status s) = s.
Proof.
  unfold discover_instances.
  destruct (negb (str_in health_status _)); [reflexivity|].
  rewrite (bind_inr _ _ _ _ _ (list_namespaces_run s)).
  destruct (filter _ (dict_values (namespaces (snd s)))) as [|ns nss];
    [reflexivity|].
  rewrite (bind_inr _ _ _ _ _ (list_services_run s)).
  destruct (filter _ (dict_values (services (snd s)))) as [|srv srvs];
    [reflexivity|].
  unfold bind. rewrite list_instances_run.
  destruct (dict_get (Service.id srv) (services (snd s))); [|reflexivity].
  destruct (fold_left _ _ _). reflexivity.
Qed.

(** Whatever a call does to the backend, it does by elementary changes. *)
Lemma after_call_steps (c : call) (w : World) (b : ServiceDiscoveryBackend) :
  steps b (snd (after_call c (w, b))).
Proof.
  destruct c; cbn [after_call].
  - apply create_http_namespace_steps.
  - apply create_private_dns_namespace_steps.
  - apply create_public_dns_namespace_steps.
  - apply delete_namespace_steps.
  - rewrite get_namespace_run. apply steps_none.
  - apply steps_none.
  - apply update_dns_namespace_steps.
  - apply update_dns_namespace_steps.
  - rewrite list_operations_run. apply steps_one, step_prune.
  - rewrite get_operation_run. apply steps_none.
  - unfold backend_tag_resource, tagger_tag_resource. cbn [fst snd].
    destruct (tag_resource _ _ _); [apply steps_none|].
    apply steps_one, step_tagger.
  - apply create_service_steps.
  - rewrite get_service_run. apply steps_none.
  - apply steps_one, step_service_delete.
  - apply steps_none.
  - apply update_service_steps.
  - apply register_instance_steps.
  - apply deregister_instance_steps.
  - rewrite list_instances_run. apply steps_none.
  - rewrite get_instance_run. apply steps_none.
  - rewrite get_instances_health_status_reads. apply steps_none.
  - apply update_health_status_steps.
  - rewrite discover_instances_reads. apply steps_none.
Qed.

(** *** Invariants of the backend *)

Lemma dict_set_In {V : Type} (k0 : string) (v0 : V) (d : dict V)
    (k : string) (v : V) :
  In (k, v) (dict_set k0 v0 d) -> In (k, v) d \/ (k = k0 /\ v = v0).
Proof.
  induction d as [|[k' v'] r IH]; simpl.
  - intros [[= <- <-] | []]. right. split; reflexivity.
  - destruct (String.eqb_spec k0 k') as [<- | Hne]; simpl.
    + intros [[= <- <-] | Hin]; [right; split; reflexivity | left; right; exact Hin].
    + intros [Heq | Hin]; [left; left; exact Heq|].
      destruct (IH Hin) as [Hr | Hr]; [left; right; exact Hr | right; exact Hr].
Qed.

Lemma dict_get_set_cases {V : Type} (k0 : string) (v0 : V) (d : dict V)
    (k : string) (v : V) :
  dict_get k (dict_set k0 v0 d) = Some v ->
  (k = k0 /\ v = v0) \/ (k <> k0 /\ dict_get k d = Some v).
Proof.
  destruct (String.eqb_spec k k0) as [-> | Hne].
  - rewrite dict_get_set_eq. intros [= <-]. left. split; reflexivity.
  - rewrite dict_get_set_neq by exact Hne. intros Hg. right. split; assumption.
Qed.

Lemma dict_get_del_cases {V : Type} (k0 : string) (d : dict V)
    (k : string) (v : V) :
  dict_get k (dict_del k0 d) = Some v -> k <> k0 /\ dict_get k d = Some v.
Proof.
  destruct (String.eqb_spec k k0) as [-> | Hne].
  - rewrite dict_get_del_eq. discriminate.
  - rewrite dict_get_del_neq by exact Hne. intros Hg. split; assumption.
Qed.

Lemma step_keyed_by_id (b b' : ServiceDiscoveryBackend) :
  step b b' -> keyed_by_id b -> keyed_by_id b'.
Proof.
  intros Hs (Hn & Hsv & Ho).
  destruct Hs as [b op | b keep | b ns _ | b k old ns Hold Hid _ | b k
                 | b srv _ | b k old srv Hold Hid _ | b k | b t];
    unfold keyed_by_id;
    cbn [namespaces services operations with_operations with_namespaces
         with_services with_tagger];
    conjuncts; try assumption.
  - intros k v Hin. destruct (dict_set_In _ _ _ _ _ Hin) as [Hr | [-> ->]];
      [apply Ho, Hr | reflexivity].
  - intros k v Hin. apply filter_In in Hin. apply Ho, Hin.
  - intros k v Hin. destruct (dict_set_In _ _ _ _ _ Hin) as [Hr | [-> ->]];
      [apply Hn, Hr | reflexivity].
  - intros k' v Hin. destruct (dict_set_In _ _ _ _ _ Hin) as [Hr | [-> ->]];
      [apply Hn, Hr|].
    rewrite Hid. apply Hn, dict_get_In, Hold.
  - intros k' v Hin. apply filter_In in Hin. apply Hn, Hin.
  - intros k v Hin. destruct (dict_set_In _ _ _ _ _ Hin) as [Hr | [-> ->]];
      [apply Hsv, Hr | reflexivity].
  - intros k' v Hin. destruct (dict_set_In _ _ _ _ _ Hin) as [Hr | [-> ->]];
      [apply Hsv, Hr|].
    rewrite Hid. apply Hsv, dict_get_In, Hold.
  - intros k' v Hin. apply filter_In in Hin. apply Hsv, Hin.
Qed.

Lemma step_health_known (b b' : ServiceDiscoveryBackend) :
  step b b' -> health_known b -> health_known b'.
Proof.
  intros Hs Hk.
  destruct Hs as [b op | b keep | b ns _ | b k old ns _ _ _ | b k
                 | b srv Hnil | b k old srv Hold _ Hinst | b k | b t];
    unfold health_known;
    cbn [namespaces services operations with_operations with_namespaces
         with_services with_tagger];
    try exact Hk.
  - intros k s i Hg Hi.
    destruct (dict_get_set_cases _ _ _ _ _ Hg) as [[_ ->] | [_ Hg']].
    + rewrite Hnil in Hi. destruct Hi.
    + apply (Hk _ _ _ Hg' Hi).
  - intros k' s i Hg Hi.
    destruct (dict_get_set_cases _ _ _ _ _ Hg) as [[_ ->] | [_ Hg']].
    + destruct (Hinst i Hi) as [Hin | Hh]; [apply (Hk _ _ _ Hold Hin) | exact Hh].
    + apply (Hk _ _ _ Hg' Hi).
  - intros k' s i Hg Hi.
    destruct (dict_get_del_cases _ _ _ _ Hg) as [_ Hg'].
    apply (Hk _ _ _ Hg' Hi).
Qed.

Lemma vpc_in_use_get (v : string) (nss : dict Namespace.t) (k : string)
    (ns : Namespace.t) :
  dict_get k nss = Some ns -> Namespace.vpc ns = Some v ->
  vpc_in_use v nss = true.
Proof.
  intros Hg Hv. apply vpc_in_use_spec. exists k, ns.
  split; [apply dict_get_In, Hg | exact Hv].
Qed.

Lemma step_vpc_unique (b b' : ServiceDiscoveryBackend) :
  step b b' -> vpc_unique b -> vpc_unique b'.
Proof.
  intros Hs Hu.
  destruct Hs as [b op | b keep | b ns Hfree | b k old ns Hold _ Hvpc | b k
                 | b srv _ | b k old srv _ _ _ | b k | b t];
    unfold vpc_unique;
    cbn [namespaces services operations with_operations with_namespaces
         with_services with_tagger];
    try exact Hu.
  - intros k1 k2 n1 n2 v H1 H2 V1 V2.
    destruct (dict_get_set_cases _ _ _ _ _ H1) as [[-> ->] | [Hne1 H1']];
      destruct (dict_get_set_cases _ _ _ _ _ H2) as [[-> ->] | [Hne2 H2']].
    + reflexivity.
    + specialize (Hfree v V1).
      rewrite (vpc_in_use_get v _ _ _ H2' V2) in Hfree. discriminate.
    + specialize (Hfree v V2).
      rewrite (vpc_in_use_get v _ _ _ H1' V1) in Hfree. discriminate.
    + apply (Hu _ _ _ _ _ H1' H2' V1 V2).
  - intros k1 k2 n1 n2 v H1 H2 V1 V2.
    destruct (dict_get_set_cases _ _ _ _ _ H1) as [[-> ->] | [Hne1 H1']];
      destruct (dict_get_set_cases _ _ _ _ _ H2) as [[-> ->] | [Hne2 H2']].
    + reflexivity.
    + rewrite Hvpc in V1. apply (Hu _ _ _ _ _ Hold H2' V1 V2).
    + rewrite Hvpc in V2. apply (Hu _ _ _ _ _ H1' Hold V1 V2).
    + apply (Hu _ _ _ _ _ H1' H2' V1 V2).
  - intros k1 k2 n1 n2 v H1 H2 V1 V2.
    destruct (dict_get_del_cases _ _ _ _ H1) as [_ H1'].
    destruct (dict_get_del_cases _ _ _ _ H2) as [_ H2'].
    apply (Hu _ _ _ _ _ H1' H2' V1 V2).
Qed.

Lemma steps_preserve (P : ServiceDiscoveryBackend -> Prop) :
  (forall b b', step b b' -> P b -> P b') ->
  forall b b', steps b b' -> P b -> P b'.
Proof.
  intros Hstep b b' Hs. induction Hs as [|b b1 b2 _ IH Hs1]; [trivial|].
  intros Hb. apply (Hstep b1 b2 Hs1), IH, Hb.
Qed.

Lemma after_calls_preserve (P : ServiceDiscoveryBackend -> Prop) :
  (forall b b', step b b' -> P b -> P b') ->
  forall (cs : list call) (s : state),
    P (snd s) -> P (snd (after_calls cs s)).
Proof.
  intros Hstep cs. induction cs as [|c cs IH]; intros s Hs; [exact Hs|].
  cbn [after_calls]. apply IH. destruct s as [w b].
  apply (steps_preserve P Hstep b _ (after_call_steps c w b)), Hs.
Qed.

(** X19.  Whatever calls are made on the backend, and whether they return
    or raise, every namespace, service and operation stays stored under
    its own id once this holds (as it does in a new backend). *)
Theorem calls_keep_keyed_by_id (cs : list call) (s : state) :
  keyed_by_id (snd s) -> keyed_by_id (snd (after_calls cs s)).
Proof. apply (after_calls_preserve keyed_by_id step_keyed_by_id). Qed.

(** X20.  Whatever calls are made on the backend, and whether they return
    or raise, the health status of every registered instance stays HEALTHY
    or UNHEALTHY once this holds (as it does in a new backend). *)
Theorem calls_keep_health_known (cs : list call) (s : state) :
  health_known (snd s) -> health_known (snd (after_calls cs s)).
Proof. apply (after_calls_preserve health_known step_health_known). Qed.

(** X21.  Whatever calls are made on the backend, and whether they return
    or raise, no two stored namespaces come to share a vpc once none do
    (as in a new backend): the check of [create_private_dns_namespace] is
    enough, since no other call gives a namespace a vpc or changes one. *)
Theorem calls_keep_vpc_unique (cs : list call) (s : state) :
  vpc_unique (snd s) -> vpc_unique (snd (after_calls cs s)).
Proof. apply (after_calls_preserve vpc_unique step_vpc_unique). Qed.

End Properties.

(** *** Pagination *)

Section Pagination.

Local Open Scope nat_scope.

Variable limit : nat.

Lemma all_digit_chars_of_uint (u : Decimal.uint) :
  all_digit_chars (NilEmpty.string_of_uint u) = true.
Proof. induction u; simpl; try rewrite IHu; reflexivity. Qed.

Lemma str_int_nonneg (z : Z) :
  (0 <= z)%Z ->
  exists u, u <> Decimal.Nil /\
            str_int z = NilEmpty.string_of_uint u /\
            Z.of_uint u = z.
Proof.
  intros Hz. destruct z as [|p|p]; [| |lia].
  - exists Decimal.zero. conjuncts; [discriminate|reflexivity|reflexivity].
  - exists (Pos.to_uint p). conjuncts.
    + apply DecimalPos.Unsigned.to_uint_nonnil.
    + unfold str_int. cbn [Z.to_int NilZero.string_of_int].
      unfold NilZero.string_of_uint.
      pose proof (DecimalPos.Unsigned.to_uint_nonnil p) as Hn.
      destruct (Pos.to_uint p); [contradiction|..]; reflexivity.
    + unfold Z.of_uint. rewrite DecimalPos.Unsigned.of_to. reflexivity.
Qed.

Lemma isdigit_str_int (z : Z) : (0 <= z)%Z -> isdigit (str_int z) = true.
Proof.
  intros Hz. destruct (str_int_nonneg z Hz) as (u & Hn & -> & _).
  unfold isdigit. pose proof (all_digit_chars_of_uint u) as Hall.
  destruct (NilEmpty.string_of_uint u) eqn:E; [|exact Hall].
  destruct u; try discriminate. contradiction.
Qed.

Lemma int_of_str_str_int (z : Z) :
  (0 <= z)%Z ->
  digits_allowed limit (String.length (str_int z)) = true ->
  int_of_str limit (str_int z) = inr z.
Proof.
  intros Hz Hlim. destruct (str_int_nonneg z Hz) as (u & Hn & Hs & Hu).
  unfold int_of_str. rewrite Hlim.
  assert (Hparse : NilZero.uint_of_string (str_int z) = Some u).
  { rewrite Hs. rewrite <- (NilZero.usu u Hn).
    unfold NilZero.string_of_uint. destruct u; try reflexivity. contradiction. }
  rewrite Hparse, Hu. reflexivity.
Qed.

Lemma slice_index_nat (len n : nat) :
  slice_index len (Z.of_nat n) = Nat.min n len.
Proof.
  unfold slice_index.
  destruct (Z.ltb_spec (Z.of_nat n) 0); [lia|].
  rewrite Nat2Z.id. reflexivity.
Qed.

Lemma geb_of_nat (a c : nat) :
  (Z.of_nat a >=? Z.of_nat c)%Z = (c <=? a).
Proof.
  rewrite Z.geb_leb.
  destruct (Z.leb_spec (Z.of_nat c) (Z.of_nat a));
    destruct (Nat.leb_spec c a); try reflexivity; lia.
Qed.

Lemma skipn_min {A : Type} (n : nat) (l : list A) :
  skipn (Nat.min n (length l)) l = skipn n l.
Proof.
  destruct (Nat.le_gt_cases n (length l)) as [Hle | Hgt].
  - rewrite Nat.min_l by exact Hle. reflexivity.
  - rewrite Nat.min_r by lia. rewrite !skipn_all2 by lia. reflexivity.
Qed.

(** X22.  A token that is not made of digits (the empty string, a
    negative number, any other text) is not an error for [paginate]: the
    result is the empty page and no next token, whatever the items.  A
    token of digit characters that are not decimal digits (a superscript
    two, say) passes that check and makes [int] raise ValueError. *)
Theorem paginate_odd_tokens {A : Type} (items : list A)
    (max_results : option Z) (token : string) :
  match isdigit token, NilZero.uint_of_string token with
  | false, _ => paginate limit items max_results (Some token) = inr ([], None)
  | true, None =>
      paginate limit items max_results (Some token)
      = inl (OtherError "ValueError")
  | true, Some _ => True
  end /\
  isdigit EmptyString = false /\
  isdigit "-1" = false /\
  isdigit (String (ascii_of_nat 178) EmptyString) = true /\
  NilZero.uint_of_string (String (ascii_of_nat 178) EmptyString) = None.
Proof.
  conjuncts; try reflexivity.
  unfold paginate.
  destruct (isdigit token); cbn [negb]; [|reflexivity].
  destruct (NilZero.uint_of_string token) eqn:E; [trivial|].
  unfold int_of_str. rewrite E. reflexivity.
Qed.

(** One page: what [paginate] answers to the token that writes the
    position [n]. *)
Lemma paginate_page {A : Type} (items : list A) (n m : nat) :
  digits_allowed limit (String.length (str_int (Z.of_nat n))) = true ->
  digits_allowed limit (String.length (str_int (Z.of_nat (n + m)))) = true ->
  paginate limit items (Some (Z.of_nat m)) (Some (str_int (Z.of_nat n)))
  = inr (firstn m (skipn n items),
         if length items <=? n + m then None
         else Some (str_int (Z.of_nat (n + m)))).
Proof.
  intros Hn Hnm. unfold paginate.
  rewrite isdigit_str_int by lia. cbn [negb].
  rewrite int_of_str_str_int by (lia || exact Hn).
  rewrite <- Nat2Z.inj_add, geb_of_nat.
  destruct (Nat.leb_spec (length items) (n + m)) as [Hle | Hgt].
  - unfold slice_from. rewrite slice_index_nat, skipn_min.
    rewrite firstn_all2; [reflexivity|]. rewrite length_skipn. lia.
  - unfold str_of_int. rewrite Z.abs_eq by lia. rewrite Hnm.
    unfold slice. rewrite !slice_index_nat.
    rewrite (Nat.min_l n) by lia. rewrite (Nat.min_l (n + m)) by lia.
    replace (n + m - n) with m by lia. reflexivity.
Qed.

(** X23.  For a page size [m] and the token that writes a position [n],
    [paginate] returns the items from position [n] on, at most [m] of
    them, in order; it returns no next token exactly when the page reaches
    the end of the items, and else the token that writes [n + m].  The
    page is never longer than [m]. *)
Theorem paginate_returns_the_page {A : Type} (items : list A) (n m : nat) :
  digits_allowed limit (String.length (str_int (Z.of_nat n))) = true ->
  digits_allowed limit (String.length (str_int (Z.of_nat (n + m)))) = true ->
  exists page next,
    paginate limit items (Some (Z.of_nat m)) (Some (str_int (Z.of_nat n)))
    = inr (page, next) /\
    page = firstn m (skipn n items) /\
    length page <= m /\
    (next = None <-> length items <= n + m) /\
    (length items > n + m -> next = Some (str_int (Z.of_nat (n + m)))).
Proof.
  intros Hn Hnm. eexists. eexists.
  split; [apply (paginate_page items n m Hn Hnm)|].
  conjuncts.
  - reflexivity.
  - apply firstn_le_length.
  - destruct (Nat.leb_spec (length items) (n + m)); split;
      try reflexivity; try discriminate; intros; lia.
  - intros Hgt. destruct (Nat.leb_spec (length items) (n + m));
      [lia | reflexivity].
Qed.

Lemma follow_pages_from {A : Type} (items : list A) (m : nat) :
  0 < m ->
  (forall k, k <= length items ->
             digits_allowed limit (String.length (str_int (Z.of_nat k))) = true) ->
  forall calls n,
    n <= length items ->
    length items - n < calls ->
    follow_pages limit calls items (Some (Z.of_nat m))
      (Some (str_int (Z.of_nat n)))
    = inr (Some (skipn n items)).
Proof.
  intros Hm Hlim. induction calls as [|calls IH]; intros n Hn Hcalls; [lia|].
  cbn [follow_pages].
  destruct (Nat.leb_spec (length items) (n + m)) as [Hle | Hgt].
  - assert (Hpage : paginate limit items (Some (Z.of_nat m))
                      (Some (str_int (Z.of_nat n)))
                    = inr (skipn n items, None)).
    { unfold paginate. rewrite isdigit_str_int by lia. cbn [negb].
      rewrite int_of_str_str_int by (lia || apply Hlim, Hn).
      rewrite <- Nat2Z.inj_add, geb_of_nat.
      replace (length items <=? n + m) with true
        by (symmetry; apply Nat.leb_le; lia).
      unfold slice_from. rewrite slice_index_nat, skipn_min. reflexivity. }
    rewrite Hpage. reflexivity.
  - rewrite (paginate_page items n m) by (apply Hlim; lia).
    destruct (Nat.leb_spec (length items) (n + m)); [lia|].
    rewrite IH by lia.
    rewrite <- (firstn_skipn m (skipn n items)) at 2.
    rewrite skipn_skipn. rewrite (Nat.add_comm m n). reflexivity.
Qed.

(** X24.  A client that starts without a token and follows the tokens of
    [paginate] with a page size of at least one gets every item exactly
    once and in order: after at most one call more than there are items,
    the pages joined are the items. *)
Theorem follow_pages_gives_all_items {A : Type} (items : list A) (m : nat) :
  0 < m ->
  (forall k, k <= length items ->
             digits_allowed limit (String.length (str_int (Z.of_nat k))) = true) ->
  follow_pages limit (S (length items)) items (Some (Z.of_nat m)) None
  = inr (Some items).
Proof.
  intros Hm Hlim.
  pose proof (follow_pages_from items m Hm Hlim (S (length items)) 0) as Hall.
  cbn [follow_pages] in *.
  change (paginate limit items (Some (Z.of_nat m)) None)
    with (paginate limit items (Some (Z.of_nat m)) (Some (str_int (Z.of_nat 0)))).
  apply Hall; lia.
Qed.

(** X25.  With a page size of zero [paginate] makes no progress: on items
    that are not empty it answers the empty page and the token of the
    position it was asked for, so a client that follows the tokens never
    reaches a last page, however many calls it makes. *)
Theorem paginate_zero_never_ends {A : Type} (items : list A) (calls : nat) :
  items <> [] ->
  digits_allowed limit 1 = true ->
  paginate limit items (Some 0%Z) None = inr ([], Some "0"%string) /\
  paginate limit items (Some 0%Z) (Some "0"%string)
  = inr ([], Some "0"%string) /\
  follow_pages limit calls items (Some 0%Z) None = inr None.
Proof.
  intros Hne Hlim.
  assert (Hpage : paginate limit items (Some 0%Z) (Some "0"%string)
                  = inr ([], Some "0"%string)).
  { pose proof (paginate_page items 0 0 Hlim Hlim) as Hp.
    cbn [Nat.add firstn skipn] in Hp.
    destruct items as [|x r]; [contradiction|].
    exact Hp. }
  conjuncts; try exact Hpage.
  assert (Hloop : forall token,
             token = None \/ token = Some "0"%string ->
             follow_pages limit calls items (Some 0%Z) token = inr None).
  { induction calls as [|calls IH]; intros token Htok; [reflexivity|].
    cbn [follow_pages].
    replace (paginate limit items (Some 0%Z) token)
      with (@inr exn _ (@nil A, Some "0"%string))
      by (destruct Htok as [-> | ->]; symmetry; exact Hpage).
    rewrite IH by (right; reflexivity). reflexivity. }
  apply Hloop. left. reflexivity.
Qed.

End Pagination.

Section Views.

Context `{Collaborators}.

(** *** Health status of chosen instances, listing, JSON views *)

Lemma instances_among_filter (v : json) (p : string -> bool)
    (l : list ServiceInstance.t) :
  (forall x, contains v x = inr (p x)) ->
  instances_among v l
  = inr (filter (fun i => p (ServiceInstance.instance_id i)) l).
Proof.
  intros Hp. induction l as [|i r IH]; [reflexivity|].
  cbn [instances_among filter]. rewrite Hp, IH. reflexivity.
Qed.

(** X26.  [get_instances_health_status] accepts what is not a list.  For a
    stored service, given a dict it returns id and health status of the
    instances whose id is a key of the dict, in the order of registration;
    given a string, of the instances whose id occurs in the string as a
    substring; given a number it raises TypeError as soon as the service
    has an instance, and returns the empty list when it has none.
    Nothing is changed. *)
Theorem get_instances_health_status_of_containers (service_id : string)
    (w : World) (b : ServiceDiscoveryBackend) (service : Service.t) :
  dict_get service_id (services b) = Some service ->
  (forall d,
     get_instances_health_status service_id (JObject d) (w, b)
     = (inr (map status_pair
               (filter (fun i => dict_mem (ServiceInstance.instance_id i) d)
                       (Service.instances service))), (w, b))) /\
  (forall s,
     get_instances_health_status service_id (JString s) (w, b)
     = (inr (map status_pair
               (filter (fun i =>
                          str_contains (ServiceInstance.instance_id i) s)
                       (Service.instances service))), (w, b))) /\
  (forall z,
     get_instances_health_status service_id (JInt z) (w, b)
     = (match Service.instances service with
        | [] => inr []
        | _ :: _ => inl TypeError
        end, (w, b))).
Proof.
  intros Hsrv. conjuncts.
  - intros d. unfold get_instances_health_status, bind.
    rewrite get_service_run. cbn [snd]. rewrite Hsrv. cbn [is_list].
    rewrite (instances_among_filter (JObject d) (fun x => dict_mem x d))
      by reflexivity.
    reflexivity.
  - intros s. unfold get_instances_health_status, bind.
    rewrite get_service_run. cbn [snd]. rewrite Hsrv. cbn [is_list].
    rewrite (instances_among_filter (JString s) (fun x => str_contains x s))
      by reflexivity.
    reflexivity.
  - intros z. unfold get_instances_health_status, bind.
    rewrite get_service_run. cbn [snd]. rewrite Hsrv. cbn [is_list].
    destruct (Service.instances service); reflexivity.
Qed.

(** X27.  Listing the operations twice is the same as listing them once:
    the second [list_operations] returns the same operations as the first
    and leaves the backend as the first left it. *)
Theorem list_operations_idempotent (s : state) :
  let s1 := snd (list_operations s) in
  list_operations s1 = (fst (list_operations s), s1).
Proof.
  cbv zeta. rewrite !list_operations_run.
  cbn [fst snd operations namespaces with_operations].
  assert (Hf : forall (A : Type) (f : A -> bool) (l : list A),
             filter f (filter f l) = filter f l).
  { intros A f l. induction l as [|x l IH]; [reflexivity|].
    simpl. destruct (f x) eqn:E; [|exact IH].
    simpl. rewrite E, IH. reflexivity. }
  rewrite Hf. destruct s as [w b]. reflexivity.
Qed.

(** X28.  The JSON view of an instance that [register_instance] created
    under a new id shows the id of the instance, its attributes, and under
    CreatorRequestId the id of the service: the creator request id given
    at registration and the health status do not appear. *)
Theorem registered_instance_to_json (service_id instance_id : string)
    (creator_request_id : option string) (attributes : option (dict string))
    (w : World) (b : ServiceDiscoveryBackend) (service : Service.t) :
  dict_get service_id (services b) = Some service ->
  find (has_id instance_id) (Service.instances service) = None ->
  exists op s1 instance,
    register_instance service_id instance_id creator_request_id attributes
      (w, b) = (inr op, s1) /\
    get_instance service_id instance_id s1 = (inr instance, s1) /\
    ServiceInstance_to_json instance
    = [("Id"%string, JString instance_id);
       ("CreatorRequestId"%string, JString service_id);
       ("Attributes"%string,
        json_of_attributes
          match attributes with
          | Some (e :: r) => e :: r
          | _ => []
          end)].
Proof.
  intros Hsrv Hnone.
  destruct (register_instance_full service_id instance_id creator_request_id
              attributes w b service Hsrv)
    as (i & op & w1 & E1 & Hsid & Hid & Hattr & _).
  exists (Operation.id op). eexists. exists i.
  split; [exact E1|].
  rewrite get_instance_run.
  cbn [snd services with_operations with_services].
  rewrite dict_get_set_eq.
  cbn [Service.instances Service.with_instances].
  rewrite (find_app_second _ _ _ Hnone).
  assert (Hhas : has_id instance_id i = true)
    by (unfold has_id; apply String.eqb_eq, Hid).
  cbn [find]. rewrite Hhas. split; [reflexivity|].
  unfold ServiceInstance_to_json. rewrite Hsid, Hid, Hattr. reflexivity.
Qed.

Lemma Namespace_init_arn (account region name ns_type creator_request_id
    description : string) (dns_properties http_properties : dict json)
    (vpc : option string) (w : World) (b : ServiceDiscoveryBackend) :
  exists rid w' created updated,
    Namespace_init account region name ns_type creator_request_id description
      dns_properties http_properties vpc (w, b)
    = (inr {| Namespace.id := "ns-" ++ rid;
              Namespace.arn :=
                "arn:" ++ get_partition region ++ ":servicediscovery:" ++
                region ++ ":" ++ account ++ ":namespace/" ++ "ns-" ++ rid;
              Namespace.name := name; Namespace.type := ns_type;
              Namespace.creator_request_id := creator_request_id;
              Namespace.description := description;
              Namespace.dns_properties := dns_properties;
              Namespace.http_properties := http_properties;
              Namespace.vpc := vpc;
              Namespace.created := created;
              Namespace.updated := updated |}%string, (w', b)) /\
    String.length rid = 20.
Proof.
  destruct (random_id_run 20 w b) as (rid & w1 & E1 & Hlen).
  destruct (unix_time_run w1 b) as (t1 & w2 & E2).
  destruct (unix_time_run w2 b) as (t2 & w3 & E3).
  exists rid, w3, t1, t2. unfold Namespace_init.
  rewrite (bind_inr _ _ _ _ _ E1), (bind_inr _ _ _ _ _ E2),
    (bind_inr _ _ _ _ _ E3).
  unfold ret. split; [reflexivity | exact Hlen].
Qed.

(** X29.  The JSON view of the namespace that [create_http_namespace]
    stores: its Id is ns- followed by twenty generated characters, its Arn
    is built from the partition of the region, the region, the account and
    that id, its Type is HTTP, and its Properties hold the DNS properties
    with an empty SOA and the HTTP properties with the name as HttpName. *)
Theorem created_http_namespace_to_json (name creator_request_id
    description : string) (w : World) (b : ServiceDiscoveryBackend) :
  exists op s1 rid ns created updated,
    create_http_namespace name creator_request_id description [] (w, b)
    = (inr op, s1) /\
    String.length rid = 20 /\
    get_namespace ("ns-" ++ rid) s1 = (inr ns, s1) /\
    Namespace_to_json ns
    = [("Arn", JString ("arn:" ++ get_partition (region_name b) ++
                        ":servicediscovery:" ++ region_name b ++ ":" ++
                        account_id b ++ ":namespace/" ++ "ns-" ++ rid));
       ("Id", JString ("ns-" ++ rid));
       ("Name", JString name);
       ("Description", JString description);
       ("Type", JString "HTTP");
       ("Properties",
        JObject [("DnsProperties", JObject [("SOA", JObject [])]);
                 ("HttpProperties", JObject [("HttpName", JString name)])]);
       ("CreateDate", JFloat created);
       ("UpdateDate", JFloat updated);
       ("CreatorRequestId", JString creator_request_id)]%string.
Proof.
  destruct (Namespace_init_arn (account_id b) (region_name b) name "HTTP"
              creator_request_id description
              [("SOA"%string, JObject [])]
              [("HttpName"%string, JString name)] None w b)
    as (rid & w1 & t1 & t2 & Einit & Hlen).
  match type of Einit with
  | _ = (inr ?n, _) => set (ns := n) in *
  end.
  set (b1 := with_namespaces b (dict_set (Namespace.id ns) ns (namespaces b))).
  destruct (create_operation_run "CREATE_NAMESPACE"
              [("NAMESPACE"%string, Namespace.id ns)] w1 b1)
    as (op & w2 & E & _).
  exists (Operation.id op). eexists. exists rid, ns, t1, t2.
  split.
  { unfold create_http_namespace, bind at 1, ServiceDiscovery.self.
    cbn [fst snd]. rewrite (bind_inr _ _ _ _ _ Einit).
    unfold bind at 1, assign. cbn [fst snd]. fold b1.
    unfold bind at 1, ret at 1.
    rewrite (bind_inr _ _ _ _ _ E). reflexivity. }
  split; [exact Hlen|].
  rewrite get_namespace_run.
  cbn [snd namespaces with_operations]. unfold b1.
  cbn [namespaces with_namespaces].
  change ("ns-" ++ rid)%string with (Namespace.id ns).
  rewrite dict_get_set_eq. split; reflexivity.
Qed.

End Views.

(** *** Runs on the example backend *)

#[local] Existing Instance recording_collaborators.

Lemma example_find_i1 :
  find (has_id "i-1") (Service.instances example_service)
  = Some (example_instance "i-1" "HEALTHY").
Proof. reflexivity. Defined.

Lemma deregister_instance_removes_first_witness :
  exists op s1,
    deregister_instance "srv-web00001" "i-1" (counting_world, example_backend)
    = (inr (Operation.id op), s1) /\
    Operation.operation_type op = "DEREGISTER_INSTANCE"%string.
Proof.
  pose proof (deregister_instance_removes_first "srv-web00001" "i-1"
                counting_world example_backend example_service eq_refl) as Hw.
  rewrite example_find_i1 in Hw.
  destruct Hw as (l1 & l2 & op & s1 & service' & _ & _ & E & _ & _ & _ & Hty & _).
  exists op, s1. split; assumption.
Defined.

Lemma example_no_i9 (j : ServiceInstance.t) :
  In j (Service.instances example_service) ->
  ServiceInstance.instance_id j <> "i-9"%string.
Proof. simpl. intros [<- | [<- | []]]; discriminate. Defined.

Lemma register_then_deregister_witness :
  exists op1 s1 op2 s2 service',
    register_instance "srv-web00001" "i-9" None None
      (counting_world, example_backend) = (inr op1, s1) /\
    deregister_instance "srv-web00001" "i-9" s1 = (inr op2, s2) /\
    dict_get "srv-web00001" (services (snd s2)) = Some service' /\
    Service.instances service' = Service.instances example_service.
Proof.
  destruct (register_then_deregister "srv-web00001" "i-9" None None
              counting_world example_backend example_service eq_refl
              example_no_i9)
    as (op1 & s1 & op2 & s2 & service' & E1 & E2 & Hg & Hi & _).
  exists op1, s1, op2, s2, service'. conjuncts; assumption.
Defined.

Lemma register_then_get_instance_witness :
  exists op s1,
    register_instance "srv-web00001" "i-1" None None
      (counting_world, example_backend) = (inr op, s1) /\
    get_instance "srv-web00001" "i-1" s1
    = (inr (example_instance "i-1" "HEALTHY"), s1).
Proof.
  pose proof (register_then_get_instance "srv-web00001" "i-1" None None
                counting_world example_backend example_service eq_refl) as Hw.
  destruct Hw as (op & s1 & service' & E & _ & _ & Hget).
  rewrite example_find_i1 in Hget.
  exists op, s1. split; assumption.
Defined.

Lemma update_health_status_then_get_witness :
  (exists b',
     update_instance_custom_health_status "srv-web00001" "i-1" "UNHEALTHY"
       (counting_world, example_backend) = (inr tt, (counting_world, b')) /\
     get_instance "srv-web00001" "i-1" (counting_world, b')
     = (inr (example_instance "i-1" "UNHEALTHY"), (counting_world, b'))) /\
  update_instance_custom_health_status "srv-none" "i-1" "SICK"
    (counting_world, example_backend)
  = (inl (CustomHealthNotFound "srv-none"), (counting_world, example_backend)).
Proof.
  split.
  - pose proof (update_health_status_then_get "srv-web00001" "i-1"
                  "UNHEALTHY" counting_world example_backend) as Hw.
    change (str_in "UNHEALTHY" ["HEALTHY"; "UNHEALTHY"]%string)
      with true in Hw.
    change (dict_get "srv-web00001" (services example_backend))
      with (Some example_service) in Hw.
    cbv iota in Hw. rewrite example_find_i1 in Hw.
    destruct Hw
      as (b' & service' & l1 & l2 & E & _ & _ & _ & _ & _ & _ & Hget).
    exists b'. split; assumption.
  - exact (update_health_status_then_get "srv-none" "i-1" "SICK"
             counting_world example_backend).
Defined.

Lemma Service_update_without_dns_config_witness :
  exists service',
    Service.update example_service [("Description"%string, JString "new")]
    = (None, service') /\
    Service.dns_config service' = JNull /\
    Service.description service' = JString "new".
Proof.
  destruct (Service_update_without_dns_config example_service
              [("Description"%string, JString "new")] eq_refl)
    as (service' & E & Hd & Hdesc & _).
  exists service'. conjuncts; assumption.
Defined.

Lemma Service_update_sets_dns_records_witness :
  exists service',
    Service.update example_service
      [("DnsConfig"%string,
        JObject [("RoutingPolicy"%string, JString "WEIGHTED");
                 ("DnsRecords"%string, JArray [])])]
    = (None, service') /\
    Service.dns_config service' = JObject [("DnsRecords"%string, JArray [])].
Proof.
  destruct (Service_update_sets_dns_records example_service
              [("DnsConfig"%string,
                JObject [("RoutingPolicy"%string, JString "WEIGHTED");
                         ("DnsRecords"%string, JArray [])])]
              [("RoutingPolicy"%string, JString "WEIGHTED");
               ("DnsRecords"%string, JArray [])]
              (JArray []) eq_refl eq_refl (or_introl eq_refl))
    as (service' & E & Hd & _).
  exists service'. split; assumption.
Defined.

Lemma update_service_fails_half_way_witness :
  exists b' service',
    update_service "srv-web00001"
      [("Description"%string, JString "new");
       ("DnsConfig"%string, JObject [])]
      (counting_world, example_backend)
    = (inl (KeyError "DnsRecords"), (counting_world, b')) /\
    dict_get "srv-web00001" (services b') = Some service' /\
    Service.description service' = JString "new".
Proof.
  destruct (update_service_fails_half_way "srv-web00001"
              [("Description"%string, JString "new");
               ("DnsConfig"%string, JObject [])]
              counting_world example_backend example_service
              (JString "new") [] eq_refl eq_refl eq_refl eq_refl)
    as (b' & service' & E & Hg & Hd & _).
  exists b', service'. conjuncts; assumption.
Defined.

Lemma update_service_then_get_witness :
  exists op s1,
    update_service "srv-web00001" [] (counting_world, example_backend)
    = (inr (Operation.id op), s1) /\
    get_service "srv-web00001" s1
    = (inr (Service.with_dns_config example_service JNull), s1).
Proof.
  destruct (update_service_then_get "srv-web00001" [] counting_world
              example_backend example_service
              (Service.with_dns_config example_service JNull)
              eq_refl eq_refl)
    as (op & s1 & E & Hg & _).
  exists op, s1. split; assumption.
Defined.

Lemma create_private_dns_namespace_conflict_witness :
  create_private_dns_namespace "again" "req-9" "same vpc" "vpc-1" [] None
    (counting_world, example_private_backend)
  = (inl (ConflictingDomainExists "vpc-1"),
     (counting_world, example_private_backend)).
Proof.
  apply (create_private_dns_namespace_conflict "again" "req-9" "same vpc"
           "vpc-1" [] None counting_world example_private_backend
           "ns-priv" example_private_namespace).
  - right. left. reflexivity.
  - reflexivity.
Defined.

Lemma create_private_dns_namespace_stores_witness :
  exists op ns s1,
    create_private_dns_namespace "internal" "req-2" "private zone" "vpc-1" []
      None (counting_world, example_backend) = (inr (Operation.id op), s1) /\
    get_namespace (Namespace.id ns) s1 = (inr ns, s1) /\
    Namespace.vpc ns = Some "vpc-1"%string /\
    Namespace.dns_properties ns = [("HostedZoneId"%string, JString "hzi")].
Proof.
  destruct (create_private_dns_namespace_stores "internal" "req-2"
              "private zone" "vpc-1" None counting_world example_backend
              [("HostedZoneId"%string, JString "hzi")] eq_refl eq_refl)
    as (op & ns & s1 & E & Hg & _ & _ & _ & _ & _ & Hv & _ & Hd & _).
  exists op, ns, s1. conjuncts; assumption.
Defined.

Lemma create_dns_namespace_bad_properties_witness :
  create_public_dns_namespace "zone" "req-5" "public zone" []
    (Some [("DnsProperties"%string, JNull)])
    (counting_world, example_backend)
  = (inl TypeError, (counting_world, example_backend)).
Proof.
  assert (Hnot : forall fields, JNull <> JObject fields) by discriminate.
  destruct (create_dns_namespace_bad_properties "zone" "req-5" "public zone"
              "vpc-1" [] [("DnsProperties"%string, JNull)] JNull
              counting_world example_backend eq_refl Hnot)
    as [Hpublic _].
  exact Hpublic.
Defined.

Lemma create_http_namespace_operation_witness :
  exists op ns s1,
    create_http_namespace "stage" "req-6" "staging" []
      (counting_world, example_backend) = (inr (Operation.id op), s1) /\
    get_operation (Operation.id op) (snd (list_operations s1))
    = (inr op, snd (list_operations s1)) /\
    Operation.targets op = [("NAMESPACE"%string, Namespace.id ns)].
Proof.
  destruct (create_http_namespace_operation "stage" "req-6" "staging"
              counting_world example_backend example_backend_operations_wf)
    as (op & ns & s1 & E & _ & _ & _ & Htg & _ & _ & Hl).
  exists op, ns, s1. conjuncts; assumption.
Defined.

Lemma delete_namespace_then_list_operations_witness :
  exists operation_id s1,
    delete_namespace "ns-prod" (counting_world, example_backend)
    = (inr operation_id, s1) /\
    get_operation operation_id (snd (list_operations s1))
    = (inl OperationNotFound, snd (list_operations s1)).
Proof.
  destruct (delete_namespace_then_list_operations "ns-prod" counting_world
              example_backend eq_refl example_backend_operations_wf)
    as (operation_id & s1 & E & _ & Hg & _).
  exists operation_id, s1. split; assumption.
Defined.

Lemma discover_instances_by_status_witness :
  exists revisions,
    discover_instances "prod" "web" [("zone", "a")]%string
      [("zone", "b")]%string "UNHEALTHY" (counting_world, example_backend)
    = (inr ([example_instance "i-2" "UNHEALTHY"], revisions),
       (counting_world, example_backend)).
Proof.
  destruct (discover_instances_by_status "prod" "web" [("zone", "a")]%string
              [("zone", "b")]%string "UNHEALTHY" counting_world
              example_backend example_namespace example_service
              example_service (or_intror eq_refl) example_backend_health
              eq_refl eq_refl eq_refl)
    as (revisions & E & _).
  exists revisions. exact E.
Defined.

Lemma example_new_backend_keyed : keyed_by_id example_new_backend.
Proof. unfold keyed_by_id. conjuncts; intros k v []. Defined.

Lemma example_new_backend_health : health_known example_new_backend.
Proof. intros k srv i Hg. discriminate. Defined.

Lemma example_new_backend_vpc : vpc_unique example_new_backend.
Proof. intros k1 k2 n1 n2 v Hg. discriminate. Defined.

Lemma calls_keep_keyed_by_id_witness :
  keyed_by_id
    (snd (after_calls example_calls (counting_world, example_new_backend))).
Proof.
  apply (calls_keep_keyed_by_id example_calls
           (counting_world, example_new_backend)).
  exact example_new_backend_keyed.
Defined.

Lemma calls_keep_health_known_witness :
  health_known
    (snd (after_calls example_calls (counting_world, example_new_backend))).
Proof.
  apply (calls_keep_health_known example_calls
           (counting_world, example_new_backend)).
  exact example_new_backend_health.
Defined.

Lemma calls_keep_vpc_unique_witness :
  vpc_unique
    (snd (after_calls example_calls (counting_world, example_new_backend))).
Proof.
  apply (calls_keep_vpc_unique example_calls
           (counting_world, example_new_backend)).
  exact example_new_backend_vpc.
Defined.

Lemma paginate_returns_the_page_witness :
  exists page next,
    paginate 4300 ["a"; "b"; "c"; "d"; "e"]%string (Some (Z.of_nat 2))
      (Some (str_int (Z.of_nat 2))) = inr (page, next) /\
    page = ["c"; "d"]%string /\
    next = Some "4"%string.
Proof.
  destruct (paginate_returns_the_page 4300 ["a"; "b"; "c"; "d"; "e"]%string
              2 2 eq_refl eq_refl)
    as (page & next & E & Hp & _ & _ & Hn).
  exists page, next. conjuncts; [exact E | exact Hp |].
  apply Hn. simpl. lia.
Defined.

Lemma example_positions_allowed (k : nat) :
  (k <= length ["a"; "b"; "c"]%string)%nat ->
  digits_allowed 4300 (String.length (str_int (Z.of_nat k))) = true.
Proof.
  intros Hk. do 4 (destruct k as [|k]; [reflexivity|]). simpl in Hk. lia.
Defined.

Lemma follow_pages_gives_all_items_witness :
  follow_pages 4300 4 ["a"; "b"; "c"]%string (Some (Z.of_nat 2)) None
  = inr (Some ["a"; "b"; "c"]%string).
Proof.
  apply (follow_pages_gives_all_items 4300 ["a"; "b"; "c"]%string 2).
  - lia.
  - exact example_positions_allowed.
Defined.

Lemma paginate_zero_never_ends_witness :
  paginate 4300 ["a"]%string (Some 0%Z) None = inr ([], Some "0"%string) /\
  paginate 4300 ["a"]%string (Some 0%Z) (Some "0"%string)
  = inr ([], Some "0"%string) /\
  follow_pages 4300 100 ["a"]%string (Some 0%Z) None = inr None.
Proof.
  apply (paginate_zero_never_ends 4300 ["a"]%string 100).
  - discriminate.
  - reflexivity.
Defined.

Lemma get_instances_health_status_of_containers_witness :
  get_instances_health_status "srv-web00001" (JString "i-1,i-2")
    (counting_world, example_backend)
  = (inr [("i-1", "HEALTHY"); ("i-2", "UNHEALTHY")]%string,
     (counting_world, example_backend)).
Proof.
  destruct (get_instances_health_status_of_containers "srv-web00001"
              counting_world example_backend example_service eq_refl)
    as (_ & Hs & _).
  exact (Hs "i-1,i-2"%string).
Defined.

Lemma registered_instance_to_json_witness :
  exists op s1 instance,
    register_instance "srv-web00001" "i-9" (Some "my-request"%string) None
      (counting_world, example_backend) = (inr op, s1) /\
    get_instance "srv-web00001" "i-9" s1 = (inr instance, s1) /\
    ServiceInstance_to_json instance
    = [("Id"%string, JString "i-9");
       ("CreatorRequestId"%string, JString "srv-web00001");
       ("Attributes"%string, JObject [])].
Proof.
  apply (registered_instance_to_json "srv-web00001" "i-9"
           (Some "my-request"%string) None counting_world example_backend
           example_service); reflexivity.
Defined.

End ServiceDiscoveryMore.

(* ===================================================================== *)
(** ** Step Functions: strings and the empty stack *)
(* ===================================================================== *)

Module StepFunctionsMore.

Import StepFunctions PyFacts StepFunctionsSpec.
Local Open Scope list_scope.

(** X30.  When the top of the operand stack is a string,
    [_string_equals] replaces it by [True] exactly when the operand is the
    same string, character for character, and touches nothing else of the
    environment, whatever the digit bound of the interpreter.  On an empty
    stack [_string_equals] raises IndexError and leaves the environment as
    it was. *)
Theorem string_equals_on_a_string (limit : nat) (env : Environment)
    (rest : list json) (s : string) (value : json) :
  stack env = rest ++ [JString s] ->
  (exists b env',
     _string_equals limit env value = inr env' /\
     stack env' = rest ++ [JBool b] /\
     (b = true <-> value = JString s) /\
     inp env' = inp env /\
     context_vars env' = context_vars env /\
     event_log env' = event_log env) /\
  _string_equals limit (with_stack env []) value
  = inl (IndexError, with_stack env []).
Proof.
  intros Hst. conjuncts.
  - exists (Py.str_eq s value). eexists.
    split;
      [apply (string_equals_snoc limit env rest (JString s) value s Hst);
       apply str_checked_string|].
    cbn [stack inp context_vars event_log with_stack].
    conjuncts; try reflexivity. apply str_eq_true.
  - reflexivity.
Qed.

Lemma string_equals_on_a_string_witness :
  exists b env',
    _string_equals 4300 (env_of JNull [JInt 1; JString "Ab"]) (JString "ab")
    = inr env' /\
    stack env' = [JInt 1] ++ [JBool b] /\
    (b = true <-> JString "ab" = JString "Ab").
Proof.
  destruct (string_equals_on_a_string 4300
              (env_of JNull [JInt 1; JString "Ab"])
              [JInt 1] "Ab" (JString "ab") eq_refl)
    as ((b & env' & E & Hs & Hb & _) & _).
  exists b, env'. conjuncts; assumption.
Defined.

End StepFunctionsMore.
